(** * The PMU core of the SBI firmware, embedded in Rocq

    The C functions are transcribed one by one, with their names, as
    computations over the file's static data.  A computation either finishes
    with a value and a new state or reaches behaviour the C language leaves
    undefined (an array subscript outside the declared bounds, a shift by at
    least the width of the type, a read of a local that was never written).

    The constants of the headers (sbi/sbi_pmu.h, sbi/sbi_error.h,
    sbi/riscv_encoding.h, sbi/sbi_ecall_interface.h) and the queries to the
    platform and to the hart are parameters of the development, gathered in
    the class [pmu_consts]; the register and bit macros the functions use are
    modelled with the primitive accesses. *)

From Stdlib Require Import ZArith Lia Bool List.
From stdpp Require Import base list.
Import ListNotations.

#[local] Open Scope Z_scope.

(** ** Constants of the headers *)

Class pmu_consts : Type := {
  (* __riscv_xlen, which is also BITS_PER_LONG *)
  XLEN : Z;
  SBI_PMU_HW_EVENT_MAX : Z;
  SBI_HARTMASK_MAX_BITS : Z;
  SBI_PMU_HW_CTR_MAX : Z;
  SBI_PMU_FW_CTR_MAX : Z;
  SBI_PMU_FW_EVENT_MAX : Z;
  SBI_PMU_FW_MAX : Z;
  SBI_PMU_EVENT_IDX_TYPE_MASK : Z;
  SBI_PMU_EVENT_IDX_CODE_MASK : Z;
  SBI_PMU_EVENT_IDX_INVALID : Z;
  SBI_PMU_EVENT_TYPE_MAX : Z;
  SBI_PMU_EVENT_TYPE_FW : Z;
  SBI_PMU_HW_CPU_CYCLES : Z;
  SBI_PMU_HW_INSTRUCTIONS : Z;
  SBI_PMU_EVENT_RAW_IDX : Z;
  SBI_PMU_CTR_TYPE_HW : Z;
  SBI_PMU_CTR_TYPE_FW : Z;
  SBI_EFAIL : Z;
  SBI_ENOTSUPP : Z;
  SBI_EINVAL : Z;
  SBI_EDENIED : Z;
  SBI_EINVALID_ADDR : Z;
  SBI_EALREADY_STARTED : Z;
  SBI_EALREADY_STOPPED : Z;
  CSR_CYCLE : Z;
  CSR_MCYCLE : Z;
  CSR_MCYCLEH : Z;
  CSR_MCOUNTEREN : Z;
  CSR_MCOUNTINHIBIT : Z;
  (* sbi_platform_get_mhpmevent_value(plat, event_idx, data) *)
  sbi_platform_get_mhpmevent_value : Z -> Z -> Z;
  (* sbi_hart_pmu_event_bits(scratch) *)
  sbi_hart_pmu_event_bits : Z;
  (* sbi_hart_mhpm_count(scratch) *)
  sbi_hart_mhpm_count : Z;
  (* sbi_hart_has_feature(scratch, SBI_HART_HAS_MCOUNTINHIBIT) *)
  sbi_hart_has_mcountinhibit : bool
}.

(** ** Data *)

(** struct sbi_pmu_hw_event *)
Record sbi_pmu_hw_event : Type := mk_hw_event {
  counters : Z;
  start_idx : Z;
  end_idx : Z;
  select : Z
}.

(** struct sbi_pmu_fw_event *)
Record sbi_pmu_fw_event : Type := mk_fw_event {
  event_idx : Z;
  curr_count : Z;
  bStarted : bool
}.

(** union sbi_pmu_ctr_info, by its bit fields (the reserved field is never
    written and stays 0). *)
Record sbi_pmu_ctr_info : Type := mk_ctr_info {
  csr : Z;
  width : Z;
  type : Z
}.

(** The static data of the file, the control and status registers of the
    executing hart, and the identifier current_hartid() returns. *)
Record pmu_state : Type := mk_state {
  hw_event_map : list sbi_pmu_hw_event;
  active_events : list (list Z);
  fw_event_map : list (list sbi_pmu_fw_event);
  num_hw_events : Z;
  num_hw_ctrs : Z;
  total_ctrs : Z;
  csrs : Z -> Z;
  mhartid : Z
}.

(** What C leaves undefined. *)
Inductive undefined : Type :=
  | OutOfBounds
  | ShiftTooFar
  | Uninitialised.

Inductive outcome (A : Type) : Type :=
  | Done (a : A) (s : pmu_state)
  | Undefined (u : undefined).

Arguments Done {A} a s.
Arguments Undefined {A} u.

Definition M (A : Type) : Type := pmu_state -> outcome A.

Definition ret {A : Type} (a : A) : M A := fun s => Done a s.

Definition bind {A B : Type} (c : M A) (k : A -> M B) : M B :=
  fun s => match c s with
           | Done a s' => k a s'
           | Undefined u => Undefined u
           end.

Definition undef {A : Type} (u : undefined) : M A := fun _ => Undefined u.

Definition gets {A : Type} (f : pmu_state -> A) : M A := fun s => Done (f s) s.

(** The state a computation ends in (the initial one if it does not end). *)
Definition state_after {A : Type} (c : M A) (s : pmu_state) : pmu_state :=
  match c s with
  | Done _ s' => s'
  | Undefined _ => s
  end.

Declare Scope pmu_scope.
Delimit Scope pmu_scope with pmu.
Notation "'do' x <- c ; k" := (bind c (fun x => k))
  (at level 10, x name, c at level 100, k at level 200) : pmu_scope.
Notation "'do' ' p <- c ; k" := (bind c (fun x => match x with p => k end))
  (at level 10, p pattern, c at level 100, k at level 200) : pmu_scope.
Notation "c ;; k" := (bind c (fun _ => k))
  (at level 100, k at level 200, right associativity) : pmu_scope.

#[local] Open Scope pmu_scope.

(** ** Arrays *)

(** [a[i]] for an array held as a list: nothing outside the bounds. *)
Definition index {A : Type} (a : list A) (i : Z) : option A :=
  if 0 <=? i then a !! Z.to_nat i else None.

(** [a[h][i]] for a two-dimensional array. *)
Definition index2 {A : Type} (a : list (list A)) (h i : Z) : option A :=
  match index a h with
  | Some row => index row i
  | None => None
  end.

Definition update {A : Type} (a : list A) (i : Z) (v : A) : list A :=
  <[Z.to_nat i := v]> a.

Definition update2 {A : Type} (a : list (list A)) (h i : Z) (v : A)
  : list (list A) :=
  match index a h with
  | Some row => update a h (update row i v)
  | None => a
  end.

Definition set_hw_event_map (m : list sbi_pmu_hw_event) (s : pmu_state) :=
  mk_state m (active_events s) (fw_event_map s) (num_hw_events s)
           (num_hw_ctrs s) (total_ctrs s) (csrs s) (mhartid s).

Definition set_active_events (a : list (list Z)) (s : pmu_state) :=
  mk_state (hw_event_map s) a (fw_event_map s) (num_hw_events s)
           (num_hw_ctrs s) (total_ctrs s) (csrs s) (mhartid s).

Definition set_fw_event_map (f : list (list sbi_pmu_fw_event)) (s : pmu_state) :=
  mk_state (hw_event_map s) (active_events s) f (num_hw_events s)
           (num_hw_ctrs s) (total_ctrs s) (csrs s) (mhartid s).

Definition set_num_hw_events (n : Z) (s : pmu_state) :=
  mk_state (hw_event_map s) (active_events s) (fw_event_map s) n
           (num_hw_ctrs s) (total_ctrs s) (csrs s) (mhartid s).

Definition set_num_hw_ctrs (n : Z) (s : pmu_state) :=
  mk_state (hw_event_map s) (active_events s) (fw_event_map s)
           (num_hw_events s) n (total_ctrs s) (csrs s) (mhartid s).

Definition set_total_ctrs (n : Z) (s : pmu_state) :=
  mk_state (hw_event_map s) (active_events s) (fw_event_map s)
           (num_hw_events s) (num_hw_ctrs s) n (csrs s) (mhartid s).

Definition set_csrs (c : Z -> Z) (s : pmu_state) :=
  mk_state (hw_event_map s) (active_events s) (fw_event_map s)
           (num_hw_events s) (num_hw_ctrs s) (total_ctrs s) c (mhartid s).

Section Pmu.

Context {K : pmu_consts}.

(** Values of the C types unsigned long and uint32_t. *)
Definition ulong (x : Z) : Z := x mod 2 ^ XLEN.
Definition u32 (x : Z) : Z := x mod 2 ^ 32.

(** ** Primitive accesses *)

(** Modelled from the spec: current_hartid() of sbi/riscv_asm.h is not among
    the sources; it is the identifier of the executing hart, by which the
    spec has all mutable state indexed. *)
Definition current_hartid : M Z := gets mhartid.

Definition load_hw_event (i : Z) : M sbi_pmu_hw_event :=
  fun s => match index (hw_event_map s) i with
           | Some e => Done e s
           | None => Undefined OutOfBounds
           end.

Definition store_hw_event (i : Z) (e : sbi_pmu_hw_event) : M unit :=
  fun s => match index (hw_event_map s) i with
           | Some _ => Done tt (set_hw_event_map (update (hw_event_map s) i e) s)
           | None => Undefined OutOfBounds
           end.

Definition load_active_event (h i : Z) : M Z :=
  fun s => match index2 (active_events s) h i with
           | Some v => Done v s
           | None => Undefined OutOfBounds
           end.

Definition store_active_event (h i v : Z) : M unit :=
  fun s => match index2 (active_events s) h i with
           | Some _ =>
               Done tt (set_active_events (update2 (active_events s) h i v) s)
           | None => Undefined OutOfBounds
           end.

Definition load_fw_event (h i : Z) : M sbi_pmu_fw_event :=
  fun s => match index2 (fw_event_map s) h i with
           | Some e => Done e s
           | None => Undefined OutOfBounds
           end.

Definition store_fw_event (h i : Z) (e : sbi_pmu_fw_event) : M unit :=
  fun s => match index2 (fw_event_map s) h i with
           | Some _ =>
               Done tt (set_fw_event_map (update2 (fw_event_map s) h i e) s)
           | None => Undefined OutOfBounds
           end.

(** Modelled from the spec: csr_read and csr_read_num of sbi/riscv_asm.h are
    not among the sources; the spec has a CSR as a hardware-addressable
    register holding counter or control state.  The value register [n]
    holds. *)
Definition csr_read (n : Z) : M Z := gets (fun s => csrs s n).

(** Modelled from the spec: csr_write and csr_write_num of sbi/riscv_asm.h
    are not among the sources.  Register [n] takes the value, of which it
    holds XLEN bits. *)
Definition csr_write (n v : Z) : M unit :=
  fun s => Done tt (set_csrs (fun m => if m =? n then ulong v else csrs s m) s).

(** Modelled from the spec: __test_bit of sbi/sbi_bitops.h is not among the
    sources; the spec has the enable and inhibit bits as a fixed-width bitset
    with test, set and clear operations.  The bitmap here is one word. *)
Definition __test_bit (nr word : Z) : M bool :=
  if (0 <=? nr) && (nr <? XLEN) then ret (Z.testbit word nr)
  else undef OutOfBounds.

(** Modelled from the spec: __set_bit of sbi/sbi_bitops.h, as __test_bit. *)
Definition __set_bit (nr word : Z) : M Z :=
  if (0 <=? nr) && (nr <? XLEN) then ret (Z.lor word (Z.shiftl 1 nr))
  else undef OutOfBounds.

(** Modelled from the spec: __clear_bit of sbi/sbi_bitops.h, as
    __test_bit. *)
Definition __clear_bit (nr word : Z) : M Z :=
  if (0 <=? nr) && (nr <? XLEN) then ret (Z.ldiff word (Z.shiftl 1 nr))
  else undef OutOfBounds.

(** [x << n] on unsigned long; C leaves a shift by XLEN or more
    undefined. *)
Definition shl (x n : Z) : M Z :=
  if (0 <=? n) && (n <? XLEN) then ret (ulong (Z.shiftl x n))
  else undef ShiftTooFar.

(** ** Helper macros *)

Definition get_cidx_type (x : Z) : Z :=
  Z.shiftr (Z.land x SBI_PMU_EVENT_IDX_TYPE_MASK) 16.

Definition get_cidx_code (x : Z) : Z :=
  Z.land x SBI_PMU_EVENT_IDX_CODE_MASK.

(** ** Registration of hardware events *)

Definition pmu_event_range_overlap (evtA evtB : sbi_pmu_hw_event) : bool :=
  if ((end_idx evtA <? start_idx evtB) && (end_idx evtA <? end_idx evtB))
     || ((start_idx evtA >? start_idx evtB) && (start_idx evtA >? end_idx evtB))
  then false
  else true.

Definition pmu_event_select_overlap (evt : sbi_pmu_hw_event) (select_val : Z)
  : bool :=
  if select evt =? select_val then true else false.

(** The sanity loop of pmu_add_hw_event_map: [k] iterations from index [i];
    [true] stands for the return of SBI_EINVALID_ADDR from inside the loop.
    [event] is the slot hw_event_map[num_hw_events]. *)
Fixpoint pmu_add_hw_event_map_loop (k : nat) (i event : Z)
    (eidx_start select_val : Z) : M bool :=
  match k with
  | O => ret false
  | S k' =>
      do evtA <- load_hw_event i;
      do is_overlap <-
        (if eidx_start =? SBI_PMU_EVENT_RAW_IDX
         then ret (pmu_event_select_overlap evtA select_val)
         else do evtB <- load_hw_event event;
              ret (pmu_event_range_overlap evtA evtB));
      if is_overlap : bool then ret true
      else pmu_add_hw_event_map_loop k' (i + 1) event eidx_start select_val
  end.

Definition pmu_add_hw_event_map (eidx_start eidx_end cmap select_val : Z)
  : M Z :=
  do n <- gets num_hw_events;
  if ((eidx_start =? SBI_PMU_HW_CPU_CYCLES) && negb (cmap =? 1))
     || ((eidx_start =? SBI_PMU_HW_INSTRUCTIONS) && negb (cmap =? 4))
     || ((eidx_start >? SBI_PMU_HW_INSTRUCTIONS) && (cmap <? 8))
  then ret SBI_EDENIED
  else if n >=? SBI_PMU_HW_EVENT_MAX - 1 then
    (* the message of sbi_printf is not modelled *)
    ret SBI_EFAIL
  else
    store_hw_event n (mk_hw_event cmap eidx_start eidx_end select_val) ;;
    do conflict <-
      pmu_add_hw_event_map_loop (Z.to_nat n) 0 n eidx_start select_val;
    if conflict : bool then ret SBI_EINVALID_ADDR
    else
      (fun s => Done tt (set_num_hw_events (n + 1) s)) ;;
      ret 0.

Definition sbi_pmu_add_hw_event_counter_map (eidx_start eidx_end cmap : Z)
  : M Z :=
  if (eidx_start >? eidx_end)
     || (eidx_start =? SBI_PMU_EVENT_RAW_IDX)
     || (eidx_end =? SBI_PMU_EVENT_RAW_IDX)
  then ret SBI_EINVAL
  else pmu_add_hw_event_map eidx_start eidx_end cmap 0.

Definition sbi_pmu_add_raw_event_counter_map (select_val cmap : Z) : M Z :=
  pmu_add_hw_event_map SBI_PMU_EVENT_RAW_IDX SBI_PMU_EVENT_RAW_IDX cmap
                       select_val.

(** ** Reading a counter *)

(** pmu_validate_ctr: the result and what was stored through event_idx_code
    ([None] when nothing was stored).  The table is read before [cidx] is
    compared with total_ctrs, as in the source.  The entries of active_events
    are uint32_t, so the type, a 32-bit value shifted right by 16, is
    unchanged by its conversion to int. *)
Definition pmu_validate_ctr (cidx : Z) : M (Z * option Z) :=
  do hartid <- current_hartid;
  do event_idx_val <- load_active_event hartid cidx;
  do total <- gets total_ctrs;
  if (cidx >=? total) || (event_idx_val =? SBI_PMU_EVENT_IDX_INVALID)
  then ret (SBI_EINVAL, None)
  else
    let event_idx_type := get_cidx_type event_idx_val in
    if event_idx_type >=? SBI_PMU_EVENT_TYPE_MAX then ret (SBI_EINVAL, None)
    else ret (event_idx_type, Some (get_cidx_code event_idx_val)).

(** The value of a local that may not have been written. *)
Definition local {A : Type} (v : option A) : M A :=
  match v with
  | Some a => ret a
  | None => undef Uninitialised
  end.

(** sbi_pmu_read_fw_ctr: the result and the value stored through cval. *)
Definition sbi_pmu_read_fw_ctr (cidx fw_evt_code : Z) : M (Z * Z) :=
  do hartid <- current_hartid;
  do fevent <- load_fw_event hartid fw_evt_code;
  ret (0, curr_count fevent).

(** sbi_pmu_read_hw_ctr: the result and the value stored through cval. *)
Definition sbi_pmu_read_hw_ctr (cidx : Z) : M (Z * Z) :=
  if XLEN =? 32 then
    do temp <- csr_read (CSR_MCYCLE + cidx);
    do temph <- csr_read (CSR_MCYCLEH + cidx);
    ret (0, Z.lor (Z.shiftl temph 32) temp)
  else
    do v <- csr_read (CSR_MCYCLE + cidx);
    ret (0, v).

(** sbi_pmu_read_ctr: [cval] is what the caller's variable holds before the
    call; the second component of the result is what it holds after. *)
Definition sbi_pmu_read_ctr (cidx cval : Z) : M (Z * Z) :=
  do '(event_idx_type, event_code) <- pmu_validate_ctr cidx;
  if event_idx_type <? 0 then ret (SBI_EINVAL, cval)
  else if event_idx_type =? SBI_PMU_EVENT_TYPE_FW then
    do code <- local event_code;
    do '(_, v) <- sbi_pmu_read_fw_ctr cidx code;
    ret (0, v)
  else
    (* the value goes to the local cval64, which is dropped *)
    do '(_, cval64) <- sbi_pmu_read_hw_ctr cidx;
    ret (0, cval).

(** ** Starting and stopping *)

Definition pmu_start_hw_ctr (cidx ival : Z) : M Z :=
  do mctr_en <- csr_read CSR_MCOUNTEREN;
  do mctr_inhbt <- csr_read CSR_MCOUNTINHIBIT;
  do nhw <- gets num_hw_ctrs;
  if cidx >? nhw then ret SBI_EINVAL
  else
    do en <- __test_bit cidx mctr_en;
    do inh <- __test_bit cidx mctr_inhbt;
    if en && negb inh then ret SBI_EALREADY_STARTED
    else
      do mctr_en' <- __set_bit cidx mctr_en;
      do mctr_inhbt' <- __clear_bit cidx mctr_inhbt;
      csr_write CSR_MCOUNTEREN mctr_en' ;;
      csr_write CSR_MCOUNTINHIBIT mctr_inhbt' ;;
      (if XLEN =? 32 then
         csr_write (CSR_MCYCLE + cidx) (Z.land ival 65535) ;;
         csr_write (CSR_MCYCLEH + cidx) (Z.shiftr ival XLEN)
       else csr_write (CSR_MCYCLE + cidx) ival) ;;
      ret 0.

Definition pmu_start_fw_ctr (cidx ival fw_evt_code : Z) : M Z :=
  do hartid <- current_hartid;
  do fevent <- load_fw_event hartid fw_evt_code;
  store_fw_event hartid fw_evt_code
    (mk_fw_event (event_idx fevent) (ulong ival) true) ;;
  ret 0.

Definition sbi_pmu_start_ctr (cidx ival : Z) : M Z :=
  do '(event_idx_type, event_code) <- pmu_validate_ctr cidx;
  if event_idx_type <? 0 then ret SBI_EINVAL
  else if event_idx_type =? SBI_PMU_EVENT_TYPE_FW then
    do code <- local event_code;
    pmu_start_fw_ctr cidx ival code
  else pmu_start_hw_ctr cidx ival.

Definition pmu_stop_hw_ctr (cidx : Z) : M Z :=
  do mctr_en <- csr_read CSR_MCOUNTEREN;
  do mctr_inhbt <- csr_read CSR_MCOUNTINHIBIT;
  do en <- __test_bit cidx mctr_en;
  do inh <- __test_bit cidx mctr_inhbt;
  if en && negb inh then
    do mctr_inhbt' <- __set_bit cidx mctr_inhbt;
    do mctr_en' <- __clear_bit cidx mctr_en;
    csr_write CSR_MCOUNTEREN mctr_en' ;;
    csr_write CSR_MCOUNTINHIBIT mctr_inhbt' ;;
    ret 0
  else ret SBI_EALREADY_STOPPED.

Definition pmu_stop_fw_ctr (cidx fw_evt_code : Z) : M Z :=
  do hartid <- current_hartid;
  do fevent <- load_fw_event hartid fw_evt_code;
  store_fw_event hartid fw_evt_code
    (mk_fw_event (event_idx fevent) (curr_count fevent) false) ;;
  ret 0.

Definition sbi_pmu_stop_ctr (cidx : Z) (bReset : bool) : M Z :=
  do hartid <- current_hartid;
  do '(event_idx_type, event_code) <- pmu_validate_ctr cidx;
  if event_idx_type <? 0 then ret SBI_EINVAL
  else
    do r <-
      (if event_idx_type =? SBI_PMU_EVENT_TYPE_FW then
         do code <- local event_code;
         pmu_stop_fw_ctr cidx code
       else pmu_stop_hw_ctr cidx);
    (if (r =? 0) && bReset
     then store_active_event hartid cidx SBI_PMU_EVENT_IDX_INVALID
     else ret tt) ;;
    ret r.

(** ** Matching an event with a counter *)

Definition pmu_update_hw_mhpmevent (ctr_idx eindex data : Z) : M Z :=
  let mhpmevent_val := sbi_platform_get_mhpmevent_value eindex data in
  if (mhpmevent_val =? 0) || (ctr_idx <? 3) || (ctr_idx >=? SBI_PMU_HW_CTR_MAX)
  then ret SBI_EFAIL
  else
    csr_write (CSR_MCOUNTINHIBIT + ctr_idx) mhpmevent_val ;;
    ret 0.

(** Modelled from the spec: find_next_bit of sbi/sbi_bitops.h, which is not
    among the sources; the spec has the candidate indices scanned in ascending
    order.  The first set bit of [word] at or after [from] and below [size],
    [size] when there is none; [k] bounds the number of positions tried. *)
Fixpoint find_next_bit (k : nat) (word size from : Z) : Z :=
  match k with
  | O => size
  | S k' =>
      if from >=? size then size
      else if Z.testbit word from then from
      else find_next_bit k' word size (from + 1)
  end.

(** The body of for_each_set_bit_from in pmu_find_hw_ctr, entered with [bit]
    already at a set bit or at the size: the counter taken, if any, and the
    value the loop leaves in cbase. *)
Fixpoint pmu_find_hw_ctr_bits (k : nat) (ctr_mask mctr_en mctr_inhbt bit : Z)
  : M (option Z * Z) :=
  match k with
  | O => ret (None, bit)
  | S k' =>
      if bit <? SBI_PMU_HW_CTR_MAX then
        do en <- __test_bit bit mctr_en;
        do inh <- __test_bit bit mctr_inhbt;
        if negb en && inh then ret (Some bit, bit)
        else
          pmu_find_hw_ctr_bits k' ctr_mask mctr_en mctr_inhbt
            (find_next_bit (Z.to_nat SBI_PMU_HW_CTR_MAX) ctr_mask
               SBI_PMU_HW_CTR_MAX (bit + 1))
      else ret (None, bit)
  end.

(** The loop of pmu_find_hw_ctr over the registered events: [k] iterations
    from index [i], threading cbase and ctr_idx. *)
Fixpoint pmu_find_hw_ctr_loop (k : nat) (i cbase cmask event_idx data : Z)
    (mctr_en mctr_inhbt ctr_idx : Z) : M Z :=
  match k with
  | O => ret ctr_idx
  | S k' =>
      do temp <- load_hw_event i;
      if ((start_idx temp >? event_idx) && (event_idx <? end_idx temp))
         || ((start_idx temp <? event_idx) && (event_idx >? end_idx temp))
      then pmu_find_hw_ctr_loop k' (i + 1) cbase cmask event_idx data
             mctr_en mctr_inhbt ctr_idx
      else if (event_idx =? SBI_PMU_EVENT_RAW_IDX)
              && negb (select temp =? data)
      then pmu_find_hw_ctr_loop k' (i + 1) cbase cmask event_idx data
             mctr_en mctr_inhbt ctr_idx
      else
        do shifted <- shl cmask cbase;
        let ctr_mask := Z.land (counters temp) shifted in
        do '(found, cbase') <-
          pmu_find_hw_ctr_bits (Z.to_nat SBI_PMU_HW_CTR_MAX) ctr_mask
            mctr_en mctr_inhbt
            (find_next_bit (Z.to_nat SBI_PMU_HW_CTR_MAX) ctr_mask
               SBI_PMU_HW_CTR_MAX cbase);
        pmu_find_hw_ctr_loop k' (i + 1) cbase' cmask event_idx data
          mctr_en mctr_inhbt
          (match found with Some c => c | None => ctr_idx end)
  end.

Definition pmu_find_hw_ctr (cbase cmask event_idx data : Z) : M Z :=
  do mctr_en <- csr_read CSR_MCOUNTEREN;
  do mctr_inhbt <- csr_read CSR_MCOUNTINHIBIT;
  let evt_idx_code := get_cidx_code event_idx in
  do nhw <- gets num_hw_ctrs;
  if cbase >? nhw then ret SBI_EINVAL
  else
    do n <- gets num_hw_events;
    do ctr_idx <-
      pmu_find_hw_ctr_loop (Z.to_nat n) 0 cbase cmask event_idx data
        mctr_en mctr_inhbt SBI_ENOTSUPP;
    if ctr_idx =? SBI_ENOTSUPP then ret SBI_EFAIL
    else
      do r <-
        (if negb (evt_idx_code =? SBI_PMU_HW_CPU_CYCLES)
            && negb (evt_idx_code =? SBI_PMU_HW_INSTRUCTIONS)
         then pmu_update_hw_mhpmevent ctr_idx event_idx data
         else ret 0);
      if r =? 0 then ret ctr_idx else ret r.

(** The loop of pmu_find_fw_ctr: [k] iterations from index [i]. *)
Fixpoint pmu_find_fw_ctr_loop (k : nat) (i ctr_mask hartid : Z) : M Z :=
  match k with
  | O => ret SBI_ENOTSUPP
  | S k' =>
      do ev <- load_active_event hartid i;
      do hit <-
        (if ev =? SBI_PMU_EVENT_IDX_INVALID then
           do one <- shl 1 i;
           ret (negb (Z.land one ctr_mask =? 0))
         else ret false);
      if hit : bool then ret i
      else pmu_find_fw_ctr_loop k' (i + 1) ctr_mask hartid
  end.

Definition pmu_find_fw_ctr (cbase cmask hartid : Z) : M Z :=
  do ctr_mask <- shl cmask cbase;
  do nhw <- gets num_hw_ctrs;
  let fw_base := if cbase <=? nhw then nhw + 1 else cbase in
  do total <- gets total_ctrs;
  pmu_find_fw_ctr_loop (Z.to_nat (total - fw_base)) fw_base ctr_mask hartid.

Definition sbi_pmu_get_ctr_match
    (cidx_base cidx_mask event_idx event_data flags : Z) : M Z :=
  do hartid <- current_hartid;
  let event_type := get_cidx_type event_idx in
  do total <- gets total_ctrs;
  if (cidx_base >=? total) || (event_type >=? SBI_PMU_EVENT_TYPE_MAX)
  then ret SBI_EINVAL
  else
    do ctr_idx <-
      (if event_type =? SBI_PMU_EVENT_TYPE_FW
       then pmu_find_fw_ctr cidx_base cidx_mask hartid
       else pmu_find_hw_ctr cidx_base cidx_mask event_idx event_data);
    if ctr_idx <? 0 then ret SBI_ENOTSUPP
    else
      store_active_event hartid ctr_idx (u32 event_idx) ;;
      ret ctr_idx.

(** ** The firmware event hook *)

Definition sbi_pmu_incr_fw_ctr (fw_id : Z) : M Z :=
  do hartid <- current_hartid;
  if fw_id >=? SBI_PMU_FW_MAX then ret SBI_EINVAL
  else
    do fevent <- load_fw_event hartid fw_id;
    (if bStarted fevent
     then store_fw_event hartid fw_id
            (mk_fw_event (event_idx fevent) (ulong (curr_count fevent + 1))
               (bStarted fevent))
     else ret tt) ;;
    ret 0.

(** ** Counter information *)

Definition sbi_pmu_num_ctr : M Z :=
  do nhw <- gets num_hw_ctrs;
  ret (u32 (nhw + SBI_PMU_FW_CTR_MAX)).

(** sbi_pmu_get_ctr_info: the result and the union stored through ctr_info
    ([None] when nothing is stored).  An assignment to a bit field keeps the
    low bits that fit. *)
Definition sbi_pmu_get_ctr_info (cidx : Z) : M (Z * option sbi_pmu_ctr_info) :=
  do total <- gets total_ctrs;
  do nhw <- gets num_hw_ctrs;
  if (cidx >? total) || (cidx =? 1) then ret (SBI_EINVAL, None)
  else if cidx <=? nhw then
    ret (0, Some (mk_ctr_info
                    ((CSR_CYCLE + cidx) mod 2 ^ 12)
                    ((if (cidx =? 0) || (cidx =? 2) then 63
                      else sbi_hart_pmu_event_bits) mod 2 ^ 6)
                    (SBI_PMU_CTR_TYPE_HW mod 2)))
  else
    ret (0, Some (mk_ctr_info 0 ((XLEN - 1) mod 2 ^ 6)
                    (SBI_PMU_CTR_TYPE_FW mod 2))).

(** ** Initialisation *)

(** The two loops of pmu_reset_event_map: [k] iterations from index [j]. *)
Fixpoint pmu_reset_active_events (k : nat) (hartid j : Z) : M unit :=
  match k with
  | O => ret tt
  | S k' =>
      store_active_event hartid j SBI_PMU_EVENT_IDX_INVALID ;;
      pmu_reset_active_events k' hartid (j + 1)
  end.

Fixpoint pmu_reset_fw_events (k : nat) (hartid j : Z) : M unit :=
  match k with
  | O => ret tt
  | S k' =>
      store_fw_event hartid j (mk_fw_event 0 0 false) ;;
      pmu_reset_fw_events k' hartid (j + 1)
  end.

Definition pmu_reset_event_map (hartid : Z) : M unit :=
  do total <- gets total_ctrs;
  pmu_reset_active_events (Z.to_nat total) hartid 0 ;;
  pmu_reset_fw_events (Z.to_nat SBI_PMU_FW_CTR_MAX) hartid 0.

Definition sbi_pmu_exit : M unit :=
  do hartid <- current_hartid;
  pmu_reset_event_map hartid.

(** sbi_pmu_init; [platform_pmu_init] stands for sbi_platform_pmu_init, the
    hook through which the platform makes its registration calls. *)
Definition sbi_pmu_init (platform_pmu_init : M Z) (cold_boot : bool) : M Z :=
  if negb sbi_hart_has_mcountinhibit then ret SBI_ENOTSUPP
  else
    (if cold_boot then
       platform_pmu_init ;;
       (fun s => Done tt (set_num_hw_ctrs (u32 (sbi_hart_mhpm_count + 2)) s)) ;;
       (fun s => Done tt
                   (set_total_ctrs (u32 (num_hw_ctrs s + SBI_PMU_FW_CTR_MAX)) s))
     else ret tt) ;;
    do hartid <- current_hartid;
    pmu_reset_event_map hartid ;;
    ret 0.

End Pmu.

(** ** Notions the statements use *)

Section Notions.

Context {K : pmu_consts}.

(** The error codes are negative, as in sbi/sbi_error.h. *)
Definition errors_negative : Prop :=
  SBI_EFAIL < 0 /\ SBI_ENOTSUPP < 0 /\ SBI_EINVAL < 0 /\ SBI_EDENIED < 0
  /\ SBI_EINVALID_ADDR < 0 /\ SBI_EALREADY_STARTED < 0
  /\ SBI_EALREADY_STOPPED < 0.

(** The static data as the C start-up code leaves them: all zero.  [h] is the
    executing hart and [c] its registers. *)
Definition boot_state (h : Z) (c : Z -> Z) : pmu_state :=
  mk_state
    (replicate (Z.to_nat SBI_PMU_HW_EVENT_MAX) (mk_hw_event 0 0 0 0))
    (replicate (Z.to_nat SBI_HARTMASK_MAX_BITS)
       (replicate (Z.to_nat (SBI_PMU_HW_CTR_MAX + SBI_PMU_FW_CTR_MAX)) 0))
    (replicate (Z.to_nat SBI_HARTMASK_MAX_BITS)
       (replicate (Z.to_nat SBI_PMU_FW_EVENT_MAX) (mk_fw_event 0 0 false)))
    0 0 0 c h.

(** The registered mappings: the first num_hw_events slots of the table. *)
Definition registry (s : pmu_state) : list sbi_pmu_hw_event :=
  take (Z.to_nat (num_hw_events s)) (hw_event_map s).

(** A raw mapping has the raw index at both ends. *)
Definition is_raw (e : sbi_pmu_hw_event) : Prop :=
  start_idx e = SBI_PMU_EVENT_RAW_IDX /\ end_idx e = SBI_PMU_EVENT_RAW_IDX.

(** The event ranges [a, b] and [c, d], ends included, share an index. *)
Definition ranges_overlap (a b c d : Z) : Prop :=
  exists x, a <= x <= b /\ c <= x <= d.

(** No two mappings that are not raw have overlapping ranges. *)
Definition ranges_disjoint (l : list sbi_pmu_hw_event) : Prop :=
  forall (i j : nat) (a b : sbi_pmu_hw_event),
    i <> j -> l !! i = Some a -> l !! j = Some b ->
    ~ is_raw a -> ~ is_raw b ->
    ~ ranges_overlap (start_idx a) (end_idx a) (start_idx b) (end_idx b).

(** A registration call of the boot-time set-up code. *)
Inductive registration : Type :=
  | RegisterRange (eidx_start eidx_end cmap : Z)
  | RegisterRaw (select_val cmap : Z).

Definition register (c : registration) : M Z :=
  match c with
  | RegisterRange a b cmap => sbi_pmu_add_hw_event_counter_map a b cmap
  | RegisterRaw sel cmap => sbi_pmu_add_raw_event_counter_map sel cmap
  end.

(** A sequence of registration calls, with their results. *)
Fixpoint register_all (cs : list registration) : M (list Z) :=
  match cs with
  | [] => ret []
  | c :: cs' =>
      do r <- register c;
      do rs <- register_all cs';
      ret (r :: rs)
  end.

(** The test pmu_add_hw_event_map makes first, on the start of the range and
    the counter bitmap. *)
Definition fixed_counter_check (eidx_start cmap : Z) : bool :=
  ((eidx_start =? SBI_PMU_HW_CPU_CYCLES) && negb (cmap =? 1))
  || ((eidx_start =? SBI_PMU_HW_INSTRUCTIONS) && negb (cmap =? 4))
  || ((eidx_start >? SBI_PMU_HW_INSTRUCTIONS) && (cmap <? 8)).

(** What the sanity loop compares an existing entry with. *)
Definition conflicts (eidx_start select_val : Z) (evB evA : sbi_pmu_hw_event)
  : bool :=
  if eidx_start =? SBI_PMU_EVENT_RAW_IDX
  then pmu_event_select_overlap evA select_val
  else pmu_event_range_overlap evA evB.

(** The table has its declared size and the count stays within it. *)
Definition table_ok (s : pmu_state) : Prop :=
  length (hw_event_map s) = Z.to_nat SBI_PMU_HW_EVENT_MAX
  /\ 0 <= num_hw_events s
  /\ (Z.to_nat (num_hw_events s) <= length (hw_event_map s))%nat.

(** A mapping as the two registration calls can leave it: raw, or a range
    with its ends in order, away from the raw index, and select 0. *)
Definition entry_ok (e : sbi_pmu_hw_event) : Prop :=
  is_raw e
  \/ (start_idx e <= end_idx e /\ start_idx e <> SBI_PMU_EVENT_RAW_IDX
      /\ end_idx e <> SBI_PMU_EVENT_RAW_IDX /\ select e = 0).

Definition registry_ok (s : pmu_state) : Prop :=
  table_ok s /\ Forall entry_ok (registry s) /\ ranges_disjoint (registry s).

(** The index [i] can take a firmware event on hart [h]: no event is bound
    to it and its bit is set in [ctr_mask]. *)
Definition fw_candidate (s : pmu_state) (h ctr_mask i : Z) : bool :=
  match index2 (active_events s) h i with
  | Some v => (v =? SBI_PMU_EVENT_IDX_INVALID) && Z.testbit ctr_mask i
  | None => false
  end.

(** The counter [cidx] of the executing hart is validly bound to the event
    [ev]: the index is in range, the table holds [ev] there, [ev] is not
    negative (the entries are uint32_t), is not the invalid index, and its
    type is a known one. *)
Definition bound_to (s : pmu_state) (cidx ev : Z) : Prop :=
  0 <= cidx < total_ctrs s
  /\ index2 (active_events s) (mhartid s) cidx = Some ev
  /\ 0 <= ev
  /\ ev <> SBI_PMU_EVENT_IDX_INVALID
  /\ get_cidx_type ev < SBI_PMU_EVENT_TYPE_MAX.

(** A hardware counter counts: its enable bit is set and its inhibit bit is
    clear. *)
Definition running (s : pmu_state) (cidx : Z) : bool :=
  Z.testbit (csrs s CSR_MCOUNTEREN) cidx
  && negb (Z.testbit (csrs s CSR_MCOUNTINHIBIT) cidx).

(** What stopping a running hardware counter leaves in the registers. *)
Definition stopped_csrs (s : pmu_state) (cidx : Z) : pmu_state :=
  state_after
    (bind (csr_write CSR_MCOUNTEREN
             (Z.ldiff (csrs s CSR_MCOUNTEREN) (Z.shiftl 1 cidx)))
          (fun _ =>
             csr_write CSR_MCOUNTINHIBIT
               (Z.lor (csrs s CSR_MCOUNTINHIBIT) (Z.shiftl 1 cidx))))
    s.

End Notions.

(** ** A sample assignment of the constants

    A 64-bit hart; event indices carry a type in bits 16 to 19 above a 16-bit
    code, the cycle event has code 0. *)
Definition rv64 : pmu_consts := {|
  XLEN := 64;
  SBI_PMU_HW_EVENT_MAX := 64;
  SBI_HARTMASK_MAX_BITS := 8;
  SBI_PMU_HW_CTR_MAX := 32;
  SBI_PMU_FW_CTR_MAX := 16;
  SBI_PMU_FW_EVENT_MAX := 32;
  SBI_PMU_FW_MAX := 18;
  SBI_PMU_EVENT_IDX_TYPE_MASK := 983040;
  SBI_PMU_EVENT_IDX_CODE_MASK := 65535;
  SBI_PMU_EVENT_IDX_INVALID := 4294967295;
  SBI_PMU_EVENT_TYPE_MAX := 16;
  SBI_PMU_EVENT_TYPE_FW := 15;
  SBI_PMU_HW_CPU_CYCLES := 0;
  SBI_PMU_HW_INSTRUCTIONS := 1;
  SBI_PMU_EVENT_RAW_IDX := 131072;
  SBI_PMU_CTR_TYPE_HW := 0;
  SBI_PMU_CTR_TYPE_FW := 1;
  SBI_EFAIL := -1;
  SBI_ENOTSUPP := -2;
  SBI_EINVAL := -3;
  SBI_EDENIED := -4;
  SBI_EINVALID_ADDR := -5;
  SBI_EALREADY_STARTED := -7;
  SBI_EALREADY_STOPPED := -8;
  CSR_CYCLE := 3072;
  CSR_MCYCLE := 2816;
  CSR_MCYCLEH := 2944;
  CSR_MCOUNTEREN := 774;
  CSR_MCOUNTINHIBIT := 800;
  sbi_platform_get_mhpmevent_value := fun eindex data =>
    if data =? 0 then eindex else data;
  sbi_hart_pmu_event_bits := 47;
  sbi_hart_mhpm_count := 29;
  sbi_hart_has_mcountinhibit := true
|}.

(** Registers all zero. *)
Definition no_csrs : Z -> Z := fun _ => 0.

(** Registers as a hart has them before any counter is started: every
    counter inhibited, none enabled. *)
Definition idle_csrs `{pmu_consts} : Z -> Z :=
  fun n => if n =? CSR_MCOUNTINHIBIT then 2 ^ 32 - 1 else 0.

(** The sample hart after a cold boot in which the platform registers the
    two fixed events, a range of events for the counters 3 to 6 and a raw
    event for the counter 3. *)
Definition rv64_platform_pmu_init : M Z :=
  bind (register_all (K := rv64)
          [RegisterRange 0 0 1; RegisterRange 1 1 4; RegisterRange 2 9 120;
           RegisterRaw 7 8])
       (fun _ => ret 0).

Definition rv64_booted : pmu_state :=
  state_after (sbi_pmu_init (K := rv64) rv64_platform_pmu_init true)
              (boot_state (K := rv64) 0 (idle_csrs (H := rv64))).

(** The sample hart with the cycle event matched to counter 0. *)
Definition rv64_cycle_bound : pmu_state :=
  state_after (sbi_pmu_get_ctr_match (K := rv64) 0 (2 ^ 32 - 1) 0 0 0)
              rv64_booted.

(** ... and counter 0 started from 100. *)
Definition rv64_cycle_started : pmu_state :=
  state_after (sbi_pmu_start_ctr (K := rv64) 0 100) rv64_cycle_bound.

(** The sample hart with a firmware event (type 15, code 3) matched to
    counter 32 and started from 5. *)
Definition rv64_fw_bound : pmu_state :=
  state_after (sbi_pmu_get_ctr_match (K := rv64) 0 (2 ^ 40 - 1) 983043 0 0)
              rv64_booted.

Definition rv64_fw_started : pmu_state :=
  state_after (sbi_pmu_start_ctr (K := rv64) 32 5) rv64_fw_bound.

(** ** Further notions, for the operations as a whole *)

Section MoreNotions.

Context {K : pmu_consts}.

(** The rows of the executing hart in active_events and fw_event_map exist
    and have the declared sizes. *)
Definition hart_tables_ok (s : pmu_state) : Prop :=
  exists arow frow,
    index (active_events s) (mhartid s) = Some arow
    /\ length arow = Z.to_nat (SBI_PMU_HW_CTR_MAX + SBI_PMU_FW_CTR_MAX)
    /\ index (fw_event_map s) (mhartid s) = Some frow
    /\ length frow = Z.to_nat SBI_PMU_FW_EVENT_MAX.

(** The register numbers lie as in the privileged architecture: the enable
    register below the inhibit register, the event selectors (inhibit
    register plus counter index) below the counters, the low halves of the
    counters below the high halves. *)
Definition csr_numbers_ok : Prop :=
  0 < SBI_PMU_HW_CTR_MAX
  /\ CSR_MCOUNTEREN < CSR_MCOUNTINHIBIT
  /\ CSR_MCOUNTINHIBIT + SBI_PMU_HW_CTR_MAX <= CSR_MCYCLE
  /\ CSR_MCYCLE + SBI_PMU_HW_CTR_MAX <= CSR_MCYCLEH.

(** The firmware event hook called [n] times in a row for the event
    [fw_id]: the results of the calls, in call order. *)
Fixpoint incr_times (n : nat) (fw_id : Z) : M (list Z) :=
  match n with
  | O => ret []
  | S n' =>
      do r <- sbi_pmu_incr_fw_ctr fw_id;
      do rs <- incr_times n' fw_id;
      ret (r :: rs)
  end.

(** The mapping a registration call asks for. *)
Definition mapping_of (c : registration) : sbi_pmu_hw_event :=
  match c with
  | RegisterRange a b cmap => mk_hw_event cmap a b 0
  | RegisterRaw sel cmap =>
      mk_hw_event cmap SBI_PMU_EVENT_RAW_IDX SBI_PMU_EVENT_RAW_IDX sel
  end.

(** The mappings of the calls that returned 0, in call order. *)
Fixpoint accepted (cs : list registration) (rs : list Z)
  : list sbi_pmu_hw_event :=
  match cs, rs with
  | c :: cs', r :: rs' =>
      if r =? 0 then mapping_of c :: accepted cs' rs' else accepted cs' rs'
  | _, _ => []
  end.

(** The event [event_idx], with [data], falls under the mapping [e] in the
    scan of pmu_find_hw_ctr: it is not outside the range of [e], and for the
    raw index the select of [e] is [data]. *)
Definition hw_event_matches (e : sbi_pmu_hw_event) (event_idx data : Z)
  : Prop :=
  ~ (start_idx e > event_idx /\ event_idx < end_idx e)
  /\ ~ (start_idx e < event_idx /\ event_idx > end_idx e)
  /\ (event_idx = SBI_PMU_EVENT_RAW_IDX -> select e = data).

(** A hardware counter is available: not enabled and inhibited. *)
Definition available (s : pmu_state) (cidx : Z) : bool :=
  negb (Z.testbit (csrs s CSR_MCOUNTEREN) cidx)
  && Z.testbit (csrs s CSR_MCOUNTINHIBIT) cidx.

End MoreNotions.

(** The sample constants with 32-bit registers. *)
Definition rv32 : pmu_consts := {|
  XLEN := 32;
  SBI_PMU_HW_EVENT_MAX := 64;
  SBI_HARTMASK_MAX_BITS := 8;
  SBI_PMU_HW_CTR_MAX := 32;
  SBI_PMU_FW_CTR_MAX := 16;
  SBI_PMU_FW_EVENT_MAX := 32;
  SBI_PMU_FW_MAX := 18;
  SBI_PMU_EVENT_IDX_TYPE_MASK := 983040;
  SBI_PMU_EVENT_IDX_CODE_MASK := 65535;
  SBI_PMU_EVENT_IDX_INVALID := 4294967295;
  SBI_PMU_EVENT_TYPE_MAX := 16;
  SBI_PMU_EVENT_TYPE_FW := 15;
  SBI_PMU_HW_CPU_CYCLES := 0;
  SBI_PMU_HW_INSTRUCTIONS := 1;
  SBI_PMU_EVENT_RAW_IDX := 131072;
  SBI_PMU_CTR_TYPE_HW := 0;
  SBI_PMU_CTR_TYPE_FW := 1;
  SBI_EFAIL := -1;
  SBI_ENOTSUPP := -2;
  SBI_EINVAL := -3;
  SBI_EDENIED := -4;
  SBI_EINVALID_ADDR := -5;
  SBI_EALREADY_STARTED := -7;
  SBI_EALREADY_STOPPED := -8;
  CSR_CYCLE := 3072;
  CSR_MCYCLE := 2816;
  CSR_MCYCLEH := 2944;
  CSR_MCOUNTEREN := 774;
  CSR_MCOUNTINHIBIT := 800;
  sbi_platform_get_mhpmevent_value := fun eindex data =>
    if data =? 0 then eindex else data;
  sbi_hart_pmu_event_bits := 31;
  sbi_hart_mhpm_count := 6;
  sbi_hart_has_mcountinhibit := true
|}.

(** The 32-bit sample hart after a cold boot in which the platform registers
    the cycle event, with the cycle event then matched to counter 0. *)
Definition rv32_cycle_bound : pmu_state :=
  state_after
    (bind (sbi_pmu_init (K := rv32)
             (bind (register_all (K := rv32) [RegisterRange 0 0 1])
                   (fun _ => ret 0)) true)
          (fun _ => sbi_pmu_get_ctr_match (K := rv32) 0 1 0 0 0))
    (boot_state (K := rv32) 0 (idle_csrs (H := rv32))).

(** The sample hart with a hardware event (code 5) matched to counter 3. *)
Definition rv64_event5_bound : pmu_state :=
  state_after (sbi_pmu_get_ctr_match (K := rv64) 0 (2 ^ 32 - 1) 5 0 0)
              rv64_booted.

(** The choice [c] is a sound answer of the hardware scan to a request with
    base [base] for the event [event_idx], [data]: an index at or above the
    base and below SBI_PMU_HW_CTR_MAX that is available and whose bit is set
    in the bitmap of a registered mapping under which the event falls. *)
Definition hw_choice_ok `{pmu_consts} (s : pmu_state)
    (base event_idx data c : Z) : Prop :=
  base <= c < SBI_PMU_HW_CTR_MAX
  /\ available s c = true
  /\ exists e,
       e ∈ registry s
       /\ Z.testbit (counters e) c = true
       /\ hw_event_matches e event_idx data.

(** The 32-bit sample hart after a cold boot in which the platform registers
    a range of events for the counter 10, a counter beyond the 6 programmable
    ones the hart reports. *)
Definition rv32_wide_booted : pmu_state :=
  state_after
    (sbi_pmu_init (K := rv32)
       (bind (register_all (K := rv32) [RegisterRange 2 9 1024])
             (fun _ => ret 0)) true)
    (boot_state (K := rv32) 0 (idle_csrs (H := rv32))).

(** ... and a firmware event (type 15, code 3) then matched to counter 9,
    the first firmware counter of that hart. *)
Definition rv32_fw_bound : pmu_state :=
  state_after (sbi_pmu_get_ctr_match (K := rv32) 0 (2 ^ 24 - 1) 983043 0 0)
              rv32_wide_booted.

(** The sample hart with the firmware event of code 40 (type 15), a code
    beyond the SBI_PMU_FW_EVENT_MAX = 32 entries of a row of fw_event_map,
    matched to counter 32. *)
Definition rv64_fw40_bound : pmu_state :=
  state_after (sbi_pmu_get_ctr_match (K := rv64) 0 (2 ^ 40 - 1) 983080 0 0)
              rv64_booted.

(** * The SBI call handler of the PMU extension

    sbi_ecall_pmu_handler of lib/sbi/sbi_ecall_pmu.c, the entry point through
    which a supervisor reaches the functions above. *)

(** The function identifiers of the PMU extension in
    sbi/sbi_ecall_interface.h, the labels of the handler's switch. *)
Class pmu_ecall_ids : Type := {
  SBI_EXT_PMU_NUM_COUNTERS : Z;
  SBI_EXT_PMU_COUNTER_GET_INFO : Z;
  SBI_EXT_PMU_COUNTER_CFG_MATCH : Z;
  SBI_EXT_PMU_COUNTER_START : Z;
  SBI_EXT_PMU_COUNTER_STOP : Z;
  SBI_EXT_PMU_COUNTER_FW_READ : Z
}.

(** The members of struct sbi_trap_regs the handler reads: the argument
    registers, each an unsigned long. *)
Record sbi_trap_regs : Type := mk_trap_regs {
  a0 : Z;
  a1 : Z;
  a2 : Z;
  a3 : Z;
  a4 : Z
}.

Section Ecall.

Context {K : pmu_consts} {I : pmu_ecall_ids}.

(** Values of the C type uint64_t. *)
Definition u64 (x : Z) : Z := x mod 2 ^ 64.

(** The conversion of an unsigned value to int: the value modulo 2^32, read
    as a two's complement number. *)
Definition to_int (x : Z) : Z := (x + 2 ^ 31) mod 2 ^ 32 - 2 ^ 31.

(** The member value of union sbi_pmu_ctr_info.  The bit fields lie from the
    least significant bit up, csr in bits 0 to 11, width in bits 12 to 17,
    and type, after the reserved field of 13 bits (__riscv_xlen == 32) or 45
    bits, in bit 31 or bit 63. *)
Definition ctr_info_value (i : sbi_pmu_ctr_info) : Z :=
  Z.lor (Z.lor (csr i) (Z.shiftl (width i) 12))
        (Z.shiftl (type i) (if XLEN =? 32 then 31 else 63)).

(** sbi_ecall_pmu_handler: the result and what *out_val holds after the
    call, [out_val] being what it holds before.  The arguments extid and
    out_trap are not used by the function.  A counter index goes through a
    uint32_t parameter, the reset flag through a bool one. *)
Definition sbi_ecall_pmu_handler (extid funcid : Z) (regs : sbi_trap_regs)
    (out_val : Z) : M (Z * Z) :=
  if funcid =? SBI_EXT_PMU_NUM_COUNTERS then
    do n <- sbi_pmu_num_ctr;
    let r := to_int n in
    if r >=? 0 then ret (0, ulong r) else ret (r, out_val)
  else if funcid =? SBI_EXT_PMU_COUNTER_GET_INFO then
    do '(r, info) <- sbi_pmu_get_ctr_info (u32 (a0 regs));
    ret (r, match info with
            | Some i => ctr_info_value i
            | None => out_val
            end)
  else if funcid =? SBI_EXT_PMU_COUNTER_CFG_MATCH then
    do r <- sbi_pmu_get_ctr_match (a0 regs) (a1 regs) (a2 regs) (a3 regs)
              (a4 regs);
    if r >=? 0 then ret (0, ulong r) else ret (r, out_val)
  else if funcid =? SBI_EXT_PMU_COUNTER_FW_READ then
    sbi_pmu_read_ctr (u32 (a0 regs)) out_val
  else if funcid =? SBI_EXT_PMU_COUNTER_START then
    let ival :=
      if XLEN =? 32
      then Z.lor (u64 (Z.shiftl (u64 (a1 regs)) 32)) (a2 regs)
      else a1 regs in
    do r <- sbi_pmu_start_ctr (u32 (a0 regs)) ival;
    ret (r, out_val)
  else if funcid =? SBI_EXT_PMU_COUNTER_STOP then
    do r <- sbi_pmu_stop_ctr (u32 (a0 regs)) (negb (a1 regs =? 0));
    ret (r, out_val)
  else ret (SBI_ENOTSUPP, out_val).

(** The labels of the switch differ from one another, as C requires. *)
Definition ecall_ids_distinct : Prop :=
  NoDup [SBI_EXT_PMU_NUM_COUNTERS; SBI_EXT_PMU_COUNTER_GET_INFO;
         SBI_EXT_PMU_COUNTER_CFG_MATCH; SBI_EXT_PMU_COUNTER_FW_READ;
         SBI_EXT_PMU_COUNTER_START; SBI_EXT_PMU_COUNTER_STOP].

(** Whatever the computation [c] returns satisfies [P]. *)
Definition returns {A : Type} (P : A -> Prop) (c : M A) : Prop :=
  forall s a s', c s = Done a s' -> P a.

End Ecall.

(** The function identifiers of the SBI specification. *)
Definition sbi_ecall_ids : pmu_ecall_ids := {|
  SBI_EXT_PMU_NUM_COUNTERS := 0;
  SBI_EXT_PMU_COUNTER_GET_INFO := 1;
  SBI_EXT_PMU_COUNTER_CFG_MATCH := 2;
  SBI_EXT_PMU_COUNTER_START := 3;
  SBI_EXT_PMU_COUNTER_STOP := 4;
  SBI_EXT_PMU_COUNTER_FW_READ := 5
|}.

(** * Properties *)

(** ** The monad and the arrays *)

(** Case analysis on the integer comparisons of a goal. *)
Ltac cases_cmp :=
  repeat match goal with
    | |- context [Z.gtb ?x ?y] => rewrite (Z.gtb_ltb x y)
    | |- context [Z.geb ?x ?y] => rewrite (Z.geb_leb x y)
    | |- context [Z.eqb ?x ?y] => destruct (Z.eqb_spec x y)
    | |- context [Z.ltb ?x ?y] => destruct (Z.ltb_spec x y)
    | |- context [Z.leb ?x ?y] => destruct (Z.leb_spec x y)
    end;
  cbn; try done; try lia.

(** Closed goals on concrete data: evaluate, then conclude componentwise. *)
Ltac by_computation :=
  vm_compute;
  repeat match goal with |- _ /\ _ => split end;
  first [reflexivity | discriminate | (intro; discriminate)
        | (eexists; reflexivity)].

Section Basics.

Context {K : pmu_consts}.

Lemma index_Some {A : Type} (a : list A) (i : Z) (x : A) :
  index a i = Some x <-> 0 <= i /\ a !! Z.to_nat i = Some x.
Proof.
  unfold index. destruct (0 <=? i) eqn:E.
  - apply Z.leb_le in E. tauto.
  - apply Z.leb_gt in E. split; [discriminate | lia].
Qed.

Lemma index_nat {A : Type} (a : list A) (n : nat) :
  index a (Z.of_nat n) = a !! n.
Proof.
  unfold index. destruct (0 <=? Z.of_nat n) eqn:E.
  - by rewrite Nat2Z.id.
  - apply Z.leb_gt in E. lia.
Qed.

Lemma index_update_eq {A : Type} (a : list A) (i : Z) (x y : A) :
  index a i = Some x -> index (update a i y) i = Some y.
Proof.
  rewrite !index_Some. intros [Hi Hx]. split; [done |].
  unfold update. apply list_lookup_insert_eq. by eapply lookup_lt_Some.
Qed.

Lemma index_update_ne {A : Type} (a : list A) (i j : Z) (y : A) :
  0 <= i -> 0 <= j -> i <> j -> index (update a i y) j = index a j.
Proof.
  intros Hi Hj Hne. unfold index, update.
  destruct (0 <=? j); [| done].
  apply list_lookup_insert_ne. lia.
Qed.

Lemma index2_Some {A : Type} (a : list (list A)) (h i : Z) (x : A) :
  index2 a h i = Some x <->
  exists row, index a h = Some row /\ index row i = Some x.
Proof.
  unfold index2. destruct (index a h) as [row |].
  - split; [eauto | by intros (? & [= <-] & ?)].
  - split; [discriminate | by intros (? & ? & ?)].
Qed.

Lemma index2_update2_eq {A : Type} (a : list (list A)) (h i : Z) (x y : A) :
  index2 a h i = Some x -> index2 (update2 a h i y) h i = Some y.
Proof.
  intros (row & Hr & Hx)%index2_Some.
  unfold update2. rewrite Hr. apply index2_Some.
  exists (update row i y). split; by eapply index_update_eq.
Qed.

Lemma index2_update2_ne {A : Type} (a : list (list A)) (h i j : Z) (y : A) :
  0 <= i -> 0 <= j -> i <> j ->
  index2 (update2 a h i y) h j = index2 a h j.
Proof.
  intros Hi Hj Hne. unfold update2.
  destruct (index a h) as [row |] eqn:Hr; [| done].
  unfold index2. erewrite index_update_eq by done. rewrite Hr.
  by apply index_update_ne.
Qed.

(** A property checked on every index of a range holds on the range. *)
Lemma range_forallb (f : Z -> bool) (lo : Z) (n : nat) :
  forallb f (map (fun k => lo + Z.of_nat k) (seq 0 n)) = true ->
  forall j, lo <= j < lo + Z.of_nat n -> f j = true.
Proof.
  intros Hall j Hj. rewrite forallb_forall in Hall. apply Hall.
  apply in_map_iff. exists (Z.to_nat (j - lo)). split; [lia |].
  apply in_seq. lia.
Qed.

Lemma bind_done {A B : Type} (c : M A) (k : A -> M B) s a s' :
  c s = Done a s' -> bind c k s = k a s'.
Proof. unfold bind. by intros ->. Qed.

Lemma load_hw_event_done s i e :
  index (hw_event_map s) i = Some e -> load_hw_event i s = Done e s.
Proof. unfold load_hw_event. by intros ->. Qed.

Lemma store_hw_event_done s i e old :
  index (hw_event_map s) i = Some old ->
  store_hw_event i e s
  = Done tt (set_hw_event_map (update (hw_event_map s) i e) s).
Proof. unfold store_hw_event. by intros ->. Qed.

Lemma load_active_event_done s h i v :
  index2 (active_events s) h i = Some v -> load_active_event h i s = Done v s.
Proof. unfold load_active_event. by intros ->. Qed.

Lemma store_active_event_done s h i v old :
  index2 (active_events s) h i = Some old ->
  store_active_event h i v s
  = Done tt (set_active_events (update2 (active_events s) h i v) s).
Proof. unfold store_active_event. by intros ->. Qed.

Lemma load_fw_event_done s h i e :
  index2 (fw_event_map s) h i = Some e -> load_fw_event h i s = Done e s.
Proof. unfold load_fw_event. by intros ->. Qed.

Lemma store_fw_event_done s h i e old :
  index2 (fw_event_map s) h i = Some old ->
  store_fw_event h i e s
  = Done tt (set_fw_event_map (update2 (fw_event_map s) h i e) s).
Proof. unfold store_fw_event. by intros ->. Qed.

End Basics.

(** ** The registry of hardware events *)

Section Registry.

Context {K : pmu_consts}.

Lemma pmu_add_hw_event_map_loop_spec s (k i : nat) n evB eidx_start sel :
  index (hw_event_map s) n = Some evB ->
  (i + k <= length (hw_event_map s))%nat ->
  pmu_add_hw_event_map_loop k (Z.of_nat i) n eidx_start sel s =
  Done (existsb (conflicts eidx_start sel evB)
          (take k (drop i (hw_event_map s)))) s.
Proof.
  intros HB. revert i. induction k as [| k IH]; intros i Hlen.
  - by rewrite take_0.
  - destruct (lookup_lt_is_Some_2 (hw_event_map s) i) as [e He]; [lia |].
    rewrite (drop_S _ _ _ He). cbn [take existsb pmu_add_hw_event_map_loop].
    erewrite bind_done
      by (apply load_hw_event_done; rewrite index_nat; exact He).
    erewrite (bind_done _ _ s (conflicts eidx_start sel evB e) s).
    + destruct (conflicts eidx_start sel evB e); [done |].
      cbn [orb]. replace (Z.of_nat i + 1) with (Z.of_nat (S i)) by lia.
      apply IH. lia.
    + unfold conflicts. destruct (eidx_start =? SBI_PMU_EVENT_RAW_IDX);
        [done |].
      by erewrite bind_done by (by apply load_hw_event_done).
Qed.

(** pmu_add_hw_event_map, case by case. *)
Lemma pmu_add_hw_event_map_spec s a b cmap sel :
  table_ok s ->
  let ev := mk_hw_event cmap a b sel in
  let s1 := set_hw_event_map (update (hw_event_map s) (num_hw_events s) ev) s in
  pmu_add_hw_event_map a b cmap sel s =
  if fixed_counter_check a cmap then Done SBI_EDENIED s
  else if num_hw_events s >=? SBI_PMU_HW_EVENT_MAX - 1 then Done SBI_EFAIL s
  else if existsb (conflicts a sel ev) (registry s)
       then Done SBI_EINVALID_ADDR s1
       else Done 0 (set_num_hw_events (num_hw_events s + 1) s1).
Proof.
  intros (Hlen & Hn0 & Hn) ev s1.
  unfold pmu_add_hw_event_map, bind at 1, gets.
  fold (fixed_counter_check a cmap).
  destruct (fixed_counter_check a cmap); [done |].
  destruct (num_hw_events s >=? SBI_PMU_HW_EVENT_MAX - 1) eqn:Hcap; [done |].
  assert (num_hw_events s < SBI_PMU_HW_EVENT_MAX - 1) as Hlt by lia.
  destruct (lookup_lt_is_Some_2 (hw_event_map s) (Z.to_nat (num_hw_events s)))
    as [old Hold]; [lia |].
  assert (index (hw_event_map s) (num_hw_events s) = Some old) as Hidx
    by (apply index_Some; done).
  erewrite bind_done by (by eapply store_hw_event_done).
  fold ev. fold s1.
  erewrite bind_done;
    [| apply (pmu_add_hw_event_map_loop_spec s1
                (Z.to_nat (num_hw_events s)) 0 (num_hw_events s) ev)].
  - rewrite drop_0. cbn [hw_event_map s1 set_hw_event_map].
    unfold update. rewrite take_insert_ge by lia.
    fold (registry s). by destruct (existsb _ (registry s)).
  - cbn [hw_event_map s1 set_hw_event_map]. by eapply index_update_eq.
  - cbn [hw_event_map s1 set_hw_event_map]. unfold update.
    rewrite length_insert. lia.
Qed.

Lemma range_overlap_false_disjoint evA evB :
  pmu_event_range_overlap evA evB = false ->
  start_idx evB <= end_idx evB ->
  ~ ranges_overlap (start_idx evA) (end_idx evA) (start_idx evB) (end_idx evB).
Proof.
  unfold pmu_event_range_overlap, ranges_overlap.
  intros H HB (x & HxA & HxB).
  destruct (_ || _) eqn:E; [| discriminate].
  apply orb_true_iff in E as [E | E]; apply andb_true_iff in E as [E1 E2]; lia.
Qed.

Lemma ranges_overlap_true evA evB :
  ranges_overlap (start_idx evA) (end_idx evA) (start_idx evB) (end_idx evB) ->
  pmu_event_range_overlap evA evB = true.
Proof.
  unfold pmu_event_range_overlap, ranges_overlap.
  intros (x & HxA & HxB).
  destruct (_ || _) eqn:E; [| done].
  apply orb_true_iff in E as [E | E]; apply andb_true_iff in E as [E1 E2]; lia.
Qed.

Lemma ranges_overlap_sym a b c d :
  ranges_overlap a b c d -> ranges_overlap c d a b.
Proof. intros (x & ? & ?). by exists x. Qed.

(** Appending a mapping that passed the sanity loop keeps the ranges apart. *)
Lemma ranges_disjoint_snoc l ev :
  ranges_disjoint l ->
  existsb (conflicts (start_idx ev) (select ev) ev) l = false ->
  is_raw ev
  \/ (start_idx ev <> SBI_PMU_EVENT_RAW_IDX /\ start_idx ev <= end_idx ev) ->
  ranges_disjoint (l ++ [ev]).
Proof.
  intros Hl Hex Hev i j a b Hij Ha Hb Hra Hrb.
  assert (forall e, e ∈ l -> ~ is_raw ev ->
            ~ ranges_overlap (start_idx e) (end_idx e)
                (start_idx ev) (end_idx ev)) as Hnew.
  { intros e He Hnr. destruct Hev as [? | [Hne Hle]]; [done |].
    apply range_overlap_false_disjoint; [| done].
    assert (conflicts (start_idx ev) (select ev) ev e = false) as Hc.
    { destruct (conflicts _ _ _ e) eqn:Hc; [| done].
      assert (existsb (conflicts (start_idx ev) (select ev) ev) l = true)
        as Hex'; [| congruence].
      apply existsb_exists. exists e. split; [| done].
      by apply list_elem_of_In. }
    unfold conflicts in Hc.
    destruct (start_idx ev =? SBI_PMU_EVENT_RAW_IDX) eqn:E; [lia | done]. }
  apply lookup_app_Some in Ha as [Ha | [Hi Ha]];
    apply lookup_app_Some in Hb as [Hb | [Hj Hb]].
  - by eapply Hl.
  - apply list_lookup_singleton_Some in Hb as [_ <-].
    apply Hnew; [| done]. apply list_elem_of_lookup. eauto.
  - apply list_lookup_singleton_Some in Ha as [_ <-].
    intros Ho%ranges_overlap_sym. revert Ho.
    apply Hnew; [| done]. apply list_elem_of_lookup. eauto.
  - apply list_lookup_singleton_Some in Ha as [Hi' _].
    apply list_lookup_singleton_Some in Hb as [Hj' _]. lia.
Qed.

Lemma registry_after_store s ev :
  table_ok s ->
  registry (set_hw_event_map
              (update (hw_event_map s) (num_hw_events s) ev) s)
  = registry s.
Proof.
  intros _. unfold registry, update. cbn. by rewrite take_insert_ge.
Qed.

Lemma registry_after_add s ev :
  table_ok s -> num_hw_events s < SBI_PMU_HW_EVENT_MAX - 1 ->
  registry (set_num_hw_events (num_hw_events s + 1)
              (set_hw_event_map
                 (update (hw_event_map s) (num_hw_events s) ev) s))
  = registry s ++ [ev].
Proof.
  intros (Hlen & Hn0 & Hn) Hlt. unfold registry, update. cbn.
  replace (Z.to_nat (num_hw_events s + 1))
    with (S (Z.to_nat (num_hw_events s))) by lia.
  erewrite take_S_r by (apply list_lookup_insert_eq; lia).
  by rewrite take_insert_ge.
Qed.

Lemma table_ok_after_store s ev :
  table_ok s ->
  table_ok (set_hw_event_map
              (update (hw_event_map s) (num_hw_events s) ev) s).
Proof.
  intros (Hlen & Hn0 & Hn). unfold table_ok, update. cbn.
  by rewrite length_insert.
Qed.

Lemma table_ok_after_add s ev :
  table_ok s -> num_hw_events s < SBI_PMU_HW_EVENT_MAX - 1 ->
  table_ok (set_num_hw_events (num_hw_events s + 1)
              (set_hw_event_map
                 (update (hw_event_map s) (num_hw_events s) ev) s)).
Proof.
  intros (Hlen & Hn0 & Hn) Hlt. unfold table_ok, update. cbn.
  rewrite length_insert. lia.
Qed.

(** pmu_add_hw_event_map keeps the registry well formed, whatever it
    returns; the registry grows by the new mapping exactly when the result
    is 0. *)
Lemma pmu_add_hw_event_map_ok s a b cmap sel :
  errors_negative ->
  registry_ok s ->
  entry_ok (mk_hw_event cmap a b sel) ->
  exists r s',
    pmu_add_hw_event_map a b cmap sel s = Done r s'
    /\ registry_ok s'
    /\ (r = 0 /\ registry s' = registry s ++ [mk_hw_event cmap a b sel]
        \/ r < 0 /\ registry s' = registry s
           /\ num_hw_events s' = num_hw_events s).
Proof.
  intros (? & ? & ? & ? & ? & ? & ?) Hok Hev.
  pose proof Hok as (Ht & Hent & Hdis).
  rewrite pmu_add_hw_event_map_spec by done.
  set (ev := mk_hw_event cmap a b sel) in *.
  destruct (fixed_counter_check a cmap).
  { exists SBI_EDENIED, s. split; [done |]. split; [done |]. by right. }
  destruct (num_hw_events s >=? SBI_PMU_HW_EVENT_MAX - 1) eqn:Hcap.
  { exists SBI_EFAIL, s. split; [done |]. split; [done |]. by right. }
  assert (num_hw_events s < SBI_PMU_HW_EVENT_MAX - 1) as Hlt by lia.
  destruct (existsb (conflicts a sel ev) (registry s)) eqn:Hex.
  - eexists _, _. split; [done |].
    rewrite registry_after_store by done.
    split; [| by right].
    split; [by apply table_ok_after_store |].
    by rewrite registry_after_store.
  - eexists _, _. split; [done |].
    rewrite registry_after_add by done.
    split; [| by left].
    split; [by apply table_ok_after_add |].
    rewrite registry_after_add by done. split.
    + apply Forall_app. split; [done |]. by apply Forall_singleton.
    + apply ranges_disjoint_snoc; [done | done |].
      destruct Hev as [Hraw | (Hle & Hne & _)]; [by left | by right].
Qed.

(** Each registration call finishes and keeps the registry well formed. *)
Lemma register_ok s c :
  errors_negative ->
  registry_ok s ->
  exists r s', register c s = Done r s' /\ registry_ok s'.
Proof.
  intros Herr Hok. destruct c as [a b cmap | sel cmap]; cbn [register].
  - unfold sbi_pmu_add_hw_event_counter_map.
    destruct (_ || _) eqn:E; [by exists SBI_EINVAL, s |].
    apply orb_false_iff in E as [E E3]. apply orb_false_iff in E as [E1 E2].
    destruct (pmu_add_hw_event_map_ok s a b cmap 0 Herr Hok)
      as (r & s' & Hrun & Hok' & _); [| by eauto].
    right. cbn. repeat split; lia.
  - unfold sbi_pmu_add_raw_event_counter_map.
    destruct (pmu_add_hw_event_map_ok s SBI_PMU_EVENT_RAW_IDX
                SBI_PMU_EVENT_RAW_IDX cmap sel Herr Hok)
      as (r & s' & Hrun & Hok' & _); [| by eauto].
    by left.
Qed.

Lemma boot_state_ok h c : registry_ok (boot_state h c).
Proof.
  assert (registry (boot_state h c) = []) as Hr by done.
  unfold registry_ok, table_ok. rewrite Hr. cbn.
  rewrite length_replicate. repeat split; try lia.
  - by apply Forall_nil.
  - intros i j a b _ Ha. by rewrite lookup_nil in Ha.
Qed.

Lemma register_all_ok cs s :
  errors_negative ->
  registry_ok s ->
  exists rs s', register_all cs s = Done rs s' /\ registry_ok s'.
Proof.
  intros Herr. revert s. induction cs as [| c cs IH]; intros s Hok.
  - by exists [], s.
  - destruct (register_ok s c Herr Hok) as (r & s1 & Hr & Hok1).
    destruct (IH s1 Hok1) as (rs & s2 & Hrs & Hok2).
    exists (r :: rs), s2. split; [| done]. cbn [register_all].
    erewrite bind_done by done. by erewrite bind_done by done.
Qed.

Lemma conflicts_range_overlap a b cmap e :
  a <> SBI_PMU_EVENT_RAW_IDX ->
  ranges_overlap (start_idx e) (end_idx e) a b ->
  conflicts a 0 (mk_hw_event cmap a b 0) e = true.
Proof.
  intros Ha Ho. unfold conflicts.
  destruct (a =? SBI_PMU_EVENT_RAW_IDX) eqn:E; [lia |].
  by apply ranges_overlap_true.
Qed.

Lemma existsb_elem_of {A : Type} (f : A -> bool) (l : list A) (x : A) :
  x ∈ l -> f x = true -> existsb f l = true.
Proof.
  intros Hx Hf. apply existsb_exists. exists x. split; [| done].
  by apply list_elem_of_In.
Qed.

(** C1, as amended: after any sequence of registration calls no two
    mappings that are not raw have overlapping ranges; a range registration
    that overlaps an existing entry is always rejected and leaves the entry
    count and the registered entries as they were, and the error is
    SBI_EINVALID_ADDR (RangeConflict) whenever the call passes the tests
    that come first: the argument test, the test on the fixed counters and
    the capacity test. *)
Theorem registered_ranges_never_overlap
    (cs : list registration) (h : Z) (c : Z -> Z) :
  errors_negative ->
  exists rs s,
    register_all cs (boot_state h c) = Done rs s
    /\ ranges_disjoint (registry s)
    /\ forall a b cmap e,
         e ∈ registry s ->
         ranges_overlap (start_idx e) (end_idx e) a b ->
         exists r s',
           sbi_pmu_add_hw_event_counter_map a b cmap s = Done r s'
           /\ r < 0
           /\ num_hw_events s' = num_hw_events s
           /\ registry s' = registry s
           /\ (a <> SBI_PMU_EVENT_RAW_IDX -> b <> SBI_PMU_EVENT_RAW_IDX ->
               fixed_counter_check a cmap = false ->
               num_hw_events s < SBI_PMU_HW_EVENT_MAX - 1 ->
               r = SBI_EINVALID_ADDR).
Proof.
  intros Herr.
  destruct (register_all_ok cs (boot_state h c) Herr (boot_state_ok h c))
    as (rs & s & Hrun & Hok).
  exists rs, s. split; [done |].
  pose proof Hok as (Ht & _ & Hdis). split; [done |].
  destruct Herr as (? & ? & ? & ? & ? & ? & ?).
  intros a b cmap e He Ho.
  assert (a <= b) as Hab by (destruct Ho as (x & ? & ?); lia).
  unfold sbi_pmu_add_hw_event_counter_map.
  destruct (_ || _) eqn:E.
  { exists SBI_EINVAL, s. repeat split; try done.
    intros Ha Hb _ _. apply orb_true_iff in E as [E | E]; [| lia].
    apply orb_true_iff in E as [E | E]; lia. }
  apply orb_false_iff in E as [E E3]. apply orb_false_iff in E as [E1 E2].
  rewrite pmu_add_hw_event_map_spec by done.
  destruct (fixed_counter_check a cmap).
  { exists SBI_EDENIED, s. repeat split; done. }
  destruct (num_hw_events s >=? SBI_PMU_HW_EVENT_MAX - 1) eqn:Hcap.
  { exists SBI_EFAIL, s. repeat split; try done. lia. }
  rewrite (existsb_elem_of _ _ e He)
    by (apply conflicts_range_overlap; [lia | done]).
  eexists _, _. split; [done |].
  rewrite registry_after_store by done. repeat split; done.
Qed.




(** The mappings a call sequence leaves that are not raw have select 0, so
    a raw registration with another select can only meet raw mappings. *)
Lemma conflicts_raw_iff l sel ev :
  Forall entry_ok l ->
  sel <> 0 ->
  existsb (conflicts SBI_PMU_EVENT_RAW_IDX sel ev) l = true <->
  exists e, e ∈ l /\ is_raw e /\ select e = sel.
Proof.
  intros Hl Hsel. rewrite existsb_exists. unfold conflicts.
  rewrite Z.eqb_refl. unfold pmu_event_select_overlap. split.
  - intros (e & He%list_elem_of_In & Hc).
    destruct (select e =? sel) eqn:E; [| done]. apply Z.eqb_eq in E.
    exists e. repeat split; try done.
    + rewrite Forall_forall in Hl.
      destruct (Hl e He) as [[? ?] | (_ & _ & _ & ?)]; [done | lia].
    + rewrite Forall_forall in Hl.
      destruct (Hl e He) as [[? ?] | (_ & _ & _ & ?)]; [done | lia].
  - intros (e & He & _ & <-). exists e. rewrite Z.eqb_refl.
    split; [by apply list_elem_of_In | done].
Qed.

(** C5, as amended: a raw registration is rejected with SBI_EINVALID_ADDR
    (RangeConflict) whenever it passes the tests that come first (a bitmap
    of at least 8, room in the table) and an earlier raw mapping has the same
    select; for a select other than 0 it is rejected with that error in no
    other case; and after a raw registration that succeeded, a second one
    with the same select that passes the first tests fails with it. *)
Theorem raw_registration_conflict
    (cs : list registration) (h : Z) (c : Z -> Z) :
  errors_negative ->
  SBI_EINVALID_ADDR <> SBI_EDENIED ->
  SBI_EINVALID_ADDR <> SBI_EFAIL ->
  SBI_PMU_HW_CPU_CYCLES < SBI_PMU_HW_INSTRUCTIONS ->
  SBI_PMU_HW_INSTRUCTIONS < SBI_PMU_EVENT_RAW_IDX ->
  exists rs s,
    register_all cs (boot_state h c) = Done rs s
    /\ forall sel cmap,
         exists r s',
           sbi_pmu_add_raw_event_counter_map sel cmap s = Done r s'
           /\ (8 <= cmap ->
               num_hw_events s < SBI_PMU_HW_EVENT_MAX - 1 ->
               (exists e, e ∈ registry s /\ is_raw e /\ select e = sel) ->
               r = SBI_EINVALID_ADDR)
           /\ (sel <> 0 ->
               r = SBI_EINVALID_ADDR ->
               8 <= cmap
               /\ num_hw_events s < SBI_PMU_HW_EVENT_MAX - 1
               /\ exists e, e ∈ registry s /\ is_raw e /\ select e = sel)
           /\ (r = 0 ->
               forall cmap',
                 8 <= cmap' ->
                 num_hw_events s' < SBI_PMU_HW_EVENT_MAX - 1 ->
                 exists s'',
                   sbi_pmu_add_raw_event_counter_map sel cmap' s'
                   = Done SBI_EINVALID_ADDR s'').
Proof.
  intros Herr Hd1 Hd2 Hfix Hraw.
  destruct (register_all_ok cs (boot_state h c) Herr (boot_state_ok h c))
    as (rs & s & Hrun & Hok).
  exists rs, s. split; [done |].
  pose proof Hok as (Ht & Hent & _).
  pose proof Herr as (? & ? & ? & ? & ? & ? & ?).
  assert (forall cmap, fixed_counter_check SBI_PMU_EVENT_RAW_IDX cmap
                       = (cmap <? 8)) as Hchk.
  { intros cmap. unfold fixed_counter_check. cases_cmp. }
  intros sel cmap.
  destruct (pmu_add_hw_event_map_ok s SBI_PMU_EVENT_RAW_IDX
              SBI_PMU_EVENT_RAW_IDX cmap sel Herr Hok)
    as (r & s' & Hr & Hok' & Hreg); [by left |].
  exists r, s'. unfold sbi_pmu_add_raw_event_counter_map.
  split; [done |].
  rewrite pmu_add_hw_event_map_spec in Hr by done. rewrite Hchk in Hr.
  split; [| split].
  - intros Hc Hn (e & He & _ & Hsel).
    replace (cmap <? 8) with false in Hr by lia.
    replace (num_hw_events s >=? SBI_PMU_HW_EVENT_MAX - 1) with false in Hr
      by lia.
    rewrite (existsb_elem_of _ _ e He) in Hr; [congruence |].
    unfold conflicts, pmu_event_select_overlap.
    by rewrite Z.eqb_refl, Hsel, Z.eqb_refl.
  - intros Hsel ->.
    destruct (cmap <? 8) eqn:Hc; [congruence |].
    destruct (num_hw_events s >=? SBI_PMU_HW_EVENT_MAX - 1) eqn:Hn;
      [congruence |].
    destruct (existsb _ _) eqn:Hex; [| inversion Hr; lia].
    apply conflicts_raw_iff in Hex; [| done | done].
    repeat split; [lia | lia | done].
  - intros -> cmap' Hc' Hn'.
    destruct Hreg as [[_ Hreg] | [? _]]; [| lia].
    pose proof Hok' as (Ht' & _ & _).
    rewrite pmu_add_hw_event_map_spec by done. rewrite Hchk.
    replace (cmap' <? 8) with false by lia.
    replace (num_hw_events s' >=? SBI_PMU_HW_EVENT_MAX - 1) with false
      by lia.
    rewrite (existsb_elem_of _ _
               (mk_hw_event cmap SBI_PMU_EVENT_RAW_IDX
                  SBI_PMU_EVENT_RAW_IDX sel)); [by eauto | |].
    + rewrite Hreg. apply elem_of_app. right. by apply list_elem_of_singleton.
    + unfold conflicts, pmu_event_select_overlap. cbn.
      by rewrite !Z.eqb_refl.
Qed.

End Registry.

(** *** The registry on the sample constants *)

Section RegistryRv64.

#[local] Existing Instance rv64.

(** C1, as stated, fails: with the range [0, 0] registered for the cycle
    event, a second registration of [0, 0], against the bitmap 2, overlaps an
    existing entry and is rejected with SBI_EDENIED, not SBI_EINVALID_ADDR. *)
Lemma overlapping_range_denied_first :
  exists s,
    register_all (K := rv64) [RegisterRange 0 0 1] (boot_state 0 no_csrs)
    = Done [0] s
    /\ (exists e, e ∈ registry s
                  /\ ranges_overlap (start_idx e) (end_idx e) 0 0)
    /\ sbi_pmu_add_hw_event_counter_map (K := rv64) 0 0 2 s
       = Done (@SBI_EDENIED rv64) s
    /\ @SBI_EDENIED rv64 <> @SBI_EINVALID_ADDR rv64.
Proof.
  eexists. split; [vm_compute; reflexivity |].
  split; [| split; [vm_compute; reflexivity | by vm_compute]].
  exists (mk_hw_event 1 0 0 0). split.
  - vm_compute. apply list_elem_of_here.
  - exists 0. cbn. lia.
Qed.

Lemma registered_ranges_never_overlap_witness :
  exists rs s,
    register_all (K := rv64)
      [RegisterRange 0 0 1; RegisterRange 5 9 8; RegisterRange 7 7 16;
       RegisterRaw 7 8]
      (boot_state 0 no_csrs) = Done rs s
    /\ ranges_disjoint (registry s).
Proof.
  destruct (registered_ranges_never_overlap (K := rv64)
              [RegisterRange 0 0 1; RegisterRange 5 9 8; RegisterRange 7 7 16;
               RegisterRaw 7 8] 0 no_csrs)
    as (rs & s & Hrun & Hdis & _).
  - unfold errors_negative. cbn. lia.
  - by exists rs, s.
Defined.



(** C5, as stated, fails: after a raw mapping with select 7 was registered,
    a raw registration with the same select against the bitmap 4 returns
    SBI_EDENIED, not SBI_EINVALID_ADDR. *)
Lemma raw_same_select_denied_first :
  exists s,
    register_all (K := rv64) [RegisterRaw 7 8] (boot_state 0 no_csrs)
    = Done [0] s
    /\ (exists e, e ∈ registry s /\ is_raw e /\ select e = 7)
    /\ sbi_pmu_add_raw_event_counter_map (K := rv64) 7 4 s
       = Done (@SBI_EDENIED rv64) s
    /\ @SBI_EDENIED rv64 <> @SBI_EINVALID_ADDR rv64.
Proof.
  eexists. split; [vm_compute; reflexivity |].
  split; [| split; [vm_compute; reflexivity | by vm_compute]].
  exists (mk_hw_event 8 131072 131072 7). split; [| done].
  vm_compute. apply list_elem_of_here.
Qed.

Lemma raw_registration_conflict_witness :
  exists rs s,
    register_all (K := rv64) [RegisterRaw 7 8; RegisterRange 3 4 8]
      (boot_state 0 no_csrs) = Done rs s
    /\ exists s',
         sbi_pmu_add_raw_event_counter_map (K := rv64) 7 16 s
         = Done (@SBI_EINVALID_ADDR rv64) s'.
Proof.
  destruct (raw_registration_conflict (K := rv64)
              [RegisterRaw 7 8; RegisterRange 3 4 8] 0 no_csrs)
    as (rs & s & Hrun & Hraw); try (cbn; lia).
  - unfold errors_negative. cbn. lia.
  - exists rs, s. split; [done |].
    destruct (Hraw 7 16) as (r & s' & Hr & Hif & _).
    exists s'. rewrite Hr. f_equal. apply Hif.
    + lia.
    + vm_compute in Hrun. injection Hrun as _ <-. by vm_compute.
    + vm_compute in Hrun. injection Hrun as _ <-.
      exists (mk_hw_event 8 131072 131072 7). split; [| done].
      vm_compute. apply list_elem_of_here.
Defined.

End RegistryRv64.

(** ** Matching a firmware event with a counter *)

Section Allocation.

Context {K : pmu_consts}.

Lemma shl_done x n s :
  0 <= n < XLEN -> shl x n s = Done (ulong (Z.shiftl x n)) s.
Proof. intros Hn. unfold shl. by cases_cmp. Qed.

Lemma ulong_small x : 0 <= x < 2 ^ XLEN -> ulong x = x.
Proof. intros Hx. unfold ulong. by apply Z.mod_small. Qed.

Lemma one_shl_land_testbit i m :
  0 <= i < XLEN ->
  negb (Z.land (ulong (Z.shiftl 1 i)) m =? 0) = Z.testbit m i.
Proof.
  intros Hi. rewrite Z.shiftl_1_l.
  rewrite ulong_small
    by (split; [apply Z.pow_nonneg; lia | apply Z.pow_lt_mono_r; lia]).
  destruct (Z.testbit m i) eqn:Hb.
  - apply negb_true_iff, Z.eqb_neq. intros Hz.
    assert (Z.testbit (Z.land (2 ^ i) m) i = true) as Ht
      by (rewrite Z.land_spec, Z.pow2_bits_true, Hb by lia; done).
    rewrite Hz, Z.bits_0 in Ht. done.
  - apply negb_false_iff, Z.eqb_eq. apply Z.bits_inj'. intros j Hj.
    rewrite Z.land_spec, Z.bits_0, Z.pow2_bits_eqb by lia.
    destruct (Z.eqb_spec i j) as [<- |]; [by rewrite Hb | done].
Qed.

(** One step of the scan decides [fw_candidate]. *)
Lemma pmu_find_fw_ctr_loop_step k i ctr_mask h s :
  0 <= i < XLEN ->
  is_Some (index2 (active_events s) h i) ->
  pmu_find_fw_ctr_loop (S k) i ctr_mask h s =
  if fw_candidate s h ctr_mask i then Done i s
  else pmu_find_fw_ctr_loop k (i + 1) ctr_mask h s.
Proof.
  intros Hi [v Hv]. cbn [pmu_find_fw_ctr_loop]. unfold fw_candidate.
  rewrite Hv. erewrite bind_done by (by apply load_active_event_done).
  destruct (v =? SBI_PMU_EVENT_IDX_INVALID).
  - erewrite (bind_done _ _ s (Z.testbit ctr_mask i) s).
    + by destruct (Z.testbit ctr_mask i).
    + erewrite bind_done by (by apply shl_done).
      unfold ret. by rewrite one_shl_land_testbit.
  - by erewrite bind_done by reflexivity.
Qed.

Lemma pmu_find_fw_ctr_loop_found (k : nat) i c ctr_mask h s :
  0 <= i -> i + Z.of_nat k <= XLEN ->
  (forall j, i <= j < i + Z.of_nat k ->
             is_Some (index2 (active_events s) h j)) ->
  i <= c < i + Z.of_nat k ->
  fw_candidate s h ctr_mask c = true ->
  (forall j, i <= j < c -> fw_candidate s h ctr_mask j = false) ->
  pmu_find_fw_ctr_loop k i ctr_mask h s = Done c s.
Proof.
  revert i. induction k as [| k IH]; intros i Hi Hx Hin Hc Hcand Hfirst;
    [lia |].
  rewrite pmu_find_fw_ctr_loop_step by (try apply Hin; lia).
  destruct (Z.eq_dec i c) as [-> | Hne].
  - by rewrite Hcand.
  - rewrite Hfirst by lia. apply IH; [lia | lia | | lia | done |].
    + intros j Hj. apply Hin. lia.
    + intros j Hj. apply Hfirst. lia.
Qed.

(** The scan reaches a first candidate below XLEN whatever lies beyond
    it. *)
Lemma pmu_find_fw_ctr_loop_first (k : nat) i c ctr_mask h s :
  0 <= i -> c < XLEN ->
  (forall j, i <= j <= c -> is_Some (index2 (active_events s) h j)) ->
  i <= c < i + Z.of_nat k ->
  fw_candidate s h ctr_mask c = true ->
  (forall j, i <= j < c -> fw_candidate s h ctr_mask j = false) ->
  pmu_find_fw_ctr_loop k i ctr_mask h s = Done c s.
Proof.
  revert i. induction k as [| k IH]; intros i Hi Hx Hin Hc Hcand Hfirst;
    [lia |].
  rewrite pmu_find_fw_ctr_loop_step by (try apply Hin; lia).
  destruct (Z.eq_dec i c) as [-> | Hne].
  - by rewrite Hcand.
  - rewrite Hfirst by lia. apply IH; [lia | lia | | lia | done |].
    + intros j Hj. apply Hin. lia.
    + intros j Hj. apply Hfirst. lia.
Qed.

Lemma pmu_find_fw_ctr_loop_none (k : nat) i ctr_mask h s :
  0 <= i -> i + Z.of_nat k <= XLEN ->
  (forall j, i <= j < i + Z.of_nat k ->
             is_Some (index2 (active_events s) h j)) ->
  (forall j, i <= j < i + Z.of_nat k ->
             fw_candidate s h ctr_mask j = false) ->
  pmu_find_fw_ctr_loop k i ctr_mask h s = Done SBI_ENOTSUPP s.
Proof.
  revert i. induction k as [| k IH]; intros i Hi Hx Hin Hnone; [done |].
  rewrite pmu_find_fw_ctr_loop_step by (try apply Hin; lia).
  rewrite Hnone by lia. apply IH; [lia | lia | |].
  - intros j Hj. apply Hin. lia.
  - intros j Hj. apply Hnone. lia.
Qed.

Lemma pmu_find_fw_ctr_unfold cbase cmask h s :
  0 <= cbase < XLEN ->
  pmu_find_fw_ctr cbase cmask h s =
  pmu_find_fw_ctr_loop
    (Z.to_nat (total_ctrs s - Z.max cbase (num_hw_ctrs s + 1)))
    (Z.max cbase (num_hw_ctrs s + 1)) (ulong (Z.shiftl cmask cbase)) h s.
Proof.
  intros Hb. unfold pmu_find_fw_ctr.
  erewrite bind_done by (by apply shl_done).
  do 2 erewrite bind_done by reflexivity.
  replace (if cbase <=? num_hw_ctrs s then num_hw_ctrs s + 1 else cbase)
    with (Z.max cbase (num_hw_ctrs s + 1)) by (cases_cmp).
  done.
Qed.

(** C2, as amended: for a request of the firmware type the scan starts at
    max(base, num_hw_ctrs + 1), the first firmware index being
    num_hw_ctrs + 1, and goes upward; the first index whose bit is set in
    (mask << base) and to which no event is bound is bound to the event and
    returned, and no register is written, whatever total_ctrs is: the bit
    of such an index lies below XLEN, so every shift up to it is defined.
    When there is no such index and total_ctrs is at most XLEN, the result
    is SBI_ENOTSUPP and nothing changes. *)
Theorem firmware_match_first_fit
    (s : pmu_state) (base mask event_idx data flags : Z) :
  let h := mhartid s in
  let first := Z.max base (num_hw_ctrs s + 1) in
  let ctr_mask := ulong (Z.shiftl mask base) in
  SBI_ENOTSUPP < 0 ->
  get_cidx_type event_idx = SBI_PMU_EVENT_TYPE_FW ->
  SBI_PMU_EVENT_TYPE_FW < SBI_PMU_EVENT_TYPE_MAX ->
  0 <= base < total_ctrs s ->
  0 <= num_hw_ctrs s ->
  0 < XLEN ->
  (forall j, first <= j < total_ctrs s ->
             is_Some (index2 (active_events s) h j)) ->
  (forall i,
     first <= i < total_ctrs s ->
     fw_candidate s h ctr_mask i = true ->
     (forall j, first <= j < i -> fw_candidate s h ctr_mask j = false) ->
     exists s',
       sbi_pmu_get_ctr_match base mask event_idx data flags s = Done i s'
       /\ index2 (active_events s') h i = Some (u32 event_idx)
       /\ (forall j, 0 <= j -> j <> i ->
             index2 (active_events s') h j = index2 (active_events s) h j)
       /\ csrs s' = csrs s)
  /\ (total_ctrs s <= XLEN ->
      (forall j, first <= j < total_ctrs s ->
                 fw_candidate s h ctr_mask j = false) ->
      sbi_pmu_get_ctr_match base mask event_idx data flags s
      = Done SBI_ENOTSUPP s).
Proof.
  intros h first ctr_mask Hneg Hty Hmax Hbase Hnhw Hx0 Hin.
  assert (forall r,
            pmu_find_fw_ctr base mask h s = Done r s ->
            sbi_pmu_get_ctr_match base mask event_idx data flags s =
            (if r <? 0 then Done SBI_ENOTSUPP s
             else bind (store_active_event h r (u32 event_idx))
                       (fun _ => ret r) s)) as Hrun.
  { intros r Hr. unfold sbi_pmu_get_ctr_match.
    do 2 erewrite bind_done by reflexivity.
    rewrite Hty.
    replace ((base >=? total_ctrs s)
             || (SBI_PMU_EVENT_TYPE_FW >=? SBI_PMU_EVENT_TYPE_MAX))
      with false by cases_cmp.
    rewrite Z.eqb_refl. erewrite bind_done by exact Hr.
    by destruct (r <? 0). }
  split.
  - intros i Hi Hcand Hfirst.
    assert (i < XLEN) as Hix.
    { unfold fw_candidate in Hcand.
      destruct (index2 (active_events s) h i); [| done].
      apply andb_true_iff in Hcand as [_ Hbit].
      destruct (Z_lt_le_dec i XLEN) as [? | Hge]; [done |].
      unfold ctr_mask, ulong in Hbit.
      rewrite Z.mod_pow2_bits_high in Hbit by lia. done. }
    rewrite (Hrun i).
    + replace (i <? 0) with false by (subst first; lia).
      unfold fw_candidate in Hcand.
      destruct (index2 (active_events s) h i) as [v |] eqn:Hv; [| done].
      erewrite bind_done by (by eapply store_active_event_done).
      eexists. split; [done |]. cbn. split; [by eapply index2_update2_eq |].
      split; [| done].
      intros j Hj Hne. apply index2_update2_ne; subst first; lia.
    + rewrite pmu_find_fw_ctr_unfold by (subst first; lia).
      apply pmu_find_fw_ctr_loop_first; fold first; try lia; try done.
      intros j Hj. apply Hin. lia.
  - intros Hx Hnone. rewrite (Hrun SBI_ENOTSUPP).
    + by replace (SBI_ENOTSUPP <? 0) with true by lia.
    + rewrite pmu_find_fw_ctr_unfold by lia.
      fold first. destruct (Z_lt_le_dec first (total_ctrs s)) as [Hlt | Hge].
      * apply pmu_find_fw_ctr_loop_none; subst first; [lia | lia | |].
        -- intros j Hj. apply Hin. lia.
        -- intros j Hj. apply Hnone. lia.
      * by replace (Z.to_nat (total_ctrs s - first)) with O by lia.
Qed.

End Allocation.

(** *** Matching on the sample hart *)

Section AllocationRv64.

#[local] Existing Instance rv64.

(** C2, as stated, fails: on the sample hart num_hw_ctrs is 31 and nothing
    is bound; for a firmware event with base 0 and the mask that holds bit 31
    alone, the index 31 = max(base, num_hw_ctrs) has its bit set and no event
    bound, yet the call returns SBI_ENOTSUPP and binds nothing: the scan
    starts at 32. *)
Lemma firmware_match_skips_num_hw_ctrs :
  num_hw_ctrs rv64_booted = 31
  /\ get_cidx_type 983043 = SBI_PMU_EVENT_TYPE_FW
  /\ fw_candidate rv64_booted 0 (ulong (Z.shiftl (2 ^ 31) 0)) 31 = true
  /\ sbi_pmu_get_ctr_match 0 (2 ^ 31) 983043 0 0 rv64_booted
     = Done SBI_ENOTSUPP rv64_booted.
Proof. by vm_compute. Qed.

Lemma firmware_match_first_fit_witness :
  exists s',
    sbi_pmu_get_ctr_match 0 (2 ^ 40 - 1) 983043 0 0 rv64_booted = Done 32 s'
    /\ index2 (active_events s') 0 32 = Some 983043
    /\ csrs s' = csrs rv64_booted.
Proof.
  destruct (firmware_match_first_fit rv64_booted 0 (2 ^ 40 - 1) 983043 0 0)
    as [Hfound _].
  - by vm_compute.
  - by vm_compute.
  - by vm_compute.
  - by vm_compute.
  - by vm_compute.
  - by vm_compute.
  - intros j Hj.
    apply (range_forallb
             (fun j => match index2 (active_events rv64_booted) 0 j with
                       | Some _ => true
                       | None => false
                       end) 32 15) in Hj; [| by vm_compute].
    change (mhartid rv64_booted) with 0.
    by destruct (index2 (active_events rv64_booted) 0 j).
  - destruct (Hfound 32) as (s' & Hrun & Hbound & _ & Hcsrs).
    + by vm_compute.
    + by vm_compute.
    + intros j Hj.
      assert (Z.max 0 (num_hw_ctrs rv64_booted + 1) = 32) as E
        by (by vm_compute).
      rewrite E in Hj. lia.
    + assert (mhartid rv64_booted = 0) as Eh by (by vm_compute).
      assert (u32 983043 = 983043) as Ee by (by vm_compute).
      rewrite Eh, Ee in Hbound.
      exists s'. split; [exact Hrun |]. split; [exact Hbound | exact Hcsrs].
Defined.

End AllocationRv64.

(** ** Operations on a bound counter *)

Section Control.

Context {K : pmu_consts}.

Lemma get_cidx_type_nonneg ev : 0 <= ev -> 0 <= get_cidx_type ev.
Proof.
  intros Hev. unfold get_cidx_type. apply Z.shiftr_nonneg, Z.land_nonneg.
  by left.
Qed.

(** On a validly bound counter the validation returns the type and stores
    the code of the event. *)
Lemma pmu_validate_ctr_bound s cidx ev :
  bound_to s cidx ev ->
  pmu_validate_ctr cidx s
  = Done (get_cidx_type ev, Some (get_cidx_code ev)) s.
Proof.
  intros (Hc & Hev & Hev0 & Hinv & Hty). unfold pmu_validate_ctr.
  erewrite bind_done by reflexivity.
  erewrite bind_done by (by apply load_active_event_done).
  erewrite bind_done by reflexivity.
  replace ((cidx >=? total_ctrs s) || (ev =? SBI_PMU_EVENT_IDX_INVALID))
    with false by cases_cmp.
  by replace (get_cidx_type ev >=? SBI_PMU_EVENT_TYPE_MAX) with false
    by cases_cmp.
Qed.

Lemma test_bit_done nr word s :
  0 <= nr < XLEN -> __test_bit nr word s = Done (Z.testbit word nr) s.
Proof. intros Hn. unfold __test_bit. by cases_cmp. Qed.

Lemma set_bit_done nr word s :
  0 <= nr < XLEN ->
  __set_bit nr word s = Done (Z.lor word (Z.shiftl 1 nr)) s.
Proof. intros Hn. unfold __set_bit. by cases_cmp. Qed.

Lemma clear_bit_done nr word s :
  0 <= nr < XLEN ->
  __clear_bit nr word s = Done (Z.ldiff word (Z.shiftl 1 nr)) s.
Proof. intros Hn. unfold __clear_bit. by cases_cmp. Qed.

Lemma pmu_start_hw_ctr_running s cidx ival :
  0 <= cidx < XLEN -> cidx <= num_hw_ctrs s -> running s cidx = true ->
  pmu_start_hw_ctr cidx ival s = Done SBI_EALREADY_STARTED s.
Proof.
  intros Hc Hhw Hrun. unfold pmu_start_hw_ctr.
  do 3 erewrite bind_done by reflexivity.
  replace (cidx >? num_hw_ctrs s) with false by cases_cmp.
  do 2 erewrite bind_done by (by apply test_bit_done).
  unfold running in Hrun. by rewrite Hrun.
Qed.

Lemma pmu_stop_hw_ctr_not_running s cidx :
  0 <= cidx < XLEN -> running s cidx = false ->
  pmu_stop_hw_ctr cidx s = Done SBI_EALREADY_STOPPED s.
Proof.
  intros Hc Hrun. unfold pmu_stop_hw_ctr.
  do 2 erewrite bind_done by reflexivity.
  do 2 erewrite bind_done by (by apply test_bit_done).
  unfold running in Hrun. by rewrite Hrun.
Qed.

Lemma pmu_stop_hw_ctr_running s cidx :
  0 <= cidx < XLEN -> running s cidx = true ->
  pmu_stop_hw_ctr cidx s = Done 0 (stopped_csrs s cidx).
Proof.
  intros Hc Hrun. unfold pmu_stop_hw_ctr.
  do 2 erewrite bind_done by reflexivity.
  do 2 erewrite bind_done by (by apply test_bit_done).
  unfold running in Hrun. rewrite Hrun.
  erewrite bind_done by (by apply set_bit_done).
  erewrite bind_done by (by apply clear_bit_done).
  done.
Qed.

Lemma pmu_stop_fw_ctr_done s cidx code e :
  index2 (fw_event_map s) (mhartid s) code = Some e ->
  pmu_stop_fw_ctr cidx code s
  = Done 0 (set_fw_event_map
              (update2 (fw_event_map s) (mhartid s) code
                 (mk_fw_event (event_idx e) (curr_count e) false)) s).
Proof.
  intros He. unfold pmu_stop_fw_ctr.
  erewrite bind_done by reflexivity.
  erewrite bind_done by (by apply load_fw_event_done).
  by erewrite bind_done by (by eapply store_fw_event_done).
Qed.

(** sbi_pmu_stop_ctr on a validly bound counter, from what the stop of the
    hardware or firmware counter does. *)
Lemma sbi_pmu_stop_ctr_spec s cidx ev reset r s1 :
  bound_to s cidx ev ->
  (if get_cidx_type ev =? SBI_PMU_EVENT_TYPE_FW
   then pmu_stop_fw_ctr cidx (get_cidx_code ev)
   else pmu_stop_hw_ctr cidx) s = Done r s1 ->
  active_events s1 = active_events s ->
  sbi_pmu_stop_ctr cidx reset s =
  Done r (if (r =? 0) && reset
          then set_active_events
                 (update2 (active_events s) (mhartid s) cidx
                    SBI_PMU_EVENT_IDX_INVALID) s1
          else s1).
Proof.
  intros Hb Hbody Hact. unfold sbi_pmu_stop_ctr.
  erewrite bind_done by reflexivity.
  erewrite bind_done by (by apply pmu_validate_ctr_bound).
  destruct Hb as (Hc & Hev & Hev0 & Hinv & Hty).
  replace (get_cidx_type ev <? 0) with false
    by (pose proof (get_cidx_type_nonneg ev Hev0); lia).
  erewrite (bind_done _ _ s r s1).
  - destruct ((r =? 0) && reset).
    + erewrite bind_done
        by (eapply store_active_event_done; rewrite Hact; exact Hev).
      by rewrite Hact.
    + by erewrite bind_done by reflexivity.
  - destruct (get_cidx_type ev =? SBI_PMU_EVENT_TYPE_FW); [| done].
    by erewrite bind_done by reflexivity.
Qed.

(** C6: on a counter bound to a hardware event, start returns
    SBI_EALREADY_STARTED when the counter is a hardware counter whose enable
    bit is set and whose inhibit bit is clear, and stop returns
    SBI_EALREADY_STOPPED when the counter is not in that state; in both
    cases the whole state, so the counter value and the two control
    registers, is left as it was. *)
Theorem hw_start_stop_already (s : pmu_state) (cidx ev ival : Z) (reset : bool) :
  errors_negative ->
  bound_to s cidx ev ->
  get_cidx_type ev <> SBI_PMU_EVENT_TYPE_FW ->
  0 <= cidx < XLEN ->
  (cidx <= num_hw_ctrs s -> running s cidx = true ->
   sbi_pmu_start_ctr cidx ival s = Done SBI_EALREADY_STARTED s)
  /\ (running s cidx = false ->
      sbi_pmu_stop_ctr cidx reset s = Done SBI_EALREADY_STOPPED s).
Proof.
  intros (_ & _ & _ & _ & _ & _ & Hstop) Hb Hhw Hx. split.
  - intros Hc Hrun. unfold sbi_pmu_start_ctr.
    erewrite bind_done by (by apply pmu_validate_ctr_bound).
    destruct Hb as (_ & _ & Hev0 & _ & _).
    replace (get_cidx_type ev <? 0) with false
      by (pose proof (get_cidx_type_nonneg ev Hev0); lia).
    replace (get_cidx_type ev =? SBI_PMU_EVENT_TYPE_FW) with false
      by cases_cmp.
    by apply pmu_start_hw_ctr_running.
  - intros Hrun.
    rewrite (sbi_pmu_stop_ctr_spec s cidx ev reset SBI_EALREADY_STOPPED s);
      try done.
    + by replace (SBI_EALREADY_STOPPED =? 0) with false by cases_cmp.
    + replace (get_cidx_type ev =? SBI_PMU_EVENT_TYPE_FW) with false
        by cases_cmp.
      by apply pmu_stop_hw_ctr_not_running.
Qed.

(** X22: stop on a validly bound counter whose event, if a firmware event,
    has its code inside the row of fw_event_map, and whose index, if the
    event is a hardware event, is below XLEN, finishes; afterwards the
    binding of the counter is the invalid index exactly when the stop of the
    counter returned 0 and a reset was asked for; when the stop returned an
    error the bindings are as before; and for a counter bound to a firmware
    event the stop returns 0 and leaves the started flag of the event
    cleared. *)
Theorem stop_clears_binding_iff (s : pmu_state) (cidx ev : Z) (reset : bool) :
  errors_negative ->
  bound_to s cidx ev ->
  (get_cidx_type ev = SBI_PMU_EVENT_TYPE_FW ->
   is_Some (index2 (fw_event_map s) (mhartid s) (get_cidx_code ev))) ->
  (get_cidx_type ev <> SBI_PMU_EVENT_TYPE_FW -> 0 <= cidx < XLEN) ->
  exists r s',
    sbi_pmu_stop_ctr cidx reset s = Done r s'
    /\ (index2 (active_events s') (mhartid s) cidx
        = Some SBI_PMU_EVENT_IDX_INVALID
        <-> r = 0 /\ reset = true)
    /\ (r <> 0 -> active_events s' = active_events s)
    /\ (get_cidx_type ev = SBI_PMU_EVENT_TYPE_FW ->
        r = 0
        /\ exists e,
             index2 (fw_event_map s') (mhartid s) (get_cidx_code ev) = Some e
             /\ bStarted e = false).
Proof.
  intros (_ & _ & _ & _ & _ & _ & Hstop) Hb Hfw Hhw.
  pose proof Hb as (Hc & Hev & Hev0 & Hinv & Hty).
  assert (forall r s1,
            active_events s1 = active_events s ->
            (index2
               (active_events
                  (if (r =? 0) && reset
                   then set_active_events
                          (update2 (active_events s) (mhartid s) cidx
                             SBI_PMU_EVENT_IDX_INVALID) s1
                   else s1)) (mhartid s) cidx
             = Some SBI_PMU_EVENT_IDX_INVALID
             <-> r = 0 /\ reset = true)
            /\ (r <> 0 ->
                active_events
                  (if (r =? 0) && reset
                   then set_active_events
                          (update2 (active_events s) (mhartid s) cidx
                             SBI_PMU_EVENT_IDX_INVALID) s1
                   else s1) = active_events s)) as Htail.
  { intros r s1 Hact. destruct (Z.eqb_spec r 0) as [-> | Hr];
      destruct reset; cbn [andb set_active_events active_events].
    - split; [| done]. split; [done |]. intros _.
      by eapply index2_update2_eq.
    - rewrite Hact, Hev. split; [| done].
      split; [congruence | by intros [_ ?]].
    - rewrite Hact, Hev. split; [| done].
      split; [congruence | by intros [? _]].
    - rewrite Hact, Hev. split; [| done].
      split; [congruence | by intros [? _]]. }
  destruct (Z.eq_dec (get_cidx_type ev) SBI_PMU_EVENT_TYPE_FW) as [Hty' | Hty'].
  - destruct (Hfw Hty') as [e He].
    eexists 0, _. split.
    { eapply sbi_pmu_stop_ctr_spec; [done | | ].
      - rewrite Hty', Z.eqb_refl. by apply pmu_stop_fw_ctr_done.
      - done. }
    split; [by apply Htail |]. split; [by apply Htail |].
    intros _. split; [done |].
    exists (mk_fw_event (event_idx e) (curr_count e) false).
    split; [| done].
    destruct ((0 =? 0) && reset); cbn; by eapply index2_update2_eq.
  - specialize (Hhw Hty').
    destruct (running s cidx) eqn:Hrun.
    + eexists 0, _. split.
      { eapply sbi_pmu_stop_ctr_spec; [done | | ].
        - replace (get_cidx_type ev =? SBI_PMU_EVENT_TYPE_FW) with false
            by cases_cmp.
          by apply pmu_stop_hw_ctr_running.
        - done. }
      split; [by apply Htail |]. split; [by apply Htail | done].
    + eexists SBI_EALREADY_STOPPED, _. split.
      { eapply sbi_pmu_stop_ctr_spec; [done | | ].
        - replace (get_cidx_type ev =? SBI_PMU_EVENT_TYPE_FW) with false
            by cases_cmp.
          by apply pmu_stop_hw_ctr_not_running.
        - done. }
      split; [by apply Htail |]. split; [by apply Htail | done].
Qed.

End Control.

(** *** Start and stop on the sample hart *)

Section ControlRv64.

#[local] Existing Instance rv64.

Lemma rv64_errors_negative : errors_negative.
Proof. unfold errors_negative. cbn. lia. Qed.

Lemma hw_start_stop_already_witness :
  sbi_pmu_start_ctr 0 7 rv64_cycle_started
  = Done SBI_EALREADY_STARTED rv64_cycle_started
  /\ sbi_pmu_stop_ctr 0 true rv64_cycle_bound
     = Done SBI_EALREADY_STOPPED rv64_cycle_bound.
Proof.
  assert (bound_to rv64_cycle_started 0 0) as Hb1
    by (unfold bound_to; by_computation).
  assert (bound_to rv64_cycle_bound 0 0) as Hb2
    by (unfold bound_to; by_computation).
  assert (get_cidx_type 0 <> SBI_PMU_EVENT_TYPE_FW) as Hty by by_computation.
  assert (0 <= 0 < XLEN) as Hx by by_computation.
  split.
  - apply (proj1 (hw_start_stop_already rv64_cycle_started 0 0 7 true
                    rv64_errors_negative Hb1 Hty Hx)); by_computation.
  - apply (proj2 (hw_start_stop_already rv64_cycle_bound 0 0 7 true
                    rv64_errors_negative Hb2 Hty Hx)). by_computation.
Defined.

(** C7 fails on the code: sbi_pmu_get_ctr_match binds the firmware event
    0xF0028, of code 40, to counter 32 without looking at the code, and the
    counter is validly bound; pmu_stop_fw_ctr then subscripts the row of
    fw_event_map, of SBI_PMU_FW_EVENT_MAX = 32 entries, with the code, so
    that stop, with or without reset, has no defined result where the claim
    has it succeed.  sbi_pmu_incr_fw_ctr compares the code with
    SBI_PMU_FW_MAX before the same subscript. *)
Theorem stop_fw_code_outside_table :
  sbi_pmu_get_ctr_match 0 (2 ^ 40 - 1) 983080 0 0 rv64_booted
  = Done 32 rv64_fw40_bound
  /\ bound_to rv64_fw40_bound 32 983080
  /\ get_cidx_type 983080 = SBI_PMU_EVENT_TYPE_FW
  /\ get_cidx_code 983080 = 40
  /\ SBI_PMU_FW_EVENT_MAX = 32
  /\ sbi_pmu_stop_ctr 32 true rv64_fw40_bound = Undefined OutOfBounds
  /\ sbi_pmu_stop_ctr 32 false rv64_fw40_bound = Undefined OutOfBounds
  /\ sbi_pmu_incr_fw_ctr 40 rv64_fw40_bound
     = Done SBI_EINVAL rv64_fw40_bound.
Proof. unfold bound_to. by_computation. Qed.

Lemma stop_clears_binding_iff_witness :
  exists r s',
    sbi_pmu_stop_ctr 32 true rv64_fw_started = Done r s'
    /\ index2 (active_events s') 0 32 = Some SBI_PMU_EVENT_IDX_INVALID
    /\ exists e, index2 (fw_event_map s') 0 3 = Some e /\ bStarted e = false.
Proof.
  assert (bound_to rv64_fw_started 32 983043) as Hb
    by (unfold bound_to; by_computation).
  assert (get_cidx_type 983043 = SBI_PMU_EVENT_TYPE_FW) as Hty
    by by_computation.
  assert (get_cidx_type 983043 = SBI_PMU_EVENT_TYPE_FW ->
          is_Some (index2 (fw_event_map rv64_fw_started)
                     (mhartid rv64_fw_started) (get_cidx_code 983043)))
    as Hin by (intros _; by_computation).
  assert (get_cidx_type 983043 <> SBI_PMU_EVENT_TYPE_FW -> 0 <= 32 < XLEN)
    as Hhw by (intros _; by_computation).
  pose proof (stop_clears_binding_iff rv64_fw_started 32 983043 true
                rv64_errors_negative Hb Hin Hhw)
    as (r & s' & Hrun & Hiff & _ & Hfw).
  destruct (Hfw Hty) as (Hr & e & He & Hst).
  exists r, s'. split; [exact Hrun |]. split.
  - apply Hiff. split; [exact Hr | reflexivity].
  - exists e. split; [exact He | exact Hst].
Defined.

End ControlRv64.

(** ** Reading a counter *)

Section Reading.

Context {K : pmu_consts}.

(** On a counter bound to a hardware event the read returns 0 and leaves
    the caller's variable as it was, whatever the counter holds. *)
Lemma sbi_pmu_read_ctr_hw s cidx ev cval :
  bound_to s cidx ev ->
  get_cidx_type ev <> SBI_PMU_EVENT_TYPE_FW ->
  sbi_pmu_read_ctr cidx cval s = Done (0, cval) s.
Proof.
  intros Hb Hhw. unfold sbi_pmu_read_ctr.
  erewrite bind_done by (by apply pmu_validate_ctr_bound).
  destruct Hb as (_ & _ & Hev0 & _ & _).
  replace (get_cidx_type ev <? 0) with false
    by (pose proof (get_cidx_type_nonneg ev Hev0); lia).
  replace (get_cidx_type ev =? SBI_PMU_EVENT_TYPE_FW) with false
    by cases_cmp.
  unfold sbi_pmu_read_hw_ctr.
  destruct (XLEN =? 32).
  - by erewrite bind_done by reflexivity.
  - by erewrite bind_done by reflexivity.
Qed.

(** The validation reads the table before it looks at the index: outside
    the table it has no defined result, and neither have the three
    operations that start with it. *)
Lemma pmu_validate_ctr_outside s cidx :
  index2 (active_events s) (mhartid s) cidx = None ->
  pmu_validate_ctr cidx s = Undefined OutOfBounds
  /\ (forall cval, sbi_pmu_read_ctr cidx cval s = Undefined OutOfBounds)
  /\ (forall ival, sbi_pmu_start_ctr cidx ival s = Undefined OutOfBounds)
  /\ (forall reset, sbi_pmu_stop_ctr cidx reset s = Undefined OutOfBounds).
Proof.
  intros Hout.
  assert (pmu_validate_ctr cidx s = Undefined OutOfBounds) as Hv.
  { unfold pmu_validate_ctr. erewrite bind_done by reflexivity.
    unfold bind, load_active_event. by rewrite Hout. }
  split; [done |]. repeat split; intros.
  - unfold sbi_pmu_read_ctr, bind. by rewrite Hv.
  - unfold sbi_pmu_start_ctr, bind. by rewrite Hv.
  - unfold sbi_pmu_stop_ctr. erewrite bind_done by reflexivity.
    unfold bind. by rewrite Hv.
Qed.

End Reading.

Section ReadingRv64.

#[local] Existing Instance rv64.

(** C3 fails on the code: counter 0 is bound to the cycle event, a hardware
    event, and was started from 100; reading the hardware counter gives the
    register's value 100, but the read operation, called with a variable
    that holds 0, returns 0 and leaves 0 in the variable. *)
Theorem read_hw_ctr_drops_value :
  bound_to rv64_cycle_started 0 0
  /\ get_cidx_type 0 <> SBI_PMU_EVENT_TYPE_FW
  /\ sbi_pmu_read_hw_ctr 0 rv64_cycle_started
     = Done (0, 100) rv64_cycle_started
  /\ sbi_pmu_read_ctr 0 0 rv64_cycle_started
     = Done (0, 0) rv64_cycle_started.
Proof. unfold bound_to. by_computation. Qed.

(** C10 fails on the code: on the sample hart total_ctrs is 47 and a row of
    active_events has 48 entries; with the index 48 the validation subscripts
    the row outside its bounds before the index is compared with total_ctrs,
    and read, start and stop have no defined result. *)
Theorem validate_reads_before_bounds_check :
  total_ctrs rv64_booted <= 48
  /\ pmu_validate_ctr 48 rv64_booted = Undefined OutOfBounds
  /\ sbi_pmu_read_ctr 48 0 rv64_booted = Undefined OutOfBounds
  /\ sbi_pmu_start_ctr 48 0 rv64_booted = Undefined OutOfBounds
  /\ sbi_pmu_stop_ctr 48 false rv64_booted = Undefined OutOfBounds.
Proof. by_computation. Qed.

End ReadingRv64.

(** ** The firmware event hook *)

Section Increment.

Context {K : pmu_consts}.

(** C8: the increment returns SBI_EINVAL exactly when the code is at or
    beyond SBI_PMU_FW_MAX, and then nothing changes; otherwise it returns 0,
    the count of the event on the executing hart is unchanged when the event
    is not started and is one more, modulo 2^XLEN, when it is started, and
    the started flag is as before. *)
Theorem incr_fw_ctr_counts (s : pmu_state) (fw_id : Z) :
  SBI_EINVAL <> 0 ->
  (fw_id < SBI_PMU_FW_MAX ->
   is_Some (index2 (fw_event_map s) (mhartid s) fw_id)) ->
  exists r s',
    sbi_pmu_incr_fw_ctr fw_id s = Done r s'
    /\ (r = SBI_EINVAL <-> SBI_PMU_FW_MAX <= fw_id)
    /\ (SBI_PMU_FW_MAX <= fw_id -> s' = s)
    /\ (fw_id < SBI_PMU_FW_MAX ->
        r = 0
        /\ exists e e',
             index2 (fw_event_map s) (mhartid s) fw_id = Some e
             /\ index2 (fw_event_map s') (mhartid s) fw_id = Some e'
             /\ curr_count e'
                = (if bStarted e then (curr_count e + 1) mod 2 ^ XLEN
                   else curr_count e)
             /\ bStarted e' = bStarted e).
Proof.
  intros Hinv Hin. unfold sbi_pmu_incr_fw_ctr.
  erewrite bind_done by reflexivity.
  destruct (Z.geb_spec fw_id SBI_PMU_FW_MAX) as [Hge | Hlt].
  - exists SBI_EINVAL, s. split; [done |]. split; [done |].
    split; [done | lia].
  - destruct (Hin Hlt) as [e He].
    erewrite bind_done by (by apply load_fw_event_done).
    destruct (bStarted e) eqn:Hst.
    + erewrite bind_done by (by eapply store_fw_event_done).
      eexists 0, _. split; [done |]. split; [split; [congruence | lia] |].
      split; [lia |]. intros _. split; [done |].
      eexists e, _. split; [done |]. split.
      * cbn. by eapply index2_update2_eq.
      * by rewrite Hst.
    + erewrite bind_done by reflexivity.
      exists 0, s. split; [done |]. split; [split; [congruence | lia] |].
      split; [lia |]. intros _. split; [done |].
      exists e, e. by rewrite Hst.
Qed.

End Increment.

Section IncrementRv64.

#[local] Existing Instance rv64.

Lemma incr_fw_ctr_counts_witness :
  exists r s',
    sbi_pmu_incr_fw_ctr 3 rv64_fw_started = Done r s'
    /\ r = 0
    /\ exists e', index2 (fw_event_map s') 0 3 = Some e' /\ curr_count e' = 6.
Proof.
  assert (SBI_EINVAL <> 0) as Hinv by by_computation.
  assert (3 < SBI_PMU_FW_MAX) as Hlt by by_computation.
  assert (3 < SBI_PMU_FW_MAX ->
          is_Some (index2 (fw_event_map rv64_fw_started)
                     (mhartid rv64_fw_started) 3))
    as Hin by (intros _; by_computation).
  pose proof (incr_fw_ctr_counts rv64_fw_started 3 Hinv Hin)
    as (r & s' & Hrun & _ & _ & Hok).
  destruct (Hok Hlt) as (Hr & e & e' & He & He' & Hcount & _).
  exists r, s'. split; [exact Hrun |]. split; [exact Hr |].
  exists e'. split; [exact He' |].
  rewrite Hcount. vm_compute in He. injection He as <-. reflexivity.
Defined.

End IncrementRv64.

(** ** Counter information *)

Section Info.

Context {K : pmu_consts}.

(** C9, as amended: the query returns SBI_EINVAL when the index is above
    total_ctrs or is 1; for an index below total_ctrs and other than 1 it
    returns 0 and reports, up to num_hw_ctrs included, a hardware counter
    with the register CSR_CYCLE + index and the width 63 for the indices 0
    and 2 and the width the hart reports otherwise, and, above num_hw_ctrs,
    a firmware counter with the width XLEN - 1. *)
Theorem get_ctr_info_cases (s : pmu_state) (cidx : Z) :
  0 <= CSR_CYCLE ->
  CSR_CYCLE + num_hw_ctrs s < 2 ^ 12 ->
  0 <= sbi_hart_pmu_event_bits < 64 ->
  1 <= XLEN <= 64 ->
  0 <= SBI_PMU_CTR_TYPE_HW < 2 ->
  0 <= SBI_PMU_CTR_TYPE_FW < 2 ->
  0 <= cidx ->
  (total_ctrs s < cidx \/ cidx = 1 ->
   sbi_pmu_get_ctr_info cidx s = Done (SBI_EINVAL, None) s)
  /\ (cidx < total_ctrs s -> cidx <> 1 -> cidx <= num_hw_ctrs s ->
      sbi_pmu_get_ctr_info cidx s
      = Done (0, Some (mk_ctr_info (CSR_CYCLE + cidx)
                         (if (cidx =? 0) || (cidx =? 2) then 63
                          else sbi_hart_pmu_event_bits)
                         SBI_PMU_CTR_TYPE_HW)) s)
  /\ (cidx < total_ctrs s -> cidx <> 1 -> num_hw_ctrs s < cidx ->
      sbi_pmu_get_ctr_info cidx s
      = Done (0, Some (mk_ctr_info 0 (XLEN - 1) SBI_PMU_CTR_TYPE_FW)) s).
Proof.
  intros Hcsr Hfit Hbits Hx Hhw Hfw Hc.
  unfold sbi_pmu_get_ctr_info.
  do 2 erewrite bind_done by reflexivity.
  split; [| split].
  - intros Hcase.
    by replace ((cidx >? total_ctrs s) || (cidx =? 1)) with true
      by (destruct Hcase; cases_cmp).
  - intros Hlt Hne Hle.
    replace ((cidx >? total_ctrs s) || (cidx =? 1)) with false by cases_cmp.
    replace (cidx <=? num_hw_ctrs s) with true by cases_cmp.
    unfold ret. do 3 f_equal. f_equal.
    + apply Z.mod_small. lia.
    + apply Z.mod_small. destruct ((cidx =? 0) || (cidx =? 2)); lia.
    + apply Z.mod_small. lia.
  - intros Hlt Hne Hgt.
    replace ((cidx >? total_ctrs s) || (cidx =? 1)) with false by cases_cmp.
    replace (cidx <=? num_hw_ctrs s) with false by cases_cmp.
    unfold ret. do 3 f_equal. f_equal.
    + apply Z.mod_small. change (2 ^ 6) with 64. lia.
    + apply Z.mod_small. lia.
Qed.

End Info.

Section InfoRv64.

#[local] Existing Instance rv64.

(** C9, as stated, fails: on the sample hart num_hw_ctrs is 31 and
    total_ctrs is 47; the query for the index 31, which is not below
    num_hw_ctrs, reports a hardware counter, and the query for the index 47,
    which is not below total_ctrs, returns 0 and reports a firmware
    counter. *)
Lemma get_ctr_info_at_the_bounds :
  num_hw_ctrs rv64_booted = 31
  /\ total_ctrs rv64_booted = 47
  /\ sbi_pmu_get_ctr_info 31 rv64_booted
     = Done (0, Some (mk_ctr_info (CSR_CYCLE + 31) 47 SBI_PMU_CTR_TYPE_HW))
            rv64_booted
  /\ sbi_pmu_get_ctr_info 47 rv64_booted
     = Done (0, Some (mk_ctr_info 0 63 SBI_PMU_CTR_TYPE_FW)) rv64_booted
  /\ SBI_PMU_CTR_TYPE_HW <> SBI_PMU_CTR_TYPE_FW.
Proof. by_computation. Qed.

Lemma get_ctr_info_cases_witness :
  sbi_pmu_get_ctr_info 1 rv64_booted = Done (SBI_EINVAL, None) rv64_booted
  /\ sbi_pmu_get_ctr_info 2 rv64_booted
     = Done (0, Some (mk_ctr_info (CSR_CYCLE + 2) 63 SBI_PMU_CTR_TYPE_HW))
            rv64_booted
  /\ sbi_pmu_get_ctr_info 40 rv64_booted
     = Done (0, Some (mk_ctr_info 0 63 SBI_PMU_CTR_TYPE_FW)) rv64_booted.
Proof.
  assert (0 <= CSR_CYCLE) as H1 by by_computation.
  assert (CSR_CYCLE + num_hw_ctrs rv64_booted < 2 ^ 12) as H2
    by by_computation.
  assert (0 <= sbi_hart_pmu_event_bits < 64) as H3 by by_computation.
  assert (1 <= XLEN <= 64) as H4 by by_computation.
  assert (0 <= SBI_PMU_CTR_TYPE_HW < 2) as H5 by by_computation.
  assert (0 <= SBI_PMU_CTR_TYPE_FW < 2) as H6 by by_computation.
  assert (0 <= 1) as Hc1 by lia.
  assert (0 <= 2) as Hc2 by lia.
  assert (0 <= 40) as Hc3 by lia.
  pose proof (get_ctr_info_cases rv64_booted 1 H1 H2 H3 H4 H5 H6 Hc1)
    as (Hinv & _ & _).
  pose proof (get_ctr_info_cases rv64_booted 2 H1 H2 H3 H4 H5 H6 Hc2)
    as (_ & Hhw & _).
  pose proof (get_ctr_info_cases rv64_booted 40 H1 H2 H3 H4 H5 H6 Hc3)
    as (_ & _ & Hfw).
  split; [| split].
  - apply Hinv. right. reflexivity.
  - apply Hhw; by_computation.
  - apply Hfw; by_computation.
Defined.

End InfoRv64.

(** ** Counters that are not validly bound *)

Section Unbound.

Context {K : pmu_consts}.

Lemma bound_to_ext s s' cidx ev :
  active_events s' = active_events s ->
  total_ctrs s' = total_ctrs s ->
  mhartid s' = mhartid s ->
  bound_to s cidx ev -> bound_to s' cidx ev.
Proof. unfold bound_to. by intros -> -> ->. Qed.

Lemma pmu_validate_ctr_unbound s cidx ev :
  index2 (active_events s) (mhartid s) cidx = Some ev ->
  total_ctrs s <= cidx \/ ev = SBI_PMU_EVENT_IDX_INVALID
  \/ SBI_PMU_EVENT_TYPE_MAX <= get_cidx_type ev ->
  pmu_validate_ctr cidx s = Done (SBI_EINVAL, None) s.
Proof.
  intros Hev Hbad. unfold pmu_validate_ctr.
  erewrite bind_done by reflexivity.
  erewrite bind_done by (by apply load_active_event_done).
  erewrite bind_done by reflexivity.
  destruct ((cidx >=? total_ctrs s) || (ev =? SBI_PMU_EVENT_IDX_INVALID))
    eqn:E; [done |].
  apply orb_false_iff in E as [E1 E2].
  destruct Hbad as [? | [? | ?]]; [lia | lia |].
  by replace (get_cidx_type ev >=? SBI_PMU_EVENT_TYPE_MAX) with true by lia.
Qed.

(** X1: an index inside the table that is at or beyond total_ctrs, or whose
    entry is the invalid index or has an unknown type, is refused by read,
    start and stop alike: each returns SBI_EINVAL and changes nothing, the
    caller's variable included. *)
Theorem unbound_counter_refused
    (s : pmu_state) (cidx ev cval ival : Z) (reset : bool) :
  SBI_EINVAL < 0 ->
  index2 (active_events s) (mhartid s) cidx = Some ev ->
  total_ctrs s <= cidx \/ ev = SBI_PMU_EVENT_IDX_INVALID
  \/ SBI_PMU_EVENT_TYPE_MAX <= get_cidx_type ev ->
  sbi_pmu_read_ctr cidx cval s = Done (SBI_EINVAL, cval) s
  /\ sbi_pmu_start_ctr cidx ival s = Done SBI_EINVAL s
  /\ sbi_pmu_stop_ctr cidx reset s = Done SBI_EINVAL s.
Proof.
  intros Hneg Hev Hbad.
  pose proof (pmu_validate_ctr_unbound s cidx ev Hev Hbad) as Hv.
  repeat split.
  - unfold sbi_pmu_read_ctr. erewrite bind_done by exact Hv.
    cbv beta iota. by replace (SBI_EINVAL <? 0) with true by lia.
  - unfold sbi_pmu_start_ctr. erewrite bind_done by exact Hv.
    cbv beta iota. by replace (SBI_EINVAL <? 0) with true by lia.
  - unfold sbi_pmu_stop_ctr. erewrite bind_done by reflexivity.
    erewrite bind_done by exact Hv.
    cbv beta iota. by replace (SBI_EINVAL <? 0) with true by lia.
Qed.

End Unbound.

(** ** Firmware counters *)

Section Firmware.

Context {K : pmu_consts}.

Lemma ulong_add_l x y : ulong (ulong x + y) = ulong (x + y).
Proof.
  unfold ulong. destruct (Z.eq_dec (2 ^ XLEN) 0) as [E | E].
  - rewrite E. by rewrite !Z.mod_0_r.
  - by rewrite Z.add_mod_idemp_l.
Qed.

Lemma sbi_pmu_start_ctr_fw s cidx ev ival e :
  bound_to s cidx ev ->
  get_cidx_type ev = SBI_PMU_EVENT_TYPE_FW ->
  index2 (fw_event_map s) (mhartid s) (get_cidx_code ev) = Some e ->
  sbi_pmu_start_ctr cidx ival s
  = Done 0 (set_fw_event_map
              (update2 (fw_event_map s) (mhartid s) (get_cidx_code ev)
                 (mk_fw_event (event_idx e) (ulong ival) true)) s).
Proof.
  intros Hb Hty He. unfold sbi_pmu_start_ctr.
  erewrite bind_done by (by apply pmu_validate_ctr_bound).
  destruct Hb as (_ & _ & Hev0 & _ & _).
  replace (get_cidx_type ev <? 0) with false
    by (pose proof (get_cidx_type_nonneg ev Hev0); lia).
  rewrite Hty, Z.eqb_refl.
  erewrite bind_done by reflexivity.
  unfold pmu_start_fw_ctr.
  erewrite bind_done by reflexivity.
  erewrite bind_done by (by apply load_fw_event_done).
  by erewrite bind_done by (by eapply store_fw_event_done).
Qed.

Lemma sbi_pmu_read_ctr_fw s cidx ev cval e :
  bound_to s cidx ev ->
  get_cidx_type ev = SBI_PMU_EVENT_TYPE_FW ->
  index2 (fw_event_map s) (mhartid s) (get_cidx_code ev) = Some e ->
  sbi_pmu_read_ctr cidx cval s = Done (0, curr_count e) s.
Proof.
  intros Hb Hty He. unfold sbi_pmu_read_ctr.
  erewrite bind_done by (by apply pmu_validate_ctr_bound).
  destruct Hb as (_ & _ & Hev0 & _ & _).
  replace (get_cidx_type ev <? 0) with false
    by (pose proof (get_cidx_type_nonneg ev Hev0); lia).
  rewrite Hty, Z.eqb_refl.
  erewrite bind_done by reflexivity.
  unfold sbi_pmu_read_fw_ctr.
  erewrite (bind_done _ _ s (0, curr_count e) s); [done |].
  erewrite bind_done by reflexivity.
  by erewrite bind_done by (by apply load_fw_event_done).
Qed.

Lemma sbi_pmu_incr_fw_ctr_spec s fw_id e :
  fw_id < SBI_PMU_FW_MAX ->
  index2 (fw_event_map s) (mhartid s) fw_id = Some e ->
  sbi_pmu_incr_fw_ctr fw_id s
  = Done 0 (if bStarted e
            then set_fw_event_map
                   (update2 (fw_event_map s) (mhartid s) fw_id
                      (mk_fw_event (event_idx e) (ulong (curr_count e + 1))
                         true)) s
            else s).
Proof.
  intros Hlt He. unfold sbi_pmu_incr_fw_ctr.
  erewrite bind_done by reflexivity.
  replace (fw_id >=? SBI_PMU_FW_MAX) with false by lia.
  erewrite bind_done by (by apply load_fw_event_done).
  destruct (bStarted e) eqn:Hst.
  - by erewrite bind_done by (by eapply store_fw_event_done).
  - by erewrite bind_done by reflexivity.
Qed.

(** A started event counts every call of the hook. *)
Lemma incr_times_started (n : nat) s fw_id e :
  fw_id < SBI_PMU_FW_MAX ->
  index2 (fw_event_map s) (mhartid s) fw_id = Some e ->
  bStarted e = true ->
  exists s',
    incr_times n fw_id s = Done (replicate n 0) s'
    /\ index2 (fw_event_map s') (mhartid s) fw_id
       = Some (mk_fw_event (event_idx e)
                 (if n is O then curr_count e
                  else ulong (curr_count e + Z.of_nat n)) true)
    /\ active_events s' = active_events s
    /\ total_ctrs s' = total_ctrs s
    /\ mhartid s' = mhartid s.
Proof.
  intros Hlt. revert s e. induction n as [| n IH]; intros s e He Hst.
  - exists s. repeat split; try done. rewrite He. destruct e. cbn in *.
    by subst.
  - cbn [incr_times].
    erewrite bind_done by (by apply sbi_pmu_incr_fw_ctr_spec).
    rewrite Hst.
    set (e1 := mk_fw_event (event_idx e) (ulong (curr_count e + 1)) true).
    set (s1 := set_fw_event_map _ s).
    destruct (IH s1 e1) as (s' & Hrun & Hent & Hact & Htot & Hh).
    { cbn. by eapply index2_update2_eq. }
    { done. }
    change (mhartid s1) with (mhartid s) in *.
    change (active_events s1) with (active_events s) in *.
    change (total_ctrs s1) with (total_ctrs s) in *.
    exists s'. split; [by erewrite bind_done by exact Hrun |].
    split; [| done].
    rewrite Hent. cbn [event_idx curr_count e1]. do 2 f_equal.
    destruct n as [| n].
    + done.
    + rewrite ulong_add_l. f_equal. lia.
Qed.

(** An event that is not started ignores the hook, which returns 0 for a
    code below SBI_PMU_FW_MAX and SBI_EINVAL for any other. *)
Lemma incr_times_stopped (n : nat) s fw_id e :
  index2 (fw_event_map s) (mhartid s) fw_id = Some e ->
  bStarted e = false ->
  incr_times n fw_id s
  = Done (replicate n (if fw_id >=? SBI_PMU_FW_MAX then SBI_EINVAL else 0))
         s.
Proof.
  intros He Hst. induction n as [| n IH]; [done |].
  cbn [incr_times replicate].
  destruct (Z.geb_spec fw_id SBI_PMU_FW_MAX) as [Hge | Hlt].
  - erewrite (bind_done _ _ s SBI_EINVAL s).
    + by erewrite bind_done by exact IH.
    + unfold sbi_pmu_incr_fw_ctr. erewrite bind_done by reflexivity.
      by replace (fw_id >=? SBI_PMU_FW_MAX) with true by lia.
  - erewrite bind_done by (by apply sbi_pmu_incr_fw_ctr_spec).
    rewrite Hst. by erewrite bind_done by exact IH.
Qed.

(** X2: start on a counter bound to a firmware event returns 0 whether or
    not the event was started already, and sets the count: a read that
    follows returns the initial value modulo 2^XLEN.  The bindings and the
    registers are untouched. *)
Theorem fw_start_read_round_trip (s : pmu_state) (cidx ev ival cval : Z) :
  bound_to s cidx ev ->
  get_cidx_type ev = SBI_PMU_EVENT_TYPE_FW ->
  is_Some (index2 (fw_event_map s) (mhartid s) (get_cidx_code ev)) ->
  exists s',
    sbi_pmu_start_ctr cidx ival s = Done 0 s'
    /\ sbi_pmu_read_ctr cidx cval s' = Done (0, ival mod 2 ^ XLEN) s'
    /\ active_events s' = active_events s
    /\ csrs s' = csrs s
    /\ forall ival2,
         exists s'',
           sbi_pmu_start_ctr cidx ival2 s' = Done 0 s''
           /\ sbi_pmu_read_ctr cidx cval s''
              = Done (0, ival2 mod 2 ^ XLEN) s''.
Proof.
  intros Hb Hty [e He].
  assert (forall s0 e0 v,
            bound_to s0 cidx ev ->
            index2 (fw_event_map s0) (mhartid s0) (get_cidx_code ev)
            = Some e0 ->
            exists s1,
              sbi_pmu_start_ctr cidx v s0 = Done 0 s1
              /\ sbi_pmu_read_ctr cidx cval s1 = Done (0, v mod 2 ^ XLEN) s1
              /\ active_events s1 = active_events s0
              /\ csrs s1 = csrs s0
              /\ bound_to s1 cidx ev
              /\ index2 (fw_event_map s1) (mhartid s1) (get_cidx_code ev)
                 = Some (mk_fw_event (event_idx e0) (ulong v) true))
    as Hstep.
  { intros s0 e0 v Hb0 He0. eexists. split.
    { by eapply sbi_pmu_start_ctr_fw. }
    assert (index2
              (update2 (fw_event_map s0) (mhartid s0) (get_cidx_code ev)
                 (mk_fw_event (event_idx e0) (ulong v) true))
              (mhartid s0) (get_cidx_code ev)
            = Some (mk_fw_event (event_idx e0) (ulong v) true)) as Hnew
      by (by eapply index2_update2_eq).
    split.
    { rewrite (sbi_pmu_read_ctr_fw _ cidx ev cval
                 (mk_fw_event (event_idx e0) (ulong v) true));
        [reflexivity | by apply (bound_to_ext s0) | done | exact Hnew]. }
    split; [done |]. split; [done |].
    split; [by apply (bound_to_ext s0) | exact Hnew]. }
  destruct (Hstep s e ival Hb He) as (s' & Hs & Hr & Ha & Hc & Hb' & He').
  exists s'. repeat split; try done.
  intros ival2.
  destruct (Hstep s' _ ival2 Hb' He') as (s'' & Hs2 & Hr2 & _).
  by exists s''.
Qed.

(** X3: once a counter validly bound to a firmware event, whose code is
    below SBI_PMU_FW_MAX and inside the row of fw_event_map, is started from
    a value, [n] calls of the hook for that code in a row return 0 each and
    raise what read returns to the value plus [n], modulo 2^XLEN. *)
Theorem fw_counter_counts
    (s : pmu_state) (cidx ev ival cval : Z) (n : nat) :
  bound_to s cidx ev ->
  get_cidx_type ev = SBI_PMU_EVENT_TYPE_FW ->
  get_cidx_code ev < SBI_PMU_FW_MAX ->
  is_Some (index2 (fw_event_map s) (mhartid s) (get_cidx_code ev)) ->
  exists s1 s2,
    sbi_pmu_start_ctr cidx ival s = Done 0 s1
    /\ incr_times n (get_cidx_code ev) s1 = Done (replicate n 0) s2
    /\ sbi_pmu_read_ctr cidx cval s2
       = Done (0, (ival + Z.of_nat n) mod 2 ^ XLEN) s2.
Proof.
  intros Hb Hty Hlt [e He].
  set (e1 := mk_fw_event (event_idx e) (ulong ival) true).
  set (s1 := set_fw_event_map
               (update2 (fw_event_map s) (mhartid s) (get_cidx_code ev) e1)
               s).
  assert (index2 (fw_event_map s1) (mhartid s1) (get_cidx_code ev) = Some e1)
    as He1 by (cbn; by eapply index2_update2_eq).
  assert (bound_to s1 cidx ev) as Hb1 by (by apply (bound_to_ext s)).
  destruct (incr_times_started n s1 (get_cidx_code ev) e1 Hlt He1 eq_refl)
    as (s2 & Hrun & Hent & Hact & Htot & Hh).
  assert (bound_to s2 cidx ev) as Hb2 by (by apply (bound_to_ext s1)).
  exists s1, s2. split; [by eapply sbi_pmu_start_ctr_fw |]. split; [done |].
  rewrite <- Hh in Hent.
  rewrite (sbi_pmu_read_ctr_fw s2 cidx ev cval _ Hb2 Hty Hent).
  cbn [curr_count event_idx e1]. do 2 f_equal.
  destruct n as [| n]; [| by rewrite ulong_add_l].
  unfold ulong. f_equal. lia.
Qed.

(** X4: a counter validly bound to a firmware event whose code lies inside
    the row of fw_event_map, started from a value and then stopped without
    reset, keeps its count: [n] calls of the hook for its event in a row
    change nothing, each returning 0 when the code is below SBI_PMU_FW_MAX
    and SBI_EINVAL otherwise, and read returns the value the counter was
    started from, modulo 2^XLEN. *)
Theorem fw_counter_stopped_keeps_count
    (s : pmu_state) (cidx ev ival cval : Z) (n : nat) :
  bound_to s cidx ev ->
  get_cidx_type ev = SBI_PMU_EVENT_TYPE_FW ->
  is_Some (index2 (fw_event_map s) (mhartid s) (get_cidx_code ev)) ->
  exists s1 s2,
    sbi_pmu_start_ctr cidx ival s = Done 0 s1
    /\ sbi_pmu_stop_ctr cidx false s1 = Done 0 s2
    /\ incr_times n (get_cidx_code ev) s2
       = Done (replicate n (if get_cidx_code ev >=? SBI_PMU_FW_MAX
                            then SBI_EINVAL else 0)) s2
    /\ sbi_pmu_read_ctr cidx cval s2 = Done (0, ival mod 2 ^ XLEN) s2.
Proof.
  intros Hb Hty [e He].
  set (e1 := mk_fw_event (event_idx e) (ulong ival) true).
  set (s1 := set_fw_event_map
               (update2 (fw_event_map s) (mhartid s) (get_cidx_code ev) e1)
               s).
  assert (index2 (fw_event_map s1) (mhartid s1) (get_cidx_code ev) = Some e1)
    as He1 by (cbn; by eapply index2_update2_eq).
  assert (bound_to s1 cidx ev) as Hb1 by (by apply (bound_to_ext s)).
  set (e2 := mk_fw_event (event_idx e1) (curr_count e1) false).
  set (s2 := set_fw_event_map
               (update2 (fw_event_map s1) (mhartid s1) (get_cidx_code ev) e2)
               s1).
  assert (index2 (fw_event_map s2) (mhartid s2) (get_cidx_code ev) = Some e2)
    as He2 by (cbn; by eapply index2_update2_eq).
  assert (bound_to s2 cidx ev) as Hb2 by (by apply (bound_to_ext s1)).
  exists s1, s2. split; [by eapply sbi_pmu_start_ctr_fw |]. split.
  { erewrite (sbi_pmu_stop_ctr_spec s1 cidx ev false 0 s2); [done | done | |].
    - rewrite Hty, Z.eqb_refl. by apply pmu_stop_fw_ctr_done.
    - done. }
  split.
  - by apply (incr_times_stopped n s2 (get_cidx_code ev) e2).
  - by rewrite (sbi_pmu_read_ctr_fw s2 cidx ev cval e2 Hb2 Hty He2).
Qed.

End Firmware.

(** ** Hardware counters *)

Section Hardware.

Context {K : pmu_consts}.

Lemma testbit_ulong x i :
  0 <= i < XLEN -> Z.testbit (ulong x) i = Z.testbit x i.
Proof. intros Hi. unfold ulong. apply Z.mod_pow2_bits_low. lia. Qed.

Lemma testbit_one_shl c i :
  0 <= c -> Z.testbit (Z.shiftl 1 c) i = (c =? i).
Proof. intros Hc. rewrite Z.shiftl_1_l. by apply Z.pow2_bits_eqb. Qed.

Lemma testbit_set c i x :
  0 <= c -> 0 <= i < XLEN ->
  Z.testbit (ulong (Z.lor x (Z.shiftl 1 c))) i = Z.testbit x i || (c =? i).
Proof.
  intros Hc Hi. by rewrite testbit_ulong, Z.lor_spec, testbit_one_shl.
Qed.

Lemma testbit_clear c i x :
  0 <= c -> 0 <= i < XLEN ->
  Z.testbit (ulong (Z.ldiff x (Z.shiftl 1 c))) i
  = Z.testbit x i && negb (c =? i).
Proof.
  intros Hc Hi. by rewrite testbit_ulong, Z.ldiff_spec, testbit_one_shl.
Qed.

(** What pmu_start_hw_ctr does to a hardware counter that is not running. *)
Lemma pmu_start_hw_ctr_starts s cidx ival :
  csr_numbers_ok ->
  0 <= cidx < XLEN -> cidx <= num_hw_ctrs s -> running s cidx = false ->
  exists s',
    pmu_start_hw_ctr cidx ival s = Done 0 s'
    /\ s' = set_csrs (csrs s') s
    /\ running s' cidx = true
    /\ (forall i, 0 <= i < XLEN -> i <> cidx -> running s' i = running s i)
    /\ (XLEN <> 32 -> csrs s' (CSR_MCYCLE + cidx) = ulong ival)
    /\ (XLEN = 32 ->
        csrs s' (CSR_MCYCLE + cidx) = ulong (Z.land ival 65535)
        /\ csrs s' (CSR_MCYCLEH + cidx) = ulong (Z.shiftr ival 32))
    /\ (forall m, m <> CSR_MCOUNTEREN -> m <> CSR_MCOUNTINHIBIT ->
                  m <> CSR_MCYCLE + cidx -> m <> CSR_MCYCLEH + cidx ->
                  csrs s' m = csrs s m).
Proof.
  intros (Hmax & Hen & Hinh & Hcyc) Hc Hhw Hrun.
  unfold pmu_start_hw_ctr.
  do 3 erewrite bind_done by reflexivity.
  replace (cidx >? num_hw_ctrs s) with false by lia.
  do 2 erewrite bind_done by (by apply test_bit_done).
  unfold running in Hrun. rewrite Hrun.
  erewrite bind_done by (by apply set_bit_done).
  erewrite bind_done by (by apply clear_bit_done).
  do 2 erewrite bind_done by reflexivity.
  destruct (Z.eqb_spec XLEN 32) as [E | E].
  - eexists. split; [reflexivity |]. split; [reflexivity |].
    unfold running. cbn [csrs set_csrs]. rewrite E.
    split; [| split; [| split; [done | split]]].
    + cases_cmp. rewrite testbit_set, testbit_clear by lia.
      rewrite Z.eqb_refl. by rewrite orb_true_r, andb_false_r.
    + intros i Hi Hne. cases_cmp.
      rewrite testbit_set, testbit_clear by lia.
      replace (cidx =? i) with false by lia.
      by rewrite orb_false_r, andb_true_r.
    + intros _. split; cases_cmp.
    + intros m H1 H2 H3 H4. cases_cmp.
  - eexists. split; [reflexivity |]. split; [reflexivity |].
    unfold running. cbn [csrs set_csrs].
    split; [| split; [| split; [| split; [done |]]]].
    + cases_cmp. rewrite testbit_set, testbit_clear by lia.
      rewrite Z.eqb_refl. by rewrite orb_true_r, andb_false_r.
    + intros i Hi Hne. cases_cmp.
      rewrite testbit_set, testbit_clear by lia.
      replace (cidx =? i) with false by lia.
      by rewrite orb_false_r, andb_true_r.
    + intros _. cases_cmp.
    + intros m H1 H2 H3 H4. cases_cmp.
Qed.

Lemma stopped_csrs_facts s cidx :
  csr_numbers_ok -> 0 <= cidx < XLEN ->
  stopped_csrs s cidx = set_csrs (csrs (stopped_csrs s cidx)) s
  /\ running (stopped_csrs s cidx) cidx = false
  /\ available (stopped_csrs s cidx) cidx = true
  /\ (forall i, 0 <= i < XLEN -> i <> cidx ->
        running (stopped_csrs s cidx) i = running s i)
  /\ (forall m, m <> CSR_MCOUNTEREN -> m <> CSR_MCOUNTINHIBIT ->
                csrs (stopped_csrs s cidx) m = csrs s m).
Proof.
  intros (Hmax & Hen & Hinh & Hcyc) Hc.
  split; [reflexivity |].
  unfold running, available, stopped_csrs, state_after. cbn.
  split; [| split; [| split]].
  - cases_cmp. rewrite testbit_set, testbit_clear by lia.
    rewrite Z.eqb_refl. by rewrite andb_false_r.
  - cases_cmp. rewrite testbit_set, testbit_clear by lia.
    rewrite Z.eqb_refl. by rewrite andb_false_r, orb_true_r.
  - intros i Hi Hne. cases_cmp.
    rewrite testbit_set, testbit_clear by lia.
    replace (cidx =? i) with false by lia.
    by rewrite orb_false_r, andb_true_r.
  - intros m H1 H2. cases_cmp.
Qed.

Lemma sbi_pmu_start_ctr_hw s cidx ev ival :
  bound_to s cidx ev ->
  get_cidx_type ev <> SBI_PMU_EVENT_TYPE_FW ->
  sbi_pmu_start_ctr cidx ival s = pmu_start_hw_ctr cidx ival s.
Proof.
  intros Hb Hhw. unfold sbi_pmu_start_ctr.
  erewrite bind_done by (by apply pmu_validate_ctr_bound).
  destruct Hb as (_ & _ & Hev0 & _ & _).
  replace (get_cidx_type ev <? 0) with false
    by (pose proof (get_cidx_type_nonneg ev Hev0); lia).
  by replace (get_cidx_type ev =? SBI_PMU_EVENT_TYPE_FW) with false
    by cases_cmp.
Qed.

Lemma sbi_pmu_stop_ctr_hw_running s cidx ev :
  bound_to s cidx ev ->
  get_cidx_type ev <> SBI_PMU_EVENT_TYPE_FW ->
  0 <= cidx < XLEN -> running s cidx = true ->
  sbi_pmu_stop_ctr cidx false s = Done 0 (stopped_csrs s cidx).
Proof.
  intros Hb Hhw Hc Hrun.
  rewrite (sbi_pmu_stop_ctr_spec s cidx ev false 0 (stopped_csrs s cidx));
    [by rewrite andb_false_r | done | | done].
  replace (get_cidx_type ev =? SBI_PMU_EVENT_TYPE_FW) with false
    by cases_cmp.
  by apply pmu_stop_hw_ctr_running.
Qed.

Lemma sbi_pmu_stop_ctr_hw_stopped s cidx ev reset :
  SBI_EALREADY_STOPPED < 0 ->
  bound_to s cidx ev ->
  get_cidx_type ev <> SBI_PMU_EVENT_TYPE_FW ->
  0 <= cidx < XLEN -> running s cidx = false ->
  sbi_pmu_stop_ctr cidx reset s = Done SBI_EALREADY_STOPPED s.
Proof.
  intros Hneg Hb Hhw Hc Hrun.
  rewrite (sbi_pmu_stop_ctr_spec s cidx ev reset SBI_EALREADY_STOPPED s);
    [| done | | done].
  - by replace (SBI_EALREADY_STOPPED =? 0) with false by lia.
  - replace (get_cidx_type ev =? SBI_PMU_EVENT_TYPE_FW) with false
      by cases_cmp.
    by apply pmu_stop_hw_ctr_not_running.
Qed.

(** X5: on a hart whose registers are not 32 bits wide, start on a hardware
    counter that is bound to a hardware event and not running returns 0;
    afterwards the counter runs, its register holds the initial value modulo
    2^XLEN (which is what sbi_pmu_read_hw_ctr reads back), no other counter
    has changed its running state, the bindings are as before, and a second
    start returns SBI_EALREADY_STARTED without changing anything. *)
Theorem hw_start_succeeds (s : pmu_state) (cidx ev ival : Z) :
  csr_numbers_ok ->
  XLEN <> 32 ->
  bound_to s cidx ev ->
  get_cidx_type ev <> SBI_PMU_EVENT_TYPE_FW ->
  0 <= cidx < XLEN -> cidx <= num_hw_ctrs s -> running s cidx = false ->
  exists s',
    sbi_pmu_start_ctr cidx ival s = Done 0 s'
    /\ running s' cidx = true
    /\ sbi_pmu_read_hw_ctr cidx s' = Done (0, ival mod 2 ^ XLEN) s'
    /\ (forall i, 0 <= i < XLEN -> i <> cidx -> running s' i = running s i)
    /\ active_events s' = active_events s
    /\ (forall ival2,
          sbi_pmu_start_ctr cidx ival2 s' = Done SBI_EALREADY_STARTED s').
Proof.
  intros Hcsr Hx Hb Hhw Hc Hle Hrun.
  destruct (pmu_start_hw_ctr_starts s cidx ival Hcsr Hc Hle Hrun)
    as (s' & Hs & Heq & Hrun' & Hoth & Hval & _ & _).
  assert (bound_to s' cidx ev) as Hb'
    by (apply (bound_to_ext s); [by rewrite Heq .. | done]).
  exists s'. split; [by rewrite (sbi_pmu_start_ctr_hw s cidx ev) |].
  split; [done |]. split.
  { unfold sbi_pmu_read_hw_ctr.
    replace (XLEN =? 32) with false by lia.
    erewrite bind_done by reflexivity. cbv beta. by rewrite Hval. }
  split; [done |]. split; [by rewrite Heq |].
  intros ival2. rewrite (sbi_pmu_start_ctr_hw s' cidx ev) by done.
  apply pmu_start_hw_ctr_running; [done | | done].
  rewrite Heq. by cbn.
Qed.

(** X6: on a hart with 32-bit registers the low half of the counter takes only
    the low 16 bits of the initial value: after a start that returned 0,
    sbi_pmu_read_hw_ctr reads back bits 32 to 63 of the initial value in the
    high half and the initial value modulo 2^16 in the low half. *)
Theorem hw_start_narrow_value (s : pmu_state) (cidx ev ival : Z) :
  csr_numbers_ok ->
  XLEN = 32 ->
  bound_to s cidx ev ->
  get_cidx_type ev <> SBI_PMU_EVENT_TYPE_FW ->
  0 <= cidx < XLEN -> cidx <= num_hw_ctrs s -> running s cidx = false ->
  exists s',
    sbi_pmu_start_ctr cidx ival s = Done 0 s'
    /\ running s' cidx = true
    /\ sbi_pmu_read_hw_ctr cidx s'
       = Done (0, Z.lor (Z.shiftl ((ival / 2 ^ 32) mod 2 ^ 32) 32)
                        (ival mod 2 ^ 16)) s'.
Proof.
  intros Hcsr Hx Hb Hhw Hc Hle Hrun.
  destruct (pmu_start_hw_ctr_starts s cidx ival Hcsr Hc Hle Hrun)
    as (s' & Hs & Heq & Hrun' & _ & _ & Hval & _).
  destruct (Hval Hx) as [Hlo Hhi].
  exists s'. split; [by rewrite (sbi_pmu_start_ctr_hw s cidx ev) |].
  split; [done |].
  unfold sbi_pmu_read_hw_ctr. rewrite Hx, Z.eqb_refl.
  do 2 erewrite bind_done by reflexivity. cbv beta.
  rewrite Hlo, Hhi. unfold ret, ulong. rewrite Hx.
  change 65535 with (Z.ones 16). rewrite Z.land_ones by lia.
  rewrite Z.shiftr_div_pow2 by lia.
  rewrite (Z.mod_small (ival mod 2 ^ 16)); [done |].
  pose proof (Z.mod_pos_bound ival (2 ^ 16) ltac:(lia)). lia.
Qed.

(** X7: stop without reset on a hardware counter that is bound to a hardware
    event and running returns 0; afterwards the counter does not run and is
    available again to the matching of events although it is still bound,
    every register other than the enable and inhibit registers, the counter
    value among them, is as before, and a second stop returns
    SBI_EALREADY_STOPPED without changing anything. *)
Theorem hw_stop_succeeds (s : pmu_state) (cidx ev : Z) :
  csr_numbers_ok ->
  SBI_EALREADY_STOPPED < 0 ->
  bound_to s cidx ev ->
  get_cidx_type ev <> SBI_PMU_EVENT_TYPE_FW ->
  0 <= cidx < XLEN -> running s cidx = true ->
  exists s',
    sbi_pmu_stop_ctr cidx false s = Done 0 s'
    /\ running s' cidx = false
    /\ available s' cidx = true
    /\ bound_to s' cidx ev
    /\ (forall m, m <> CSR_MCOUNTEREN -> m <> CSR_MCOUNTINHIBIT ->
                  csrs s' m = csrs s m)
    /\ (forall i, 0 <= i < XLEN -> i <> cidx -> running s' i = running s i)
    /\ (forall reset,
          sbi_pmu_stop_ctr cidx reset s' = Done SBI_EALREADY_STOPPED s').
Proof.
  intros Hcsr Hneg Hb Hhw Hc Hrun.
  destruct (stopped_csrs_facts s cidx Hcsr Hc)
    as (Heq & Hrun' & Hav & Hoth & Hcsrs).
  assert (bound_to (stopped_csrs s cidx) cidx ev) as Hb'
    by (apply (bound_to_ext s); [by rewrite Heq .. | done]).
  exists (stopped_csrs s cidx).
  split; [by apply (sbi_pmu_stop_ctr_hw_running s cidx ev) |].
  repeat (split; [done |]).
  intros reset. by apply (sbi_pmu_stop_ctr_hw_stopped _ cidx ev).
Qed.

(** X8: a hardware counter can be started again after a stop: start, stop
    without reset and start with a second value all return 0, and the
    counter then runs with the second value (on a hart whose registers are
    not 32 bits wide). *)
Theorem hw_restart (s : pmu_state) (cidx ev ival ival2 : Z) :
  csr_numbers_ok ->
  XLEN <> 32 ->
  bound_to s cidx ev ->
  get_cidx_type ev <> SBI_PMU_EVENT_TYPE_FW ->
  0 <= cidx < XLEN -> cidx <= num_hw_ctrs s -> running s cidx = false ->
  exists s1 s2 s3,
    sbi_pmu_start_ctr cidx ival s = Done 0 s1
    /\ sbi_pmu_stop_ctr cidx false s1 = Done 0 s2
    /\ sbi_pmu_start_ctr cidx ival2 s2 = Done 0 s3
    /\ running s3 cidx = true
    /\ sbi_pmu_read_hw_ctr cidx s3 = Done (0, ival2 mod 2 ^ XLEN) s3.
Proof.
  intros Hcsr Hx Hb Hhw Hc Hle Hrun.
  destruct (pmu_start_hw_ctr_starts s cidx ival Hcsr Hc Hle Hrun)
    as (s1 & Hs1 & Heq1 & Hrun1 & _).
  assert (bound_to s1 cidx ev) as Hb1
    by (apply (bound_to_ext s); [by rewrite Heq1 .. | done]).
  destruct (stopped_csrs_facts s1 cidx Hcsr Hc) as (Heq2 & Hrun2 & _).
  set (s2 := stopped_csrs s1 cidx) in *.
  assert (bound_to s2 cidx ev) as Hb2
    by (apply (bound_to_ext s1); [by rewrite Heq2 .. | done]).
  assert (cidx <= num_hw_ctrs s2) as Hle2
    by (rewrite Heq2, Heq1; by cbn).
  destruct (pmu_start_hw_ctr_starts s2 cidx ival2 Hcsr Hc Hle2 Hrun2)
    as (s3 & Hs3 & Heq3 & Hrun3 & _ & Hval & _).
  exists s1, s2, s3.
  split; [by rewrite (sbi_pmu_start_ctr_hw s cidx ev) |].
  split; [by apply (sbi_pmu_stop_ctr_hw_running s1 cidx ev) |].
  split; [by rewrite (sbi_pmu_start_ctr_hw s2 cidx ev) |].
  split; [done |].
  unfold sbi_pmu_read_hw_ctr.
  replace (XLEN =? 32) with false by lia.
  erewrite bind_done by reflexivity. cbv beta. by rewrite Hval.
Qed.

End Hardware.

(** ** Reset and initialisation *)

Section Lifecycle.

Context {K : pmu_consts}.

Lemma index_neg {A : Type} (a : list A) (i : Z) : i < 0 -> index a i = None.
Proof. intros Hi. unfold index. by replace (0 <=? i) with false by lia. Qed.

Lemma index_nonneg {A : Type} (a : list A) (i : Z) (x : A) :
  index a i = Some x -> 0 <= i.
Proof. by intros [? _]%index_Some. Qed.

(** An update leaves every other entry of the table as it was. *)
Lemma index2_update2_frame {A : Type} (a : list (list A)) (h h' i j : Z)
    (v : A) :
  0 <= i -> h' <> h \/ j <> i ->
  index2 (update2 a h i v) h' j = index2 a h' j.
Proof.
  intros Hi Hne. unfold update2.
  destruct (index a h) as [row |] eqn:Hr; [| done].
  pose proof (index_nonneg _ _ _ Hr) as Hh.
  destruct (Z.eq_dec h' h) as [-> | Hh'].
  - unfold index2. erewrite index_update_eq by done. rewrite Hr.
    destruct Hne as [? | Hne]; [done |].
    destruct (Z_lt_le_dec j 0) as [Hj | Hj];
      [by rewrite !index_neg | by apply index_update_ne].
  - unfold index2.
    destruct (Z_lt_le_dec h' 0) as [Hn | Hn]; [by rewrite !index_neg |].
    by rewrite index_update_ne by lia.
Qed.

Lemma index2_update2_is_Some {A : Type} (a : list (list A)) (h h' i j : Z)
    (v : A) :
  0 <= i ->
  is_Some (index2 a h' j) -> is_Some (index2 (update2 a h i v) h' j).
Proof.
  intros Hi [x Hx].
  destruct (Z.eq_dec h' h) as [-> | Hh];
    [destruct (Z.eq_dec j i) as [-> | Hj] |].
  - exists v. by eapply index2_update2_eq.
  - exists x. by rewrite index2_update2_frame by auto.
  - exists x. by rewrite index2_update2_frame by auto.
Qed.

Lemma pmu_reset_active_events_spec (k : nat) h j s :
  0 <= j ->
  (forall i, j <= i < j + Z.of_nat k ->
             is_Some (index2 (active_events s) h i)) ->
  exists s',
    pmu_reset_active_events k h j s = Done tt s'
    /\ s' = set_active_events (active_events s') s
    /\ (forall i, j <= i < j + Z.of_nat k ->
          index2 (active_events s') h i = Some SBI_PMU_EVENT_IDX_INVALID)
    /\ (forall h' i, h' <> h \/ i < j \/ j + Z.of_nat k <= i ->
          index2 (active_events s') h' i = index2 (active_events s) h' i).
Proof.
  revert j s. induction k as [| k IH]; intros j s Hj Hin.
  - exists s. split; [done |]. split; [by destruct s |].
    split; [intros; lia | done].
  - destruct (Hin j ltac:(lia)) as [old Hold].
    cbn [pmu_reset_active_events].
    erewrite bind_done by (by eapply store_active_event_done).
    set (s1 := set_active_events _ s).
    destruct (IH (j + 1) s1 ltac:(lia)) as (s' & Hrun & Heq & Hinv & Hfr).
    { intros i Hi. cbn. apply index2_update2_is_Some; [lia |].
      apply Hin. lia. }
    exists s'. split; [done |]. split; [by etrans |].
    split.
    + intros i Hi. destruct (Z.eq_dec i j) as [-> | Hne].
      * rewrite Hfr by lia. cbn. by eapply index2_update2_eq.
      * apply Hinv. lia.
    + intros h' i Hout. rewrite Hfr by lia. cbn.
      apply index2_update2_frame; [lia |]. lia.
Qed.

Lemma pmu_reset_fw_events_spec (k : nat) h j s :
  0 <= j ->
  (forall i, j <= i < j + Z.of_nat k ->
             is_Some (index2 (fw_event_map s) h i)) ->
  exists s',
    pmu_reset_fw_events k h j s = Done tt s'
    /\ s' = set_fw_event_map (fw_event_map s') s
    /\ (forall i, j <= i < j + Z.of_nat k ->
          index2 (fw_event_map s') h i = Some (mk_fw_event 0 0 false))
    /\ (forall h' i, h' <> h \/ i < j \/ j + Z.of_nat k <= i ->
          index2 (fw_event_map s') h' i = index2 (fw_event_map s) h' i).
Proof.
  revert j s. induction k as [| k IH]; intros j s Hj Hin.
  - exists s. split; [done |]. split; [by destruct s |].
    split; [intros; lia | done].
  - destruct (Hin j ltac:(lia)) as [old Hold].
    cbn [pmu_reset_fw_events].
    erewrite bind_done by (by eapply store_fw_event_done).
    set (s1 := set_fw_event_map _ s).
    destruct (IH (j + 1) s1 ltac:(lia)) as (s' & Hrun & Heq & Hinv & Hfr).
    { intros i Hi. cbn. apply index2_update2_is_Some; [lia |].
      apply Hin. lia. }
    exists s'. split; [done |]. split; [by etrans |].
    split.
    + intros i Hi. destruct (Z.eq_dec i j) as [-> | Hne].
      * rewrite Hfr by lia. cbn. by eapply index2_update2_eq.
      * apply Hinv. lia.
    + intros h' i Hout. rewrite Hfr by lia. cbn.
      apply index2_update2_frame; [lia |]. lia.
Qed.

Lemma hart_tables_ok_active s i :
  hart_tables_ok s ->
  0 <= i < SBI_PMU_HW_CTR_MAX + SBI_PMU_FW_CTR_MAX ->
  is_Some (index2 (active_events s) (mhartid s) i).
Proof.
  intros (arow & _ & Ha & Hlen & _) Hi.
  destruct (lookup_lt_is_Some_2 arow (Z.to_nat i)) as [x Hx]; [lia |].
  exists x. apply index2_Some. exists arow. split; [done |].
  apply index_Some. split; [lia | done].
Qed.

Lemma hart_tables_ok_fw s i :
  hart_tables_ok s ->
  0 <= i < SBI_PMU_FW_EVENT_MAX ->
  is_Some (index2 (fw_event_map s) (mhartid s) i).
Proof.
  intros (_ & frow & _ & _ & Hf & Hlen) Hi.
  destruct (lookup_lt_is_Some_2 frow (Z.to_nat i)) as [x Hx]; [lia |].
  exists x. apply index2_Some. exists frow. split; [done |].
  apply index_Some. split; [lia | done].
Qed.

(** pmu_reset_event_map on the executing hart. *)
Lemma pmu_reset_event_map_spec s :
  hart_tables_ok s ->
  total_ctrs s <= SBI_PMU_HW_CTR_MAX + SBI_PMU_FW_CTR_MAX ->
  SBI_PMU_FW_CTR_MAX <= SBI_PMU_FW_EVENT_MAX ->
  exists s',
    pmu_reset_event_map (mhartid s) s = Done tt s'
    /\ s' = set_fw_event_map (fw_event_map s')
              (set_active_events (active_events s') s)
    /\ (forall i, 0 <= i < total_ctrs s ->
          index2 (active_events s') (mhartid s) i
          = Some SBI_PMU_EVENT_IDX_INVALID)
    /\ (forall h' i, h' <> mhartid s \/ total_ctrs s <= i ->
          index2 (active_events s') h' i = index2 (active_events s) h' i)
    /\ (forall i, 0 <= i < SBI_PMU_FW_CTR_MAX ->
          index2 (fw_event_map s') (mhartid s) i
          = Some (mk_fw_event 0 0 false))
    /\ (forall h' i, h' <> mhartid s \/ SBI_PMU_FW_CTR_MAX <= i ->
          index2 (fw_event_map s') h' i = index2 (fw_event_map s) h' i).
Proof.
  intros Hok Htot Hfw. unfold pmu_reset_event_map.
  erewrite bind_done by reflexivity.
  destruct (pmu_reset_active_events_spec (Z.to_nat (total_ctrs s))
              (mhartid s) 0 s ltac:(lia))
    as (s1 & Hrun1 & Heq1 & Hinv1 & Hfr1).
  { intros i Hi. apply hart_tables_ok_active; [done | lia]. }
  erewrite bind_done by exact Hrun1.
  destruct (pmu_reset_fw_events_spec (Z.to_nat SBI_PMU_FW_CTR_MAX)
              (mhartid s) 0 s1 ltac:(lia))
    as (s2 & Hrun2 & Heq2 & Hinv2 & Hfr2).
  { intros i Hi. rewrite Heq1. cbn. apply hart_tables_ok_fw; [done | lia]. }
  exists s2. split; [done |].
  assert (active_events s2 = active_events s1) as Ha
    by (by rewrite Heq2).
  assert (fw_event_map s1 = fw_event_map s) as Hf
    by (by rewrite Heq1).
  split.
  { rewrite Heq2 at 1. rewrite Heq1 at 1. by rewrite Ha. }
  rewrite Ha. split; [intros i Hi; apply Hinv1; lia |].
  split; [intros h' i Hout; apply Hfr1; lia |].
  rewrite <- Hf.
  split; [intros i Hi; apply Hinv2; lia |].
  intros h' i Hout. apply Hfr2. lia.
Qed.

(** X9: sbi_pmu_exit leaves the executing hart with no counter bound and with
    its first SBI_PMU_FW_CTR_MAX firmware events cleared: afterwards read,
    start and stop return SBI_EINVAL for every index below total_ctrs.  The
    registers (so also a hardware counter that is running), the registered
    mappings, the counts, the rows of the other harts, and the firmware
    events at or above SBI_PMU_FW_CTR_MAX are left as they were. *)
Theorem exit_unbinds_every_counter (s : pmu_state) :
  SBI_EINVAL < 0 ->
  hart_tables_ok s ->
  total_ctrs s <= SBI_PMU_HW_CTR_MAX + SBI_PMU_FW_CTR_MAX ->
  SBI_PMU_FW_CTR_MAX <= SBI_PMU_FW_EVENT_MAX ->
  exists s',
    sbi_pmu_exit s = Done tt s'
    /\ (forall cidx cval ival reset,
          0 <= cidx < total_ctrs s ->
          sbi_pmu_read_ctr cidx cval s' = Done (SBI_EINVAL, cval) s'
          /\ sbi_pmu_start_ctr cidx ival s' = Done SBI_EINVAL s'
          /\ sbi_pmu_stop_ctr cidx reset s' = Done SBI_EINVAL s')
    /\ (forall i, 0 <= i < SBI_PMU_FW_CTR_MAX ->
          index2 (fw_event_map s') (mhartid s) i
          = Some (mk_fw_event 0 0 false))
    /\ (forall h' i, h' <> mhartid s \/ SBI_PMU_FW_CTR_MAX <= i ->
          index2 (fw_event_map s') h' i = index2 (fw_event_map s) h' i)
    /\ (forall h' i, h' <> mhartid s \/ total_ctrs s <= i ->
          index2 (active_events s') h' i = index2 (active_events s) h' i)
    /\ csrs s' = csrs s
    /\ hw_event_map s' = hw_event_map s
    /\ num_hw_events s' = num_hw_events s
    /\ total_ctrs s' = total_ctrs s.
Proof.
  intros Hneg Hok Htot Hfw.
  destruct (pmu_reset_event_map_spec s Hok Htot Hfw)
    as (s' & Hrun & Heq & Hinv & Hfr & Hfwz & Hfwfr).
  exists s'. unfold sbi_pmu_exit. erewrite bind_done by reflexivity.
  split; [done |].
  assert (mhartid s' = mhartid s) as Hh by (by rewrite Heq).
  assert (total_ctrs s' = total_ctrs s) as Ht by (by rewrite Heq).
  split.
  { intros cidx cval ival reset Hc.
    pose proof (Hinv cidx Hc) as Hi. rewrite <- Hh in Hi.
    pose proof (pmu_validate_ctr_unbound s' cidx _ Hi
                  ltac:(right; left; reflexivity)) as Hv.
    repeat split.
    - unfold sbi_pmu_read_ctr. erewrite bind_done by exact Hv.
      cbv beta iota. by replace (SBI_EINVAL <? 0) with true by lia.
    - unfold sbi_pmu_start_ctr. erewrite bind_done by exact Hv.
      cbv beta iota. by replace (SBI_EINVAL <? 0) with true by lia.
    - unfold sbi_pmu_stop_ctr. erewrite bind_done by reflexivity.
      erewrite bind_done by exact Hv.
      cbv beta iota. by replace (SBI_EINVAL <? 0) with true by lia. }
  repeat (split; [done |]).
  repeat split; by rewrite Heq.
Qed.

(** X10: without the inhibit feature sbi_pmu_init returns SBI_ENOTSUPP and
    changes nothing.  With it, a cold boot in which the platform hook
    finishes returns 0 and leaves num_hw_ctrs at the number of programmable
    counters plus 2 and total_ctrs at num_hw_ctrs + SBI_PMU_FW_CTR_MAX,
    which is what sbi_pmu_num_ctr then returns; the mappings the hook
    registered are kept, and no counter of the hart is bound. *)
Theorem init_cold_boot
    (platform_pmu_init : M Z) (s s1 : pmu_state) (r : Z) :
  platform_pmu_init s = Done r s1 ->
  hart_tables_ok s1 ->
  0 <= sbi_hart_mhpm_count ->
  sbi_hart_mhpm_count + 2 <= SBI_PMU_HW_CTR_MAX ->
  0 <= SBI_PMU_FW_CTR_MAX <= SBI_PMU_FW_EVENT_MAX ->
  SBI_PMU_HW_CTR_MAX + SBI_PMU_FW_CTR_MAX < 2 ^ 32 ->
  (sbi_hart_has_mcountinhibit = false ->
   forall cold_boot,
     sbi_pmu_init platform_pmu_init cold_boot s = Done SBI_ENOTSUPP s)
  /\ (sbi_hart_has_mcountinhibit = true ->
      exists s',
        sbi_pmu_init platform_pmu_init true s = Done 0 s'
        /\ num_hw_ctrs s' = sbi_hart_mhpm_count + 2
        /\ total_ctrs s' = sbi_hart_mhpm_count + 2 + SBI_PMU_FW_CTR_MAX
        /\ sbi_pmu_num_ctr s' = Done (total_ctrs s') s'
        /\ registry s' = registry s1
        /\ forall i, 0 <= i < total_ctrs s' ->
             index2 (active_events s') (mhartid s1) i
             = Some SBI_PMU_EVENT_IDX_INVALID).
Proof.
  intros Hp Hok Hm0 Hm Hfw Hsmall. split.
  - intros Hno cold. unfold sbi_pmu_init. by rewrite Hno.
  - intros Hyes. unfold sbi_pmu_init. rewrite Hyes. cbn [negb].
    set (n := u32 (sbi_hart_mhpm_count + 2)).
    assert (n = sbi_hart_mhpm_count + 2) as Hn
      by (unfold n, u32; apply Z.mod_small; lia).
    set (s2 := set_total_ctrs (u32 (n + SBI_PMU_FW_CTR_MAX))
                 (set_num_hw_ctrs n s1)).
    assert (total_ctrs s2 = sbi_hart_mhpm_count + 2 + SBI_PMU_FW_CTR_MAX)
      as Ht2.
    { cbn. unfold u32. rewrite Hn. apply Z.mod_small. lia. }
    destruct (pmu_reset_event_map_spec s2)
      as (s' & Hrun & Heq & Hinv & _); [done | lia | lia |].
    exists s'.
    assert (num_hw_ctrs s' = n) as Hn' by (by rewrite Heq).
    assert (total_ctrs s' = total_ctrs s2) as Ht' by (by rewrite Heq).
    split.
    { erewrite (bind_done _ _ s tt s2).
      - erewrite bind_done by reflexivity.
        by erewrite bind_done by exact Hrun.
      - erewrite bind_done by exact Hp.
        by erewrite bind_done by reflexivity. }
    split; [lia |]. split; [lia |]. split.
    { unfold sbi_pmu_num_ctr. erewrite bind_done by reflexivity.
      unfold ret. do 2 f_equal. rewrite Ht', Ht2, Hn'. unfold u32.
      rewrite Hn. apply Z.mod_small. lia. }
    split; [by rewrite Heq |].
    intros i Hi. apply Hinv. lia.
Qed.

End Lifecycle.

(** ** The registry as a record of the accepted calls *)

Section RegistryOrder.

Context {K : pmu_consts}.

Lemma registry_length s :
  table_ok s -> length (registry s) = Z.to_nat (num_hw_events s).
Proof.
  intros (_ & _ & Hn). unfold registry. rewrite length_take. lia.
Qed.

(** A registration call appends its mapping when it returns 0 and leaves
    the registry alone when it returns an error; the count never passes
    SBI_PMU_HW_EVENT_MAX - 1. *)
Lemma register_appends s c :
  errors_negative ->
  table_ok s ->
  num_hw_events s <= Z.max 0 (SBI_PMU_HW_EVENT_MAX - 1) ->
  exists r s',
    register c s = Done r s'
    /\ table_ok s'
    /\ num_hw_events s' <= Z.max 0 (SBI_PMU_HW_EVENT_MAX - 1)
    /\ (r = 0 \/ r < 0)
    /\ registry s' = registry s ++ (if r =? 0 then [mapping_of c] else []).
Proof.
  intros (? & ? & ? & ? & ? & ? & ?) Ht Hcap.
  assert (forall a b cmap sel,
            exists r s',
              pmu_add_hw_event_map a b cmap sel s = Done r s'
              /\ table_ok s'
              /\ num_hw_events s' <= Z.max 0 (SBI_PMU_HW_EVENT_MAX - 1)
              /\ (r = 0 \/ r < 0)
              /\ registry s'
                 = registry s
                   ++ (if r =? 0 then [mk_hw_event cmap a b sel] else []))
    as Hadd.
  { intros a b cmap sel. rewrite pmu_add_hw_event_map_spec by done.
    destruct (fixed_counter_check a cmap).
    { exists SBI_EDENIED, s.
      split; [done |]. split; [done |]. split; [done |]. split; [by right |].
      replace (SBI_EDENIED =? 0) with false by lia. by rewrite app_nil_r. }
    destruct (num_hw_events s >=? SBI_PMU_HW_EVENT_MAX - 1) eqn:Hfull.
    { exists SBI_EFAIL, s.
      split; [done |]. split; [done |]. split; [done |]. split; [by right |].
      replace (SBI_EFAIL =? 0) with false by lia. by rewrite app_nil_r. }
    assert (num_hw_events s < SBI_PMU_HW_EVENT_MAX - 1) as Hlt by lia.
    destruct (existsb _ (registry s)).
    - eexists _, _. split; [done |].
      split; [by apply table_ok_after_store |].
      split; [done |]. split; [by right |].
      rewrite registry_after_store by done.
      replace (SBI_EINVALID_ADDR =? 0) with false by lia.
      by rewrite app_nil_r.
    - eexists _, _. split; [done |].
      split; [by apply table_ok_after_add |].
      split; [cbn; lia |]. split; [by left |].
      by rewrite registry_after_add. }
  destruct c as [a b cmap | sel cmap]; cbn [register mapping_of].
  - unfold sbi_pmu_add_hw_event_counter_map.
    destruct (_ || _); [| by apply Hadd].
    exists SBI_EINVAL, s.
      split; [done |]. split; [done |]. split; [done |]. split; [by right |].
    replace (SBI_EINVAL =? 0) with false by lia. by rewrite app_nil_r.
  - by apply Hadd.
Qed.

Lemma register_all_appends cs s :
  errors_negative ->
  table_ok s ->
  num_hw_events s <= Z.max 0 (SBI_PMU_HW_EVENT_MAX - 1) ->
  exists rs s',
    register_all cs s = Done rs s'
    /\ length rs = length cs
    /\ table_ok s'
    /\ num_hw_events s' <= Z.max 0 (SBI_PMU_HW_EVENT_MAX - 1)
    /\ registry s' = registry s ++ accepted cs rs.
Proof.
  intros Herr. revert s. induction cs as [| c cs IH]; intros s Ht Hcap.
  - exists [], s. do 4 (split; [done |]). cbn. by rewrite app_nil_r.
  - destruct (register_appends s c Herr Ht Hcap)
      as (r & s1 & Hr & Ht1 & Hcap1 & _ & Hreg1).
    destruct (IH s1 Ht1 Hcap1) as (rs & s2 & Hrs & Hlen & Ht2 & Hcap2 & Hreg2).
    exists (r :: rs), s2. cbn [register_all].
    erewrite bind_done by done. erewrite bind_done by done.
    split; [done |]. split; [by cbn; rewrite Hlen |].
    split; [done |]. split; [done |].
    rewrite Hreg2, Hreg1, <- app_assoc. cbn [accepted].
    by destruct (r =? 0).
Qed.

(** X11: the registry after a sequence of registration calls holds, in call
    order, exactly the mappings of the calls that returned 0, and
    num_hw_events counts them; there are never more than
    SBI_PMU_HW_EVENT_MAX - 1 of them, so the last slot of hw_event_map is
    never used. *)
Theorem registry_records_accepted_calls
    (cs : list registration) (h : Z) (c : Z -> Z) :
  errors_negative ->
  exists rs s,
    register_all cs (boot_state h c) = Done rs s
    /\ length rs = length cs
    /\ registry s = accepted cs rs
    /\ num_hw_events s = Z.of_nat (length (accepted cs rs))
    /\ num_hw_events s <= Z.max 0 (SBI_PMU_HW_EVENT_MAX - 1).
Proof.
  intros Herr.
  destruct (boot_state_ok h c) as (Ht0 & _ & _).
  destruct (register_all_appends cs (boot_state h c) Herr Ht0)
    as (rs & s & Hrun & Hlen & Ht & Hcap & Hreg); [cbn; lia |].
  exists rs, s. split; [done |]. split; [done |].
  assert (registry s = accepted cs rs) as Hr by (by rewrite Hreg).
  split; [done |]. split; [| done].
  rewrite <- Hr, registry_length by done.
  destruct Ht as (_ & ? & _). lia.
Qed.

End RegistryOrder.

(** ** Matching firmware events, once and again *)

Section FirmwareMatch.

Context {K : pmu_consts}.

Lemma hart_tables_ok_bind s i v :
  hart_tables_ok s ->
  hart_tables_ok
    (set_active_events (update2 (active_events s) (mhartid s) i v) s).
Proof.
  intros (arow & frow & Ha & Hlen & Hf & Hflen).
  exists (update arow i v), frow. cbn.
  unfold update2. rewrite Ha.
  split; [by eapply index_update_eq |].
  split; [unfold update; by rewrite length_insert | done].
Qed.

(** The scan of pmu_find_fw_ctr ends, leaves the state alone, and returns
    either SBI_ENOTSUPP or the first index of its range that can take a
    firmware event. *)
Lemma pmu_find_fw_ctr_loop_sound (k : nat) i ctr_mask h s :
  0 <= i -> i + Z.of_nat k <= XLEN ->
  (forall j, i <= j < i + Z.of_nat k ->
             is_Some (index2 (active_events s) h j)) ->
  exists r,
    pmu_find_fw_ctr_loop k i ctr_mask h s = Done r s
    /\ (r = SBI_ENOTSUPP
        /\ (forall j, i <= j < i + Z.of_nat k ->
                      fw_candidate s h ctr_mask j = false)
        \/ i <= r < i + Z.of_nat k
           /\ fw_candidate s h ctr_mask r = true).
Proof.
  revert i. induction k as [| k IH]; intros i Hi Hx Hin.
  - exists SBI_ENOTSUPP. split; [done |]. left. split; [done |]. lia.
  - rewrite pmu_find_fw_ctr_loop_step by (try apply Hin; lia).
    destruct (fw_candidate s h ctr_mask i) eqn:Hc.
    + exists i. split; [done |]. right. split; [lia | done].
    + destruct (IH (i + 1)) as (r & Hr & Hcase); [lia | lia | |].
      { intros j Hj. apply Hin. lia. }
      exists r. split; [done |].
      destruct Hcase as [[-> Hnone] | [Hrange Hcand]].
      * left. split; [done |]. intros j Hj.
        destruct (Z.eq_dec j i) as [-> | Hne]; [done | apply Hnone; lia].
      * right. split; [lia | done].
Qed.

(** sbi_pmu_get_ctr_match for a firmware event, case by case. *)
Lemma sbi_pmu_get_ctr_match_fw s base mask event_idx data flags :
  SBI_ENOTSUPP < 0 ->
  get_cidx_type event_idx = SBI_PMU_EVENT_TYPE_FW ->
  SBI_PMU_EVENT_TYPE_FW < SBI_PMU_EVENT_TYPE_MAX ->
  0 <= base < total_ctrs s ->
  0 <= num_hw_ctrs s ->
  total_ctrs s <= XLEN ->
  total_ctrs s <= SBI_PMU_HW_CTR_MAX + SBI_PMU_FW_CTR_MAX ->
  hart_tables_ok s ->
  let h := mhartid s in
  let ctr_mask := ulong (Z.shiftl mask base) in
  exists r s',
    sbi_pmu_get_ctr_match base mask event_idx data flags s = Done r s'
    /\ (r = SBI_ENOTSUPP /\ s' = s
        /\ (forall j, Z.max base (num_hw_ctrs s + 1) <= j < total_ctrs s ->
                      fw_candidate s h ctr_mask j = false)
        \/ Z.max base (num_hw_ctrs s + 1) <= r < total_ctrs s
           /\ fw_candidate s h ctr_mask r = true
           /\ s' = set_active_events
                     (update2 (active_events s) h r (u32 event_idx)) s).
Proof.
  intros Hneg Hty Hmax Hbase Hnhw Hx Htot Hok h ctr_mask.
  unfold sbi_pmu_get_ctr_match.
  do 2 erewrite bind_done by reflexivity.
  rewrite Hty.
  replace ((base >=? total_ctrs s)
           || (SBI_PMU_EVENT_TYPE_FW >=? SBI_PMU_EVENT_TYPE_MAX))
    with false by cases_cmp.
  rewrite Z.eqb_refl.
  set (first := Z.max base (num_hw_ctrs s + 1)).
  assert (exists r,
            pmu_find_fw_ctr base mask h s = Done r s
            /\ (r = SBI_ENOTSUPP
                /\ (forall j, first <= j < total_ctrs s ->
                              fw_candidate s h ctr_mask j = false)
                \/ first <= r < total_ctrs s
                   /\ fw_candidate s h ctr_mask r = true))
    as (r & Hr & Hcase).
  { rewrite pmu_find_fw_ctr_unfold by lia. fold first. fold ctr_mask.
    destruct (Z_lt_le_dec first (total_ctrs s)) as [Hlt | Hge].
    - destruct (pmu_find_fw_ctr_loop_sound
                  (Z.to_nat (total_ctrs s - first)) first ctr_mask h s)
        as (r & Hr & Hcase); [lia | lia | |].
      { intros j Hj. apply hart_tables_ok_active; [done | lia]. }
      exists r. split; [done |].
      destruct Hcase as [[-> Hnone] | [Hrange Hcand]].
      + left. split; [done |]. intros j Hj. apply Hnone. lia.
      + right. split; [lia | done].
    - replace (Z.to_nat (total_ctrs s - first)) with O by lia.
      exists SBI_ENOTSUPP. split; [done |]. left. split; [done |]. lia. }
  erewrite bind_done by exact Hr.
  destruct Hcase as [[-> Hnone] | [Hrange Hcand]].
  - exists SBI_ENOTSUPP, s.
    replace (SBI_ENOTSUPP <? 0) with true by lia.
    split; [done |]. left. done.
  - replace (r <? 0) with false by lia.
    pose proof Hcand as Hc. unfold fw_candidate in Hc.
    destruct (index2 (active_events s) h r) as [v |] eqn:Hv; [| done].
    erewrite bind_done by (by eapply store_active_event_done).
    eexists _, _. split; [done |]. right. split; [lia |]. done.
Qed.

(** X12: a match for a firmware event either returns SBI_ENOTSUPP and changes
    nothing, or returns an index above num_hw_ctrs, at or above the base and
    below total_ctrs, to which no event was bound and whose bit is set in
    (mask << base); that index is then bound to the event and nothing else
    changes.  It never returns a hardware index or a counter that is
    bound. *)
Theorem fw_match_returns_free_firmware_counter
    (s : pmu_state) (base mask event_idx data flags : Z) :
  SBI_ENOTSUPP < 0 ->
  get_cidx_type event_idx = SBI_PMU_EVENT_TYPE_FW ->
  SBI_PMU_EVENT_TYPE_FW < SBI_PMU_EVENT_TYPE_MAX ->
  0 <= base < total_ctrs s ->
  0 <= num_hw_ctrs s ->
  total_ctrs s <= XLEN ->
  total_ctrs s <= SBI_PMU_HW_CTR_MAX + SBI_PMU_FW_CTR_MAX ->
  hart_tables_ok s ->
  exists r s',
    sbi_pmu_get_ctr_match base mask event_idx data flags s = Done r s'
    /\ (r = SBI_ENOTSUPP /\ s' = s
        \/ num_hw_ctrs s < r < total_ctrs s
           /\ base <= r
           /\ index2 (active_events s) (mhartid s) r
              = Some SBI_PMU_EVENT_IDX_INVALID
           /\ Z.testbit (ulong (Z.shiftl mask base)) r = true
           /\ index2 (active_events s') (mhartid s) r = Some (u32 event_idx)
           /\ (forall h' j, h' <> mhartid s \/ j <> r ->
                 index2 (active_events s') h' j
                 = index2 (active_events s) h' j)
           /\ csrs s' = csrs s
           /\ fw_event_map s' = fw_event_map s).
Proof.
  intros Hneg Hty Hmax Hbase Hnhw Hx Htot Hok.
  destruct (sbi_pmu_get_ctr_match_fw s base mask event_idx data flags)
    as (r & s' & Hrun & Hcase); try done.
  exists r, s'. split; [done |].
  destruct Hcase as [(-> & -> & _) | (Hrange & Hcand & ->)]; [by left |].
  right. unfold fw_candidate in Hcand.
  destruct (index2 (active_events s) (mhartid s) r) as [v |] eqn:Hv;
    [| done].
  apply andb_true_iff in Hcand as [Hinv Hbit].
  apply Z.eqb_eq in Hinv. subst v.
  split; [lia |]. split; [lia |]. split; [done |]. split; [done |].
  cbn. split; [by eapply index2_update2_eq |].
  split; [| done].
  intros h' j Hne. apply index2_update2_frame; [lia | done].
Qed.

(** X13: on a hart whose tables have their declared sizes and whose
    total_ctrs is at most XLEN, two matches for firmware events in a row,
    each with a base below total_ctrs, both finish and never return the
    same counter, provided the event of the first is stored as something
    other than the invalid index. *)
Theorem fw_match_twice_distinct
    (s : pmu_state) (base mask event_idx data flags : Z)
    (base2 mask2 event_idx2 data2 flags2 : Z) :
  SBI_ENOTSUPP < 0 ->
  get_cidx_type event_idx = SBI_PMU_EVENT_TYPE_FW ->
  get_cidx_type event_idx2 = SBI_PMU_EVENT_TYPE_FW ->
  SBI_PMU_EVENT_TYPE_FW < SBI_PMU_EVENT_TYPE_MAX ->
  u32 event_idx <> SBI_PMU_EVENT_IDX_INVALID ->
  0 <= base < total_ctrs s ->
  0 <= base2 < total_ctrs s ->
  0 <= num_hw_ctrs s ->
  total_ctrs s <= XLEN ->
  total_ctrs s <= SBI_PMU_HW_CTR_MAX + SBI_PMU_FW_CTR_MAX ->
  hart_tables_ok s ->
  exists r1 s1 r2 s2,
    sbi_pmu_get_ctr_match base mask event_idx data flags s = Done r1 s1
    /\ sbi_pmu_get_ctr_match base2 mask2 event_idx2 data2 flags2 s1
       = Done r2 s2
    /\ (0 <= r1 -> 0 <= r2 -> r1 <> r2).
Proof.
  intros Hneg Hty Hty2 Hmax Hinv Hbase Hbase2 Hnhw Hx Htot Hok.
  destruct (sbi_pmu_get_ctr_match_fw s base mask event_idx data flags)
    as (r1 & s1 & Hrun1 & Hcase1); try done.
  assert (total_ctrs s1 = total_ctrs s /\ num_hw_ctrs s1 = num_hw_ctrs s
          /\ mhartid s1 = mhartid s /\ hart_tables_ok s1)
    as (Ht1 & Hn1 & Hh1 & Hok1).
  { destruct Hcase1 as [(_ & -> & _) | (_ & _ & ->)]; [done |].
    repeat split. by apply hart_tables_ok_bind. }
  destruct (sbi_pmu_get_ctr_match_fw s1 base2 mask2 event_idx2 data2 flags2)
    as (r2 & s2 & Hrun2 & Hcase2); try done; try lia.
  exists r1, s1, r2, s2. split; [done |]. split; [done |].
  intros Hr1 Hr2 ->.
  destruct Hcase1 as [(-> & _) | (Hrange1 & _ & ->)]; [lia |].
  destruct Hcase2 as [(-> & _) | (_ & Hcand2 & _)]; [lia |].
  unfold fw_candidate in Hcand2. cbn in Hcand2.
  destruct (hart_tables_ok_active s r2 Hok) as [v Hv]; [lia |].
  rewrite (index2_update2_eq _ _ _ v) in Hcand2 by exact Hv.
  apply andb_true_iff in Hcand2 as [E _]. apply Z.eqb_eq in E. done.
Qed.

(** X14: an event whose low 32 bits are the invalid index cannot be bound.
    On a hart whose tables have their declared sizes and whose total_ctrs
    is at most XLEN, a match with a base below total_ctrs for such a
    firmware event finishes and may return a counter, but the counter is
    left unbound, so that start on it returns SBI_EINVAL. *)
Theorem fw_match_invalid_event_binds_nothing
    (s : pmu_state) (base mask event_idx data flags : Z) :
  errors_negative ->
  u32 event_idx = SBI_PMU_EVENT_IDX_INVALID ->
  get_cidx_type event_idx = SBI_PMU_EVENT_TYPE_FW ->
  SBI_PMU_EVENT_TYPE_FW < SBI_PMU_EVENT_TYPE_MAX ->
  0 <= base < total_ctrs s ->
  0 <= num_hw_ctrs s ->
  total_ctrs s <= XLEN ->
  total_ctrs s <= SBI_PMU_HW_CTR_MAX + SBI_PMU_FW_CTR_MAX ->
  hart_tables_ok s ->
  exists r s',
    sbi_pmu_get_ctr_match base mask event_idx data flags s = Done r s'
    /\ (r = SBI_ENOTSUPP
        \/ 0 <= r
           /\ index2 (active_events s') (mhartid s') r
              = Some SBI_PMU_EVENT_IDX_INVALID
           /\ forall ival,
                sbi_pmu_start_ctr r ival s' = Done SBI_EINVAL s').
Proof.
  intros Herr Hinv Hty Hmax Hbase Hnhw Hx Htot Hok.
  pose proof Herr as (_ & Hneg & Hneg' & _).
  destruct (sbi_pmu_get_ctr_match_fw s base mask event_idx data flags)
    as (r & s' & Hrun & Hcase); try done.
  exists r, s'. split; [done |].
  destruct Hcase as [(-> & _) | (Hrange & Hcand & ->)]; [by left |].
  right. split; [lia |].
  assert (index2
            (active_events
               (set_active_events
                  (update2 (active_events s) (mhartid s) r (u32 event_idx))
                  s)) (mhartid s) r
          = Some SBI_PMU_EVENT_IDX_INVALID) as Hnew.
  { cbn. rewrite <- Hinv.
    destruct (hart_tables_ok_active s r Hok) as [v Hv]; [lia |].
    by eapply index2_update2_eq. }
  split; [exact Hnew |].
  intros ival. unfold sbi_pmu_start_ctr.
  erewrite bind_done.
  2: { apply (pmu_validate_ctr_unbound _ r SBI_PMU_EVENT_IDX_INVALID);
         [exact Hnew | by right; left]. }
  cbv beta iota. by replace (SBI_EINVAL <? 0) with true by lia.
Qed.

(** X15: stop with reset frees a firmware counter for the next match.  On a
    hart whose tables have their declared sizes and whose total_ctrs is at
    most XLEN, for a counter validly bound to a firmware event whose code
    lies inside the row of fw_event_map: stop with reset returns 0, and a
    match that follows, with a base below total_ctrs, for a firmware event
    whose mask holds the counter's bit, and for which no index before the
    counter in the scan can be taken, returns that same counter and binds
    it to the new event. *)
Theorem fw_stop_reset_then_match_reuses
    (s : pmu_state) (cidx ev base mask new_event data flags : Z) :
  SBI_ENOTSUPP < 0 ->
  bound_to s cidx ev ->
  get_cidx_type ev = SBI_PMU_EVENT_TYPE_FW ->
  is_Some (index2 (fw_event_map s) (mhartid s) (get_cidx_code ev)) ->
  get_cidx_type new_event = SBI_PMU_EVENT_TYPE_FW ->
  SBI_PMU_EVENT_TYPE_FW < SBI_PMU_EVENT_TYPE_MAX ->
  0 <= base < total_ctrs s ->
  0 <= num_hw_ctrs s ->
  total_ctrs s <= XLEN ->
  total_ctrs s <= SBI_PMU_HW_CTR_MAX + SBI_PMU_FW_CTR_MAX ->
  hart_tables_ok s ->
  Z.max base (num_hw_ctrs s + 1) <= cidx ->
  Z.testbit (ulong (Z.shiftl mask base)) cidx = true ->
  (forall j, Z.max base (num_hw_ctrs s + 1) <= j < cidx ->
             fw_candidate s (mhartid s) (ulong (Z.shiftl mask base)) j
             = false) ->
  exists s1 s2,
    sbi_pmu_stop_ctr cidx true s = Done 0 s1
    /\ sbi_pmu_get_ctr_match base mask new_event data flags s1 = Done cidx s2
    /\ index2 (active_events s2) (mhartid s) cidx = Some (u32 new_event).
Proof.
  intros Hneg Hb Hty [e He] Hty2 Hmax Hbase Hnhw Hx Htot Hok Hfirst Hbit
    Hnone.
  pose proof Hb as (Hc & Hev & _).
  set (s0 := set_fw_event_map
               (update2 (fw_event_map s) (mhartid s) (get_cidx_code ev)
                  (mk_fw_event (event_idx e) (curr_count e) false)) s).
  set (s1 := set_active_events
               (update2 (active_events s) (mhartid s) cidx
                  SBI_PMU_EVENT_IDX_INVALID) s0).
  assert (sbi_pmu_stop_ctr cidx true s = Done 0 s1) as Hstop.
  { rewrite (sbi_pmu_stop_ctr_spec s cidx ev true 0 s0); [done | done | |].
    - rewrite Hty, Z.eqb_refl. by apply pmu_stop_fw_ctr_done.
    - done. }
  assert (index2 (active_events s1) (mhartid s) cidx
          = Some SBI_PMU_EVENT_IDX_INVALID) as Hfree
    by (cbn; by eapply index2_update2_eq).
  assert (forall j, j <> cidx ->
            index2 (active_events s1) (mhartid s) j
            = index2 (active_events s) (mhartid s) j) as Hframe
    by (intros j Hj; cbn; apply index2_update2_frame; [lia | by right]).
  assert (sbi_pmu_get_ctr_match base mask new_event data flags s1
          = Done cidx
              (set_active_events
                 (update2 (active_events s1) (mhartid s) cidx
                    (u32 new_event)) s1)) as Hmatch.
  { unfold sbi_pmu_get_ctr_match.
    do 2 erewrite bind_done by reflexivity.
    rewrite Hty2.
    replace ((base >=? total_ctrs s1)
             || (SBI_PMU_EVENT_TYPE_FW >=? SBI_PMU_EVENT_TYPE_MAX))
      with false by (change (total_ctrs s1) with (total_ctrs s); cases_cmp).
    rewrite Z.eqb_refl.
    erewrite bind_done.
    2: { rewrite pmu_find_fw_ctr_unfold by lia.
         change (total_ctrs s1) with (total_ctrs s).
         change (num_hw_ctrs s1) with (num_hw_ctrs s).
         change (mhartid s1) with (mhartid s).
         apply (pmu_find_fw_ctr_loop_found _ _ cidx); [lia | lia | | lia | |].
         - intros j Hj. destruct (Z.eq_dec j cidx) as [-> | Hne];
             [by rewrite Hfree |].
           rewrite Hframe by done.
           apply hart_tables_ok_active; [done | lia].
         - unfold fw_candidate. rewrite Hfree, Z.eqb_refl. exact Hbit.
         - intros j Hj. unfold fw_candidate. rewrite Hframe by lia.
           apply Hnone. lia. }
    replace (cidx <? 0) with false by lia.
    by erewrite bind_done by (by eapply store_active_event_done). }
  exists s1. eexists. split; [done |]. split; [exact Hmatch |].
  cbn [active_events set_active_events]. by eapply index2_update2_eq.
Qed.

End FirmwareMatch.

(** ** Matching hardware events *)

Section HardwareMatch.

Context {K : pmu_consts}.

Lemma find_next_bit_spec (k : nat) word size from :
  find_next_bit k word size from = size
  \/ from <= find_next_bit k word size from < size
     /\ Z.testbit word (find_next_bit k word size from) = true.
Proof.
  revert from. induction k as [| k IH]; intros from; cbn; [by left |].
  destruct (Z.geb_spec from size) as [Hge | Hlt]; [by left |].
  destruct (Z.testbit word from) eqn:Hb; [right; split; [lia | done] |].
  destruct (IH (from + 1)) as [E | [Hr Ht]]; [by left |].
  right. split; [lia | done].
Qed.

Lemma pmu_find_hw_ctr_bits_spec (k : nat) ctr_mask en inh bit s :
  SBI_PMU_HW_CTR_MAX <= XLEN ->
  0 <= bit ->
  bit = SBI_PMU_HW_CTR_MAX
  \/ bit < SBI_PMU_HW_CTR_MAX /\ Z.testbit ctr_mask bit = true ->
  exists found cb,
    pmu_find_hw_ctr_bits k ctr_mask en inh bit s = Done (found, cb) s
    /\ bit <= cb <= SBI_PMU_HW_CTR_MAX
    /\ forall c, found = Some c ->
         bit <= c < SBI_PMU_HW_CTR_MAX
         /\ Z.testbit ctr_mask c = true
         /\ Z.testbit en c = false
         /\ Z.testbit inh c = true.
Proof.
  intros Hx. revert bit. induction k as [| k IH]; intros bit Hb Hinv.
  - exists None, bit. split; [done |]. split; [lia | done].
  - cbn [pmu_find_hw_ctr_bits].
    destruct (Z.ltb_spec bit SBI_PMU_HW_CTR_MAX) as [Hlt | Hge].
    + destruct Hinv as [? | [_ Hset]]; [lia |].
      do 2 erewrite bind_done by (apply test_bit_done; lia).
      destruct (negb (Z.testbit en bit) && Z.testbit inh bit) eqn:Hav.
      * exists (Some bit), bit. split; [done |]. split; [lia |].
        intros c [= <-]. apply andb_true_iff in Hav as [Hen Hinh].
        apply negb_true_iff in Hen. repeat split; try done; lia.
      * set (bit' := find_next_bit _ ctr_mask SBI_PMU_HW_CTR_MAX (bit + 1)).
        pose proof (find_next_bit_spec (Z.to_nat SBI_PMU_HW_CTR_MAX) ctr_mask
                      SBI_PMU_HW_CTR_MAX (bit + 1)) as Hnext.
        fold bit' in Hnext.
        destruct (IH bit') as (found & cb & Hrun & Hcb & Hfound).
        { destruct Hnext as [-> | [? _]]; lia. }
        { destruct Hnext as [? | [? ?]]; [by left | right; split; [lia | done]]. }
        exists found, cb. split; [done |].
        assert (bit <= bit') by (destruct Hnext as [-> | [? _]]; lia).
        split; [lia |]. intros c Hc.
        destruct (Hfound c Hc) as (? & ? & ? & ?). repeat split; try done; lia.
    + exists None, bit. split; [done |]. split; [lia | done].
Qed.

Lemma bind_undefined {A B : Type} (c : M A) (k : A -> M B) s u :
  c s = Undefined u -> bind c k s = Undefined u.
Proof. unfold bind. by intros ->. Qed.

(** The scan over the registered mappings ends, leaves the state alone,
    and keeps in ctr_idx either its initial value or a sound choice, unless
    it shifts the mask by XLEN or more, which needs a cbase of at least
    XLEN: the initial one, or SBI_PMU_HW_CTR_MAX = XLEN left by the scan of
    a mapping without a free counter. *)
Lemma pmu_find_hw_ctr_loop_spec (k i : nat) base cbase cmask event_idx data
    ctr_idx s :
  table_ok s ->
  (i + k = Z.to_nat (num_hw_events s))%nat ->
  0 < SBI_PMU_HW_CTR_MAX <= XLEN ->
  0 <= cbase ->
  base <= cbase \/ SBI_PMU_HW_CTR_MAX <= cbase ->
  ctr_idx = SBI_ENOTSUPP \/ hw_choice_ok s base event_idx data ctr_idx ->
  pmu_find_hw_ctr_loop k (Z.of_nat i) cbase cmask event_idx data
    (csrs s CSR_MCOUNTEREN) (csrs s CSR_MCOUNTINHIBIT) ctr_idx s
  = Undefined ShiftTooFar
    /\ (XLEN <= cbase \/ SBI_PMU_HW_CTR_MAX = XLEN)
  \/ exists r,
       pmu_find_hw_ctr_loop k (Z.of_nat i) cbase cmask event_idx data
         (csrs s CSR_MCOUNTEREN) (csrs s CSR_MCOUNTINHIBIT) ctr_idx s
       = Done r s
       /\ (r = SBI_ENOTSUPP \/ hw_choice_ok s base event_idx data r).
Proof.
  intros Ht. revert i cbase ctr_idx.
  induction k as [| k IH]; intros i cbase ctr_idx Hik Hmax Hcb Hinv Hcur.
  - right. by exists ctr_idx.
  - pose proof Ht as (Hlen & Hn0 & Hn).
    destruct (lookup_lt_is_Some_2 (hw_event_map s) i) as [e He]; [lia |].
    assert (e ∈ registry s) as Hreg.
    { apply list_elem_of_lookup. exists i. unfold registry.
      rewrite lookup_take_lt by lia. done. }
    cbn [pmu_find_hw_ctr_loop].
    erewrite bind_done
      by (apply load_hw_event_done; rewrite index_nat; exact He).
    replace (Z.of_nat i + 1) with (Z.of_nat (S i)) by lia.
    destruct ((start_idx e >? event_idx) && (event_idx <? end_idx e)
              || (start_idx e <? event_idx) && (event_idx >? end_idx e))
      eqn:Hskip; [apply IH; [lia | done ..] |].
    destruct ((event_idx =? SBI_PMU_EVENT_RAW_IDX)
              && negb (select e =? data)) eqn:Hraw;
      [apply IH; [lia | done ..] |].
    destruct (Z_lt_le_dec cbase XLEN) as [Hlt | Hge].
    2:{ left. split; [| by left].
        apply bind_undefined. unfold shl.
        by replace ((0 <=? cbase) && (cbase <? XLEN)) with false
          by cases_cmp. }
    assert (hw_event_matches e event_idx data) as Hmatch.
    { apply orb_false_iff in Hskip as [H1 H2].
      apply andb_false_iff in H1. apply andb_false_iff in H2.
      apply andb_false_iff in Hraw. unfold hw_event_matches.
      split; [lia |]. split; [lia |].
      intros ->. destruct Hraw as [? | Hsel]; [lia |].
      apply negb_false_iff in Hsel. lia. }
    erewrite bind_done by (by apply shl_done).
    set (ctr_mask := Z.land (counters e) (ulong (Z.shiftl cmask cbase))).
    cbv zeta.
    set (bit := find_next_bit (Z.to_nat SBI_PMU_HW_CTR_MAX) ctr_mask
                  SBI_PMU_HW_CTR_MAX cbase).
    pose proof (find_next_bit_spec (Z.to_nat SBI_PMU_HW_CTR_MAX) ctr_mask
                  SBI_PMU_HW_CTR_MAX cbase) as Hnext.
    fold bit in Hnext.
    destruct (pmu_find_hw_ctr_bits_spec (Z.to_nat SBI_PMU_HW_CTR_MAX)
                ctr_mask (csrs s CSR_MCOUNTEREN) (csrs s CSR_MCOUNTINHIBIT)
                bit s)
      as (found & cb & Hrun & Hrange & Hfound); [lia | | |].
    { destruct Hnext as [-> | [? _]]; lia. }
    { destruct Hnext as [? | [? ?]]; [by left | right; split; [lia | done]]. }
    erewrite bind_done by exact Hrun. cbv beta iota.
    assert (base <= bit \/ SBI_PMU_HW_CTR_MAX <= bit) as Hbit
      by (destruct Hnext as [-> | [? _]]; lia).
    assert (0 <= bit) as Hbit0 by (destruct Hnext as [-> | [? _]]; lia).
    destruct (IH (S i) cb (match found with Some c => c | None => ctr_idx end))
      as [[Hu Hwhy] | Hdone]; [lia | done | lia | lia | | | by right].
    + destruct found as [c |]; [| done].
      destruct (Hfound c eq_refl) as (Hc & Hset & Hen & Hinh).
      right. split; [lia |]. split.
      { unfold available. by rewrite Hen, Hinh. }
      exists e. split; [done |]. split; [| done].
      unfold ctr_mask in Hset. rewrite Z.land_spec in Hset.
      by apply andb_true_iff in Hset as [? _].
    + left. split; [done |]. right. lia.
Qed.

(** pmu_find_hw_ctr, case by case: a shift by XLEN or more, an error and no
    change, or a sound choice, with the event selector of the counter
    programmed unless the code of the event is one of the two fixed
    ones. *)
Lemma pmu_find_hw_ctr_spec s base cmask event_idx data :
  errors_negative ->
  table_ok s ->
  0 < SBI_PMU_HW_CTR_MAX <= XLEN ->
  0 <= base ->
  let fixed :=
    (get_cidx_code event_idx =? SBI_PMU_HW_CPU_CYCLES)
    || (get_cidx_code event_idx =? SBI_PMU_HW_INSTRUCTIONS) in
  let val := sbi_platform_get_mhpmevent_value event_idx data in
  pmu_find_hw_ctr base cmask event_idx data s = Undefined ShiftTooFar
    /\ (XLEN <= base \/ SBI_PMU_HW_CTR_MAX = XLEN)
  \/ exists r s',
       pmu_find_hw_ctr base cmask event_idx data s = Done r s'
       /\ (r < 0 /\ s' = s
           \/ hw_choice_ok s base event_idx data r
              /\ (if fixed then s' = s
                  else 3 <= r /\ val <> 0
                       /\ s' = set_csrs
                                 (fun m => if m =? CSR_MCOUNTINHIBIT + r
                                           then ulong val else csrs s m) s)).
Proof.
  intros (Hfail & Hns & Hinval & _) Ht Hmax Hbase fixed val.
  unfold pmu_find_hw_ctr.
  do 3 erewrite bind_done by reflexivity.
  destruct (Z.gtb_spec base (num_hw_ctrs s)) as [Hgt | Hle].
  { right. exists SBI_EINVAL, s. split; [done |]. by left. }
  erewrite bind_done by reflexivity.
  destruct (pmu_find_hw_ctr_loop_spec (Z.to_nat (num_hw_events s)) 0 base
              base cmask event_idx data SBI_ENOTSUPP s)
    as [[Hu Hwhy] | (c & Hrun & Hcase)];
    [done | lia | done | done | by left | by left | |].
  { left. split; [| done]. cbv zeta. by apply bind_undefined. }
  right. cbv zeta. erewrite bind_done by exact Hrun.
  destruct Hcase as [-> | Hgood].
  { rewrite Z.eqb_refl. exists SBI_EFAIL, s. split; [done |]. by left. }
  pose proof Hgood as ((Hc1 & Hc2) & _).
  replace (c =? SBI_ENOTSUPP) with false by lia.
  fold fixed.
  assert (negb (get_cidx_code event_idx =? SBI_PMU_HW_CPU_CYCLES)
          && negb (get_cidx_code event_idx =? SBI_PMU_HW_INSTRUCTIONS)
          = negb fixed) as -> by (unfold fixed; by rewrite negb_orb).
  destruct fixed; cbn [negb].
  { erewrite bind_done by reflexivity. rewrite Z.eqb_refl.
    exists c, s. split; [done |]. by right. }
  unfold pmu_update_hw_mhpmevent. fold val.
  destruct ((val =? 0) || (c <? 3) || (c >=? SBI_PMU_HW_CTR_MAX)) eqn:Hbad.
  { erewrite bind_done by reflexivity.
    replace (SBI_EFAIL =? 0) with false by lia.
    exists SBI_EFAIL, s. split; [done |]. by left. }
  apply orb_false_iff in Hbad as [Hbad _].
  apply orb_false_iff in Hbad as [Hv H3].
  erewrite bind_done by reflexivity. rewrite Z.eqb_refl.
  eexists c, _. split; [reflexivity |]. right. split; [done |].
  split; [lia |]. split; [lia | done].
Qed.

(** The state a match for a hardware event leaves, when it does not shift
    by XLEN or more: nothing has changed when the result is SBI_ENOTSUPP;
    otherwise the binding is stored, the counts, the hart and the enable
    and inhibit registers are as before, and the other registers are as
    pmu_find_hw_ctr left them. *)
Lemma sbi_pmu_get_ctr_match_hw_state s base mask event_idx data flags :
  errors_negative ->
  csr_numbers_ok ->
  table_ok s ->
  hart_tables_ok s ->
  0 <= SBI_PMU_FW_CTR_MAX ->
  SBI_PMU_HW_CTR_MAX <= XLEN ->
  0 <= base < total_ctrs s ->
  get_cidx_type event_idx < SBI_PMU_EVENT_TYPE_MAX ->
  get_cidx_type event_idx <> SBI_PMU_EVENT_TYPE_FW ->
  let fixed :=
    (get_cidx_code event_idx =? SBI_PMU_HW_CPU_CYCLES)
    || (get_cidx_code event_idx =? SBI_PMU_HW_INSTRUCTIONS) in
  let val := sbi_platform_get_mhpmevent_value event_idx data in
  sbi_pmu_get_ctr_match base mask event_idx data flags s
  = Undefined ShiftTooFar
    /\ (XLEN <= base \/ SBI_PMU_HW_CTR_MAX = XLEN)
  \/ exists r s1,
       sbi_pmu_get_ctr_match base mask event_idx data flags s = Done r s1
       /\ (r = SBI_ENOTSUPP /\ s1 = s
           \/ hw_choice_ok s base event_idx data r
              /\ is_Some (index2 (active_events s) (mhartid s) r)
              /\ s1 = set_active_events
                        (update2 (active_events s) (mhartid s) r
                           (u32 event_idx))
                        (set_csrs (csrs s1) s)
              /\ csrs s1 CSR_MCOUNTEREN = csrs s CSR_MCOUNTEREN
              /\ csrs s1 CSR_MCOUNTINHIBIT = csrs s CSR_MCOUNTINHIBIT
              /\ (if fixed then csrs s1 = csrs s
                  else 3 <= r /\ val <> 0
                       /\ csrs s1 (CSR_MCOUNTINHIBIT + r) = ulong val
                       /\ forall m, m <> CSR_MCOUNTINHIBIT + r ->
                            csrs s1 m = csrs s m)).
Proof.
  intros Herr (Hmax0 & Hen & Hinh & _) Ht Hok Hfw Hmax Hbase Hty Hhw
    fixed val.
  pose proof Herr as (_ & Hns & _).
  assert (sbi_pmu_get_ctr_match base mask event_idx data flags s
          = bind (pmu_find_hw_ctr base mask event_idx data)
              (fun ctr_idx =>
                 if ctr_idx <? 0 then ret SBI_ENOTSUPP
                 else
                   bind (store_active_event (mhartid s) ctr_idx
                           (u32 event_idx))
                        (fun _ => ret ctr_idx)) s) as ->.
  { unfold sbi_pmu_get_ctr_match.
    do 2 erewrite bind_done by reflexivity.
    replace ((base >=? total_ctrs s)
             || (get_cidx_type event_idx >=? SBI_PMU_EVENT_TYPE_MAX))
      with false by cases_cmp.
    by replace (get_cidx_type event_idx =? SBI_PMU_EVENT_TYPE_FW) with false
      by cases_cmp. }
  destruct (pmu_find_hw_ctr_spec s base mask event_idx data Herr Ht)
    as [[Hu Hwhy] | (c & s0 & Hfind & Hcase)]; [lia | lia | |].
  { left. split; [| done]. by apply bind_undefined. }
  right. erewrite bind_done by exact Hfind.
  destruct Hcase as [[Hneg ->] | [Hgood Hst]].
  { replace (c <? 0) with true by lia. exists SBI_ENOTSUPP, s.
    split; [done |]. by left. }
  pose proof Hgood as ((Hc1 & Hc2) & _).
  replace (c <? 0) with false by lia.
  fold fixed in Hst. fold val in Hst.
  assert (s0 = set_csrs (csrs s0) s
          /\ csrs s0 CSR_MCOUNTEREN = csrs s CSR_MCOUNTEREN
          /\ csrs s0 CSR_MCOUNTINHIBIT = csrs s CSR_MCOUNTINHIBIT
          /\ (if fixed then csrs s0 = csrs s
              else 3 <= c /\ val <> 0
                   /\ csrs s0 (CSR_MCOUNTINHIBIT + c) = ulong val
                   /\ forall m, m <> CSR_MCOUNTINHIBIT + c ->
                        csrs s0 m = csrs s m))
    as (Hs0 & Hen0 & Hinh0 & Hcsr).
  { destruct fixed.
    - subst s0. split; [by destruct s | done].
    - destruct Hst as (H3 & Hv & ->). cbn [csrs set_csrs].
      split; [done |]. split; [cases_cmp |]. split; [cases_cmp |].
      split; [done |]. split; [done |].
      split; [by rewrite Z.eqb_refl |].
      intros m Hm. by replace (m =? CSR_MCOUNTINHIBIT + c) with false
        by lia. }
  destruct (hart_tables_ok_active s c Hok) as [old Hold]; [lia |].
  erewrite bind_done
    by (eapply store_active_event_done; rewrite Hs0; exact Hold).
  eexists c, _. split; [reflexivity |]. right. split; [done |].
  split; [by exists old |].
  cbn [csrs set_active_events]. rewrite Hs0 at 1 2.
  by cbn [active_events set_csrs mhartid].
Qed.

(** X16: a match for an event of a hardware type, with a base below
    total_ctrs, on a hart whose tables have their declared sizes and whose
    SBI_PMU_HW_CTR_MAX is at most XLEN.  The call can shift the mask by XLEN
    or more, which C leaves undefined, but only when the base is at least
    XLEN or SBI_PMU_HW_CTR_MAX = XLEN.  Otherwise it either returns
    SBI_ENOTSUPP and changes nothing, or returns a counter at or above the
    base and below SBI_PMU_HW_CTR_MAX that is available (not enabled,
    inhibited) and whose bit is set in the bitmap of a registered mapping
    under which the event falls.  The counter is then bound to the event;
    the registers are left alone when the code of the event is one of the
    two fixed ones, and otherwise the counter is at least 3, the platform's
    selector value is not 0 and is written to the event selector of the
    counter, and to no other register.  Whether the counter is bound
    already plays no part. *)
Theorem hw_match_sound
    (s : pmu_state) (base mask event_idx data flags : Z) :
  errors_negative ->
  csr_numbers_ok ->
  table_ok s ->
  hart_tables_ok s ->
  0 <= SBI_PMU_FW_CTR_MAX ->
  SBI_PMU_HW_CTR_MAX <= XLEN ->
  0 <= base < total_ctrs s ->
  get_cidx_type event_idx < SBI_PMU_EVENT_TYPE_MAX ->
  get_cidx_type event_idx <> SBI_PMU_EVENT_TYPE_FW ->
  let fixed :=
    (get_cidx_code event_idx =? SBI_PMU_HW_CPU_CYCLES)
    || (get_cidx_code event_idx =? SBI_PMU_HW_INSTRUCTIONS) in
  let val := sbi_platform_get_mhpmevent_value event_idx data in
  sbi_pmu_get_ctr_match base mask event_idx data flags s
  = Undefined ShiftTooFar
    /\ (XLEN <= base \/ SBI_PMU_HW_CTR_MAX = XLEN)
  \/ exists r s',
       sbi_pmu_get_ctr_match base mask event_idx data flags s = Done r s'
       /\ (r = SBI_ENOTSUPP /\ s' = s
           \/ hw_choice_ok s base event_idx data r
              /\ index2 (active_events s') (mhartid s) r
                 = Some (u32 event_idx)
              /\ (forall h' j, h' <> mhartid s \/ j <> r ->
                    index2 (active_events s') h' j
                    = index2 (active_events s) h' j)
              /\ (if fixed then csrs s' = csrs s
                  else 3 <= r /\ val <> 0
                       /\ csrs s' (CSR_MCOUNTINHIBIT + r) = ulong val
                       /\ forall m, m <> CSR_MCOUNTINHIBIT + r ->
                            csrs s' m = csrs s m)).
Proof.
  intros Herr Hcsr Ht Hok Hfw Hmax Hbase Hty Hhw fixed val.
  destruct (sbi_pmu_get_ctr_match_hw_state s base mask event_idx data flags)
    as [Hu | (r & s1 & Hrun & Hcase)]; [done .. | by left |].
  right. exists r, s1. split; [done |].
  destruct Hcase as [Hno | (Hgood & [old Hold] & Hs1 & _ & _ & Hregs)];
    [by left | right].
  pose proof Hgood as ((Hr1 & Hr2) & _).
  assert (active_events s1
          = update2 (active_events s) (mhartid s) r (u32 event_idx))
    as Hact by (by rewrite Hs1).
  split; [done |]. rewrite Hact.
  split; [by eapply index2_update2_eq |].
  split; [| done].
  intros h' j Hne. apply index2_update2_frame; [lia | done].
Qed.

(** The scan of the set bits of one mapping neither changes nor consults
    anything but its arguments. *)
Lemma pmu_find_hw_ctr_bits_frame (k : nat) ctr_mask en inh bit s s2 x s' :
  pmu_find_hw_ctr_bits k ctr_mask en inh bit s = Done x s' ->
  s' = s /\ pmu_find_hw_ctr_bits k ctr_mask en inh bit s2 = Done x s2.
Proof.
  revert bit. induction k as [| k IH]; intros bit H.
  - cbn in H. by injection H as <- <-.
  - cbn [pmu_find_hw_ctr_bits] in *.
    destruct (bit <? SBI_PMU_HW_CTR_MAX); [| by injection H as <- <-].
    unfold bind, __test_bit in *.
    destruct ((0 <=? bit) && (bit <? XLEN)); [| done].
    unfold ret in *. cbv beta iota in *.
    destruct (negb (Z.testbit en bit) && Z.testbit inh bit);
      [by injection H as <- <- | by apply IH].
Qed.

(** The scan over the registered mappings consults the table of mappings
    and nothing else of the state. *)
Lemma pmu_find_hw_ctr_loop_frame (k : nat) i cbase cmask event_idx data
    en inh ctr_idx s s2 r s' :
  hw_event_map s2 = hw_event_map s ->
  pmu_find_hw_ctr_loop k i cbase cmask event_idx data en inh ctr_idx s
  = Done r s' ->
  s' = s
  /\ pmu_find_hw_ctr_loop k i cbase cmask event_idx data en inh ctr_idx s2
     = Done r s2.
Proof.
  intros Hmap. revert i cbase ctr_idx.
  induction k as [| k IH]; intros i cbase ctr_idx H.
  - cbn in H. by injection H as <- <-.
  - cbn [pmu_find_hw_ctr_loop] in *.
    unfold bind at 1 in H. unfold bind at 1. unfold load_hw_event in *.
    rewrite Hmap. destruct (index (hw_event_map s) i) as [e |]; [| done].
    destruct ((start_idx e >? event_idx) && (event_idx <? end_idx e)
              || (start_idx e <? event_idx) && (event_idx >? end_idx e));
      [by apply IH |].
    destruct ((event_idx =? SBI_PMU_EVENT_RAW_IDX)
              && negb (select e =? data)); [by apply IH |].
    unfold bind at 1 in H. unfold bind at 1. unfold shl in *.
    destruct ((0 <=? cbase) && (cbase <? XLEN)); [| done].
    unfold ret in *. cbv beta iota zeta in *.
    unfold bind at 1 in H. unfold bind at 1.
    destruct (pmu_find_hw_ctr_bits _ _ _ _ _ s) as [[found cb] s1 |] eqn:Hb;
      [| done].
    apply (pmu_find_hw_ctr_bits_frame _ _ _ _ _ _ s2) in Hb as [-> Hb].
    rewrite Hb. by apply IH.
Qed.

(** pmu_find_hw_ctr consults the table of mappings, the two counts and the
    enable and inhibit registers, and changes registers only. *)
Lemma pmu_find_hw_ctr_frame cbase cmask event_idx data s s2 r s' :
  hw_event_map s2 = hw_event_map s ->
  num_hw_events s2 = num_hw_events s ->
  num_hw_ctrs s2 = num_hw_ctrs s ->
  csrs s2 CSR_MCOUNTEREN = csrs s CSR_MCOUNTEREN ->
  csrs s2 CSR_MCOUNTINHIBIT = csrs s CSR_MCOUNTINHIBIT ->
  pmu_find_hw_ctr cbase cmask event_idx data s = Done r s' ->
  exists s2',
    pmu_find_hw_ctr cbase cmask event_idx data s2 = Done r s2'
    /\ s2' = set_csrs (csrs s2') s2.
Proof.
  intros Hmap Hne Hnc Hen Hinh H.
  unfold pmu_find_hw_ctr in *.
  do 3 erewrite bind_done in H by reflexivity.
  do 3 erewrite bind_done by reflexivity.
  rewrite Hnc, Hen, Hinh.
  destruct (cbase >? num_hw_ctrs s).
  { injection H as <- <-. by exists s2; destruct s2. }
  erewrite bind_done in H by reflexivity.
  erewrite bind_done by reflexivity. rewrite Hne.
  cbv zeta in *. unfold bind at 1 in H.
  destruct (pmu_find_hw_ctr_loop _ _ _ _ _ _ _ _ _ s) as [c s1 |] eqn:Hl;
    [| done].
  apply (pmu_find_hw_ctr_loop_frame _ _ _ _ _ _ _ _ _ _ s2) in Hl
    as [-> Hl]; [| done].
  erewrite bind_done by exact Hl.
  destruct (c =? SBI_ENOTSUPP).
  { injection H as <- <-. by exists s2; destruct s2. }
  destruct (negb (get_cidx_code event_idx =? SBI_PMU_HW_CPU_CYCLES)
            && negb (get_cidx_code event_idx =? SBI_PMU_HW_INSTRUCTIONS)).
  - unfold pmu_update_hw_mhpmevent in *.
    destruct ((sbi_platform_get_mhpmevent_value event_idx data =? 0)
              || (c <? 3) || (c >=? SBI_PMU_HW_CTR_MAX)).
    + erewrite bind_done in H by reflexivity.
      erewrite bind_done by reflexivity.
      destruct (SBI_EFAIL =? 0); injection H as <- <-;
        by exists s2; destruct s2.
    + erewrite bind_done in H by reflexivity.
      erewrite bind_done by reflexivity.
      rewrite Z.eqb_refl in *. injection H as <- <-.
      eexists. split; [reflexivity | done].
  - erewrite bind_done in H by reflexivity.
    erewrite bind_done by reflexivity.
    rewrite Z.eqb_refl in *. injection H as <- <-.
    by exists s2; destruct s2.
Qed.

(** X17: a match for an event of a hardware type that is repeated at once,
    with the same arguments, returns the same result, on a hart whose tables
    have their declared sizes and whose SBI_PMU_HW_CTR_MAX is at most XLEN
    (unless the first call shifts the mask by XLEN or more, which can happen
    only when the base is at least XLEN or SBI_PMU_HW_CTR_MAX = XLEN): the
    counter the first call has bound is handed out again, since the scan
    looks at the enable and inhibit bits only and never at the bindings. *)
Theorem hw_match_repeats
    (s : pmu_state) (base mask event_idx data flags : Z) :
  errors_negative ->
  csr_numbers_ok ->
  table_ok s ->
  hart_tables_ok s ->
  0 <= SBI_PMU_FW_CTR_MAX ->
  SBI_PMU_HW_CTR_MAX <= XLEN ->
  0 <= base ->
  get_cidx_type event_idx <> SBI_PMU_EVENT_TYPE_FW ->
  sbi_pmu_get_ctr_match base mask event_idx data flags s
  = Undefined ShiftTooFar
    /\ (XLEN <= base \/ SBI_PMU_HW_CTR_MAX = XLEN)
  \/ exists r s1 s2,
       sbi_pmu_get_ctr_match base mask event_idx data flags s = Done r s1
       /\ sbi_pmu_get_ctr_match base mask event_idx data flags s1
          = Done r s2
       /\ (0 <= r ->
           index2 (active_events s1) (mhartid s) r = Some (u32 event_idx)).
Proof.
  intros Herr (Hmax0 & Hen & Hinh & _) Ht Hok Hfw Hmax Hbase Hhw.
  pose proof Herr as (_ & Hns & Hinv & _).
  destruct ((base >=? total_ctrs s)
            || (get_cidx_type event_idx >=? SBI_PMU_EVENT_TYPE_MAX))
    eqn:Hguard.
  { assert (sbi_pmu_get_ctr_match base mask event_idx data flags s
            = Done SBI_EINVAL s) as Hrun.
    { unfold sbi_pmu_get_ctr_match.
      do 2 erewrite bind_done by reflexivity. by rewrite Hguard. }
    right. exists SBI_EINVAL, s, s.
    split; [done |]. split; [done |]. lia. }
  assert (forall t, total_ctrs t = total_ctrs s ->
            sbi_pmu_get_ctr_match base mask event_idx data flags t
            = bind (pmu_find_hw_ctr base mask event_idx data)
                (fun ctr_idx =>
                   if ctr_idx <? 0 then ret SBI_ENOTSUPP
                   else
                     bind (store_active_event (mhartid t) ctr_idx
                             (u32 event_idx))
                          (fun _ => ret ctr_idx)) t) as Hunfold.
  { intros t Htot. unfold sbi_pmu_get_ctr_match.
    do 2 erewrite bind_done by reflexivity. rewrite Htot, Hguard.
    by replace (get_cidx_type event_idx =? SBI_PMU_EVENT_TYPE_FW) with false
      by cases_cmp. }
  destruct (pmu_find_hw_ctr_spec s base mask event_idx data Herr Ht)
    as [[Hu Hwhy] | (c & s1 & Hfind & Hcase)]; [lia | lia | |].
  { left. split; [| done]. rewrite Hunfold by done.
    by apply bind_undefined. }
  right.
  destruct Hcase as [[Hneg ->] | [Hgood Hst]].
  { exists SBI_ENOTSUPP, s, s.
    assert (sbi_pmu_get_ctr_match base mask event_idx data flags s
            = Done SBI_ENOTSUPP s) as Hrun.
    { rewrite Hunfold by done. erewrite bind_done by exact Hfind.
      by replace (c <? 0) with true by lia. }
    split; [done |]. split; [done |]. lia. }
  pose proof Hgood as ((Hc1 & Hc2) & _).
  assert (s1 = set_csrs (csrs s1) s
          /\ csrs s1 CSR_MCOUNTEREN = csrs s CSR_MCOUNTEREN
          /\ csrs s1 CSR_MCOUNTINHIBIT = csrs s CSR_MCOUNTINHIBIT)
    as (Hs1 & Hen1 & Hinh1).
  { destruct ((get_cidx_code event_idx =? SBI_PMU_HW_CPU_CYCLES)
              || (get_cidx_code event_idx =? SBI_PMU_HW_INSTRUCTIONS)).
    - subst s1. by destruct s.
    - destruct Hst as (H3 & _ & ->). cbn [csrs set_csrs].
      split; [done |]. split; cases_cmp. }
  destruct (hart_tables_ok_active s c Hok) as [old Hold]; [lia |].
  pose (s1b := set_active_events
                 (update2 (active_events s1) (mhartid s) c (u32 event_idx))
                 s1).
  assert (sbi_pmu_get_ctr_match base mask event_idx data flags s
          = Done c s1b) as Hrun1.
  { rewrite Hunfold by done. erewrite bind_done by exact Hfind.
    replace (c <? 0) with false by lia.
    erewrite bind_done
      by (eapply store_active_event_done; rewrite Hs1; exact Hold).
    done. }
  assert (index2 (active_events s1b) (mhartid s) c = Some (u32 event_idx))
    as Hbound.
  { unfold s1b. cbn [active_events set_active_events]. rewrite Hs1.
    by eapply index2_update2_eq. }
  destruct (pmu_find_hw_ctr_frame base mask event_idx data s s1b c s1)
    as (s2' & Hfind2 & Hs2');
    [by unfold s1b; cbn; rewrite Hs1 ..| exact Hen1 | exact Hinh1
    | exact Hfind |].
  assert (mhartid s1b = mhartid s /\ total_ctrs s1b = total_ctrs s)
    as [Hh Htot] by (by unfold s1b; cbn; rewrite Hs1).
  eexists c, s1b, _. split; [exact Hrun1 |].
  split; [| intros _; exact Hbound].
  rewrite Hunfold by exact Htot.
  erewrite bind_done by exact Hfind2.
  replace (c <? 0) with false by lia.
  erewrite bind_done; [reflexivity |].
  eapply store_active_event_done. rewrite Hs2', Hh.
  cbn [active_events set_csrs]. exact Hbound.
Qed.

(** X18: start after a match for an event of a hardware type, for an
    event index below 2^32 other than SBI_PMU_EVENT_IDX_INVALID and a base
    below total_ctrs, on a hart whose tables have their declared sizes, with
    num_hw_ctrs below total_ctrs and SBI_PMU_HW_CTR_MAX at most XLEN.
    Unless the match shifts the mask by XLEN or more (only when the base is
    at least XLEN or SBI_PMU_HW_CTR_MAX = XLEN), it returns SBI_ENOTSUPP or
    a counter that is not negative; if the counter is at most num_hw_ctrs,
    start on it returns 0 and the counter runs.  The scan goes up to
    SBI_PMU_HW_CTR_MAX, though, and not up to num_hw_ctrs: a counter above
    num_hw_ctrs that the match returned is refused by start with
    SBI_EINVAL. *)
Theorem hw_match_then_start
    (s : pmu_state) (base mask event_idx data flags ival : Z) :
  errors_negative ->
  csr_numbers_ok ->
  table_ok s ->
  hart_tables_ok s ->
  0 <= SBI_PMU_FW_CTR_MAX ->
  SBI_PMU_HW_CTR_MAX <= XLEN ->
  0 <= base < total_ctrs s ->
  0 <= event_idx < 2 ^ 32 ->
  event_idx <> SBI_PMU_EVENT_IDX_INVALID ->
  get_cidx_type event_idx < SBI_PMU_EVENT_TYPE_MAX ->
  get_cidx_type event_idx <> SBI_PMU_EVENT_TYPE_FW ->
  num_hw_ctrs s < total_ctrs s ->
  sbi_pmu_get_ctr_match base mask event_idx data flags s
  = Undefined ShiftTooFar
    /\ (XLEN <= base \/ SBI_PMU_HW_CTR_MAX = XLEN)
  \/ exists r s1,
       sbi_pmu_get_ctr_match base mask event_idx data flags s = Done r s1
       /\ (r = SBI_ENOTSUPP
           \/ 0 <= r
              /\ (r <= num_hw_ctrs s ->
                  exists s2,
                    sbi_pmu_start_ctr r ival s1 = Done 0 s2
                    /\ running s2 r = true)
              /\ (num_hw_ctrs s < r ->
                  sbi_pmu_start_ctr r ival s1 = Done SBI_EINVAL s1)).
Proof.
  intros Herr Hcsr Ht Hok Hfw Hmax Hbase Hev Hinv Hty Hhw Htot.
  pose proof Herr as (_ & _ & Hneg & _).
  destruct (sbi_pmu_get_ctr_match_hw_state s base mask event_idx data flags)
    as [Hu | (r & s1 & Hrun & Hcase)]; [done .. | by left |].
  right. exists r, s1. split; [done |].
  destruct Hcase
    as [[Hr _] | (Hgood & [old Hold] & Hs1 & Hen & Hinh & _)];
    [by left | right].
  destruct Hgood as ((Hr1 & Hr2) & Hav & _).
  assert (active_events s1
          = update2 (active_events s) (mhartid s) r (u32 event_idx)
          /\ num_hw_ctrs s1 = num_hw_ctrs s
          /\ total_ctrs s1 = total_ctrs s
          /\ mhartid s1 = mhartid s) as (Hact & Hn & Htt & Hh)
    by (by rewrite Hs1).
  assert (u32 event_idx = event_idx) as Hu
    by (unfold u32; apply Z.mod_small; lia).
  assert (index2 (active_events s1) (mhartid s1) r = Some event_idx)
    as Hidx.
  { rewrite Hact, Hh, Hu. by eapply index2_update2_eq. }
  assert (r < total_ctrs s -> bound_to s1 r event_idx) as Hb.
  { intros Hlt. split; [lia |]. split; [done |]. split; [lia |]. done. }
  assert (running s1 r = false) as Hnot.
  { unfold running, available in *. rewrite Hen, Hinh.
    apply andb_true_iff in Hav as [Hav1 Hav2].
    apply negb_true_iff in Hav1. by rewrite Hav1. }
  split; [lia |]. split.
  - intros Hle.
    rewrite (sbi_pmu_start_ctr_hw s1 r event_idx ival (Hb ltac:(lia)) Hhw).
    destruct (pmu_start_hw_ctr_starts s1 r ival Hcsr)
      as (s2 & Hstart & _ & Hr & _); [lia | lia | done |].
    by exists s2.
  - intros Hgt. destruct (Z_lt_le_dec r (total_ctrs s)) as [Hlt | Hge].
    + rewrite (sbi_pmu_start_ctr_hw s1 r event_idx ival (Hb Hlt) Hhw).
      unfold pmu_start_hw_ctr. do 3 erewrite bind_done by reflexivity.
      by replace (r >? num_hw_ctrs s1) with true by lia.
    + unfold sbi_pmu_start_ctr.
      erewrite bind_done
        by (apply (pmu_validate_ctr_unbound s1 r event_idx Hidx); lia).
      cbv beta iota. by replace (SBI_EINVAL <? 0) with true by lia.
Qed.

End HardwareMatch.

(** ** The SBI call handler *)

Section EcallHandler.

Context {K : pmu_consts} {I : pmu_ecall_ids}.

Lemma returns_ret {A : Type} (P : A -> Prop) (a : A) :
  P a -> returns P (ret a).
Proof. intros Ha s a' s' [= <- _]. exact Ha. Qed.

Lemma returns_bind {A B : Type} (Q : A -> Prop) (P : B -> Prop)
    (c : M A) (k : A -> M B) :
  returns Q c -> (forall a, Q a -> returns P (k a)) -> returns P (bind c k).
Proof.
  intros Hc Hk s b s' H. unfold bind in H.
  destruct (c s) as [a s1 |] eqn:E; [| done].
  eapply Hk; [eapply Hc; exact E | exact H].
Qed.

Lemma returns_any {A : Type} (c : M A) : returns (fun _ => True) c.
Proof. done. Qed.

#[local] Ltac returns_step :=
  first
    [ apply returns_ret
    | eapply returns_bind; [apply returns_any | intros ? _]
    | match goal with
      | |- returns _ (if ?b then _ else _) => destruct b
      | |- returns _ (match ?x with _ => _ end) => destruct x
      end ].

Lemma returns_pmu_start_hw_ctr cidx ival :
  errors_negative -> returns (fun r => r <= 0) (pmu_start_hw_ctr cidx ival).
Proof.
  intros (_ & _ & ? & _ & _ & ? & _). unfold pmu_start_hw_ctr.
  repeat returns_step; lia.
Qed.

Lemma returns_pmu_stop_hw_ctr cidx :
  errors_negative -> returns (fun r => r <= 0) (pmu_stop_hw_ctr cidx).
Proof.
  intros (_ & _ & _ & _ & _ & _ & ?). unfold pmu_stop_hw_ctr.
  repeat returns_step; lia.
Qed.

Lemma returns_sbi_pmu_start_ctr cidx ival :
  errors_negative -> returns (fun r => r <= 0) (sbi_pmu_start_ctr cidx ival).
Proof.
  intros Herr. pose proof Herr as (_ & _ & ? & _).
  unfold sbi_pmu_start_ctr.
  eapply returns_bind; [apply returns_any | intros [t c] _].
  destruct (t <? 0); [apply returns_ret; lia |].
  destruct (t =? SBI_PMU_EVENT_TYPE_FW);
    [| by apply returns_pmu_start_hw_ctr].
  unfold pmu_start_fw_ctr. repeat returns_step; lia.
Qed.

Lemma returns_sbi_pmu_stop_ctr cidx reset :
  errors_negative -> returns (fun r => r <= 0) (sbi_pmu_stop_ctr cidx reset).
Proof.
  intros Herr. pose proof Herr as (_ & _ & ? & _).
  unfold sbi_pmu_stop_ctr.
  eapply returns_bind; [apply returns_any | intros h _].
  eapply returns_bind; [apply returns_any | intros [t c] _].
  destruct (t <? 0); [apply returns_ret; lia |].
  eapply (returns_bind (fun r => r <= 0)).
  - destruct (t =? SBI_PMU_EVENT_TYPE_FW);
      [| by apply returns_pmu_stop_hw_ctr].
    unfold pmu_stop_fw_ctr. repeat returns_step; lia.
  - intros r Hr. repeat returns_step; exact Hr.
Qed.

Lemma returns_sbi_pmu_read_ctr cidx cval :
  errors_negative ->
  returns (fun x => fst x <= 0) (sbi_pmu_read_ctr cidx cval).
Proof.
  intros (_ & _ & ? & _). unfold sbi_pmu_read_ctr.
  repeat returns_step; cbn; lia.
Qed.

Lemma returns_sbi_pmu_get_ctr_info cidx :
  errors_negative ->
  returns (fun x => fst x <= 0) (sbi_pmu_get_ctr_info cidx).
Proof.
  intros (_ & _ & ? & _). unfold sbi_pmu_get_ctr_info.
  repeat returns_step; cbn; lia.
Qed.

(** X19: whatever the function identifier and the registers, the handler never
    returns a positive value: a counter index or a number of counters that
    a callee returns goes to *out_val and the result becomes 0, so that the
    result is 0 or negative. *)
Theorem ecall_result_never_positive
    (extid funcid : Z) (regs : sbi_trap_regs) (out_val : Z)
    (s : pmu_state) (r out : Z) (s' : pmu_state) :
  errors_negative ->
  sbi_ecall_pmu_handler extid funcid regs out_val s = Done (r, out) s' ->
  r <= 0.
Proof.
  intros Herr H. pose proof Herr as (_ & ? & _).
  enough (returns (fun x => fst x <= 0)
            (sbi_ecall_pmu_handler extid funcid regs out_val)) as Hret
    by exact (Hret _ _ _ H).
  clear H. unfold sbi_ecall_pmu_handler.
  destruct (funcid =? SBI_EXT_PMU_NUM_COUNTERS).
  { eapply returns_bind; [apply returns_any | intros n _]. cbv zeta.
    destruct (Z.geb_spec (to_int n) 0); apply returns_ret; cbn; lia. }
  destruct (funcid =? SBI_EXT_PMU_COUNTER_GET_INFO).
  { eapply returns_bind; [by apply returns_sbi_pmu_get_ctr_info |].
    intros [r0 info] Hr. by apply returns_ret. }
  destruct (funcid =? SBI_EXT_PMU_COUNTER_CFG_MATCH).
  { eapply returns_bind; [apply returns_any | intros c _].
    destruct (Z.geb_spec c 0); apply returns_ret; cbn; lia. }
  destruct (funcid =? SBI_EXT_PMU_COUNTER_FW_READ);
    [by apply returns_sbi_pmu_read_ctr |].
  destruct (funcid =? SBI_EXT_PMU_COUNTER_START).
  { cbv zeta.
    eapply returns_bind; [by apply returns_sbi_pmu_start_ctr |].
    intros r0 Hr. by apply returns_ret. }
  destruct (funcid =? SBI_EXT_PMU_COUNTER_STOP).
  { eapply returns_bind; [by apply returns_sbi_pmu_stop_ctr |].
    intros r0 Hr. by apply returns_ret. }
  apply returns_ret. cbn. lia.
Qed.

Lemma ecall_ids_distinct_neq :
  ecall_ids_distinct ->
  SBI_EXT_PMU_COUNTER_CFG_MATCH <> SBI_EXT_PMU_NUM_COUNTERS
  /\ SBI_EXT_PMU_COUNTER_CFG_MATCH <> SBI_EXT_PMU_COUNTER_GET_INFO
  /\ SBI_EXT_PMU_COUNTER_FW_READ <> SBI_EXT_PMU_NUM_COUNTERS
  /\ SBI_EXT_PMU_COUNTER_FW_READ <> SBI_EXT_PMU_COUNTER_GET_INFO
  /\ SBI_EXT_PMU_COUNTER_FW_READ <> SBI_EXT_PMU_COUNTER_CFG_MATCH
  /\ SBI_EXT_PMU_COUNTER_START <> SBI_EXT_PMU_NUM_COUNTERS
  /\ SBI_EXT_PMU_COUNTER_START <> SBI_EXT_PMU_COUNTER_GET_INFO
  /\ SBI_EXT_PMU_COUNTER_START <> SBI_EXT_PMU_COUNTER_CFG_MATCH
  /\ SBI_EXT_PMU_COUNTER_START <> SBI_EXT_PMU_COUNTER_FW_READ.
Proof.
  unfold ecall_ids_distinct. intros Hd.
  repeat (apply NoDup_cons in Hd as [? Hd]).
  rewrite !not_elem_of_cons in *. intuition congruence.
Qed.

(** The handler on a configuration request for a firmware event. *)
Lemma sbi_ecall_pmu_handler_cfg_match extid regs out_val s :
  ecall_ids_distinct ->
  sbi_ecall_pmu_handler extid SBI_EXT_PMU_COUNTER_CFG_MATCH regs out_val s
  = bind (sbi_pmu_get_ctr_match (a0 regs) (a1 regs) (a2 regs) (a3 regs)
            (a4 regs))
      (fun r => if r >=? 0 then ret (0, ulong r) else ret (r, out_val)) s.
Proof.
  intros Hd. apply ecall_ids_distinct_neq in Hd as (? & ? & _).
  unfold sbi_ecall_pmu_handler.
  replace (SBI_EXT_PMU_COUNTER_CFG_MATCH =? SBI_EXT_PMU_NUM_COUNTERS)
    with false by lia.
  replace (SBI_EXT_PMU_COUNTER_CFG_MATCH =? SBI_EXT_PMU_COUNTER_GET_INFO)
    with false by lia.
  by rewrite Z.eqb_refl.
Qed.

Lemma sbi_ecall_pmu_handler_fw_read extid regs out_val s :
  ecall_ids_distinct ->
  sbi_ecall_pmu_handler extid SBI_EXT_PMU_COUNTER_FW_READ regs out_val s
  = sbi_pmu_read_ctr (u32 (a0 regs)) out_val s.
Proof.
  intros Hd. apply ecall_ids_distinct_neq in Hd as (_ & _ & ? & ? & ? & _).
  unfold sbi_ecall_pmu_handler.
  replace (SBI_EXT_PMU_COUNTER_FW_READ =? SBI_EXT_PMU_NUM_COUNTERS)
    with false by lia.
  replace (SBI_EXT_PMU_COUNTER_FW_READ =? SBI_EXT_PMU_COUNTER_GET_INFO)
    with false by lia.
  replace (SBI_EXT_PMU_COUNTER_FW_READ =? SBI_EXT_PMU_COUNTER_CFG_MATCH)
    with false by lia.
  by rewrite Z.eqb_refl.
Qed.

Lemma sbi_ecall_pmu_handler_start extid regs out_val s :
  ecall_ids_distinct ->
  XLEN <> 32 ->
  sbi_ecall_pmu_handler extid SBI_EXT_PMU_COUNTER_START regs out_val s
  = bind (sbi_pmu_start_ctr (u32 (a0 regs)) (a1 regs))
      (fun r => ret (r, out_val)) s.
Proof.
  intros Hd Hx.
  apply ecall_ids_distinct_neq in Hd as (_ & _ & _ & _ & _ & ? & ? & ? & ?).
  unfold sbi_ecall_pmu_handler.
  replace (SBI_EXT_PMU_COUNTER_START =? SBI_EXT_PMU_NUM_COUNTERS)
    with false by lia.
  replace (SBI_EXT_PMU_COUNTER_START =? SBI_EXT_PMU_COUNTER_GET_INFO)
    with false by lia.
  replace (SBI_EXT_PMU_COUNTER_START =? SBI_EXT_PMU_COUNTER_CFG_MATCH)
    with false by lia.
  replace (SBI_EXT_PMU_COUNTER_START =? SBI_EXT_PMU_COUNTER_FW_READ)
    with false by lia.
  rewrite Z.eqb_refl. by replace (XLEN =? 32) with false by lia.
Qed.

(** X20: a supervisor's session with a firmware event, through the handler,
    on a hart whose registers are not 32 bits wide, whose tables have their
    declared sizes and whose total_ctrs is at most XLEN (XLEN at most
    2^32).  The configuration call has a base a0 below total_ctrs and a
    firmware event a2 below 2^32, other than SBI_PMU_EVENT_IDX_INVALID, with
    a code below SBI_PMU_FW_EVENT_MAX.  It either fails with SBI_ENOTSUPP,
    leaving *out_val and the state alone, or returns 0 with a firmware
    counter index in *out_val; a start call on that index with the initial
    value in a1 then returns 0 and leaves *out_val alone, and a read call on
    the index after that returns 0 with the initial value, modulo 2^XLEN,
    in *out_val. *)
Theorem ecall_fw_counter_session
    (s : pmu_state) (extid : Z) (cfg : sbi_trap_regs) (out_val : Z) :
  ecall_ids_distinct ->
  SBI_ENOTSUPP < 0 ->
  XLEN <> 32 -> XLEN <= 2 ^ 32 ->
  get_cidx_type (a2 cfg) = SBI_PMU_EVENT_TYPE_FW ->
  SBI_PMU_EVENT_TYPE_FW < SBI_PMU_EVENT_TYPE_MAX ->
  0 <= a2 cfg < 2 ^ 32 ->
  a2 cfg <> SBI_PMU_EVENT_IDX_INVALID ->
  0 <= get_cidx_code (a2 cfg) < SBI_PMU_FW_EVENT_MAX ->
  0 <= a0 cfg < total_ctrs s ->
  0 <= num_hw_ctrs s ->
  total_ctrs s <= XLEN ->
  total_ctrs s <= SBI_PMU_HW_CTR_MAX + SBI_PMU_FW_CTR_MAX ->
  hart_tables_ok s ->
  exists r c s1,
    sbi_ecall_pmu_handler extid SBI_EXT_PMU_COUNTER_CFG_MATCH cfg out_val s
    = Done (r, c) s1
    /\ (r = SBI_ENOTSUPP /\ c = out_val /\ s1 = s
        \/ r = 0 /\ num_hw_ctrs s < c < total_ctrs s
           /\ forall start out1, a0 start = c ->
                exists s2,
                  sbi_ecall_pmu_handler extid SBI_EXT_PMU_COUNTER_START
                    start out1 s1
                  = Done (0, out1) s2
                  /\ forall read out2, a0 read = c ->
                       sbi_ecall_pmu_handler extid
                         SBI_EXT_PMU_COUNTER_FW_READ read out2 s2
                       = Done (0, a1 start mod 2 ^ XLEN) s2).
Proof.
  intros Hd Hns Hx Hx32 Hty Hmax Hev Hinv Hcode Hbase Hnhw Htx Htot Hok.
  destruct (sbi_pmu_get_ctr_match_fw s (a0 cfg) (a1 cfg) (a2 cfg) (a3 cfg)
              (a4 cfg) Hns Hty Hmax Hbase Hnhw Htx Htot Hok)
    as (c & s1 & Hrun & Hcase).
  rewrite sbi_ecall_pmu_handler_cfg_match by done.
  erewrite bind_done by exact Hrun.
  destruct Hcase as [(-> & -> & _) | (Hc & Hcand & Hs1)].
  { replace (SBI_ENOTSUPP >=? 0) with false by lia.
    eexists _, _, _. split; [reflexivity |]. by left. }
  replace (c >=? 0) with true by lia.
  assert (XLEN < 2 ^ XLEN) as Hpow by (apply Z.pow_gt_lin_r; lia).
  assert (ulong c = c) as Hul by (unfold ulong; apply Z.mod_small; lia).
  assert (u32 c = c) as Hu32 by (unfold u32; apply Z.mod_small; lia).
  assert (u32 (a2 cfg) = a2 cfg) as Hevu
    by (unfold u32; apply Z.mod_small; lia).
  rewrite Hul. eexists 0, c, s1. split; [reflexivity |]. right.
  split; [done |]. split; [lia |].
  unfold fw_candidate in Hcand.
  destruct (index2 (active_events s) (mhartid s) c) as [old |] eqn:Hold;
    [| done].
  destruct (hart_tables_ok_fw s (get_cidx_code (a2 cfg)) Hok Hcode)
    as [e He].
  assert (bound_to s1 c (a2 cfg)) as Hb1.
  { rewrite Hs1. split; [cbn; lia |]. cbn [active_events set_active_events
      mhartid]. rewrite Hevu.
    split; [by eapply index2_update2_eq |].
    split; [lia |]. split; [done |]. lia. }
  intros start out1 Hstart.
  rewrite sbi_ecall_pmu_handler_start by done. rewrite Hstart, Hu32.
  erewrite bind_done
    by (apply (sbi_pmu_start_ctr_fw s1 c (a2 cfg) (a1 start) e);
        [done | done | by rewrite Hs1]).
  eexists. split; [reflexivity |].
  intros read out2 Hread.
  rewrite sbi_ecall_pmu_handler_fw_read by done. rewrite Hread, Hu32.
  erewrite (sbi_pmu_read_ctr_fw _ c (a2 cfg) out2
              (mk_fw_event (event_idx e) (ulong (a1 start)) true));
    [done | | done |].
  - destruct Hb1 as (? & ? & ?). split; [done |]. split; [| done]. done.
  - cbn [fw_event_map set_fw_event_map mhartid].
    eapply index2_update2_eq. by rewrite Hs1.
Qed.

Lemma lor_high_word_mod hi lo :
  0 <= lo < 2 ^ 32 ->
  Z.lor (u64 (Z.shiftl (u64 hi) 32)) lo mod 2 ^ 32 = lo.
Proof.
  intros Hlo. apply Z.bits_inj'. intros n Hn.
  destruct (Z_lt_le_dec n 32) as [Hlt | Hge].
  - rewrite Z.mod_pow2_bits_low by lia. rewrite Z.lor_spec. unfold u64.
    rewrite (Z.mod_pow2_bits_low _ 64 n) by lia.
    by rewrite Z.shiftl_spec_low by lia.
  - rewrite Z.mod_pow2_bits_high by lia. symmetry.
    destruct (Z.eq_dec lo 0) as [-> | Hne]; [apply Z.bits_0 |].
    apply Z.bits_above_log2; [lia |].
    assert (Z.log2 lo < 32) by (apply Z.log2_lt_pow2; lia). lia.
Qed.

Lemma sbi_ecall_pmu_handler_start_32 extid regs out_val s :
  ecall_ids_distinct ->
  XLEN = 32 ->
  sbi_ecall_pmu_handler extid SBI_EXT_PMU_COUNTER_START regs out_val s
  = bind (sbi_pmu_start_ctr (u32 (a0 regs))
            (Z.lor (u64 (Z.shiftl (u64 (a1 regs)) 32)) (a2 regs)))
      (fun r => ret (r, out_val)) s.
Proof.
  intros Hd Hx.
  apply ecall_ids_distinct_neq in Hd as (_ & _ & _ & _ & _ & ? & ? & ? & ?).
  unfold sbi_ecall_pmu_handler.
  replace (SBI_EXT_PMU_COUNTER_START =? SBI_EXT_PMU_NUM_COUNTERS)
    with false by lia.
  replace (SBI_EXT_PMU_COUNTER_START =? SBI_EXT_PMU_COUNTER_GET_INFO)
    with false by lia.
  replace (SBI_EXT_PMU_COUNTER_START =? SBI_EXT_PMU_COUNTER_CFG_MATCH)
    with false by lia.
  replace (SBI_EXT_PMU_COUNTER_START =? SBI_EXT_PMU_COUNTER_FW_READ)
    with false by lia.
  rewrite Z.eqb_refl. by replace (XLEN =? 32) with true by lia.
Qed.

(** X21: on a hart with 32-bit registers the handler assembles the initial
    value of a start call from a1 (high word) and a2 (low word), but a
    firmware counter is one word wide: after a start call (a0 and a2 below
    2^32) on a counter validly bound to a firmware event whose code lies
    inside the row of fw_event_map, which returns 0 and leaves *out_val
    alone, a read returns a2; the high word a1 is lost. *)
Theorem ecall_start_fw_on_32_bits
    (s : pmu_state) (extid : Z) (start : sbi_trap_regs) (out_val ev : Z) :
  ecall_ids_distinct ->
  XLEN = 32 ->
  0 <= a0 start < 2 ^ 32 ->
  0 <= a2 start < 2 ^ 32 ->
  bound_to s (a0 start) ev ->
  get_cidx_type ev = SBI_PMU_EVENT_TYPE_FW ->
  is_Some (index2 (fw_event_map s) (mhartid s) (get_cidx_code ev)) ->
  exists s',
    sbi_ecall_pmu_handler extid SBI_EXT_PMU_COUNTER_START start out_val s
    = Done (0, out_val) s'
    /\ forall cval,
         sbi_pmu_read_ctr (a0 start) cval s' = Done (0, a2 start) s'.
Proof.
  intros Hd Hx Hc Hlo Hb Hty [e He].
  rewrite sbi_ecall_pmu_handler_start_32 by done.
  assert (u32 (a0 start) = a0 start) as ->
    by (unfold u32; apply Z.mod_small; lia).
  erewrite bind_done by (by apply (sbi_pmu_start_ctr_fw s _ ev _ e)).
  eexists. split; [reflexivity |]. intros cval.
  erewrite (sbi_pmu_read_ctr_fw _ (a0 start) ev cval
              (mk_fw_event (event_idx e) (ulong _) true)).
  - cbn [curr_count]. unfold ulong. rewrite Hx.
    by rewrite lor_high_word_mod.
  - by eapply bound_to_ext; [.. | exact Hb].
  - done.
  - cbn [fw_event_map set_fw_event_map mhartid].
    by eapply index2_update2_eq.
Qed.

End EcallHandler.

(** ** The operations on the sample harts *)

Section SampleRv64.

#[local] Existing Instance rv64.
#[local] Existing Instance sbi_ecall_ids.

Lemma rv64_csr_numbers_ok : csr_numbers_ok.
Proof. unfold csr_numbers_ok. by_computation. Qed.

Lemma rv64_booted_tables_ok : hart_tables_ok rv64_booted.
Proof.
  unfold hart_tables_ok. vm_compute. do 2 eexists.
  repeat split; reflexivity.
Qed.

Lemma rv64_fw_started_tables_ok : hart_tables_ok rv64_fw_started.
Proof.
  unfold hart_tables_ok. vm_compute. do 2 eexists.
  repeat split; reflexivity.
Qed.

Lemma rv64_booted_table_ok : table_ok rv64_booted.
Proof.
  unfold table_ok. vm_compute. repeat split; try lia; discriminate.
Qed.

Lemma unbound_counter_refused_witness :
  sbi_pmu_read_ctr 5 9 rv64_booted = Done (SBI_EINVAL, 9) rv64_booted
  /\ sbi_pmu_start_ctr 5 0 rv64_booted = Done SBI_EINVAL rv64_booted
  /\ sbi_pmu_stop_ctr 5 true rv64_booted = Done SBI_EINVAL rv64_booted.
Proof.
  assert (SBI_EINVAL < 0) as Hneg by by_computation.
  assert (index2 (active_events rv64_booted) (mhartid rv64_booted) 5
          = Some 4294967295) as Hev by by_computation.
  assert (total_ctrs rv64_booted <= 5
          \/ 4294967295 = SBI_PMU_EVENT_IDX_INVALID
          \/ SBI_PMU_EVENT_TYPE_MAX <= get_cidx_type 4294967295) as Hbad
    by (right; left; reflexivity).
  exact (unbound_counter_refused rv64_booted 5 4294967295 9 0 true
           Hneg Hev Hbad).
Defined.

Lemma fw_start_read_round_trip_witness :
  exists s',
    sbi_pmu_start_ctr 32 7 rv64_fw_bound = Done 0 s'
    /\ sbi_pmu_read_ctr 32 0 s' = Done (0, 7 mod 2 ^ XLEN) s'.
Proof.
  assert (bound_to rv64_fw_bound 32 983043) as Hb
    by (unfold bound_to; by_computation).
  assert (get_cidx_type 983043 = SBI_PMU_EVENT_TYPE_FW) as Hty
    by by_computation.
  assert (is_Some (index2 (fw_event_map rv64_fw_bound)
                     (mhartid rv64_fw_bound) (get_cidx_code 983043)))
    as Hin by by_computation.
  pose proof (fw_start_read_round_trip rv64_fw_bound 32 983043 7 0
                Hb Hty Hin) as (s' & Hstart & Hread & _).
  exists s'. split; [exact Hstart | exact Hread].
Defined.

Lemma fw_counter_counts_witness :
  exists s1 s2,
    sbi_pmu_start_ctr 32 7 rv64_fw_bound = Done 0 s1
    /\ incr_times 3 (get_cidx_code 983043) s1 = Done (replicate 3 0) s2
    /\ sbi_pmu_read_ctr 32 0 s2
       = Done (0, (7 + Z.of_nat 3) mod 2 ^ XLEN) s2.
Proof.
  assert (bound_to rv64_fw_bound 32 983043) as Hb
    by (unfold bound_to; by_computation).
  assert (get_cidx_type 983043 = SBI_PMU_EVENT_TYPE_FW) as Hty
    by by_computation.
  assert (get_cidx_code 983043 < SBI_PMU_FW_MAX) as Hlt by by_computation.
  assert (is_Some (index2 (fw_event_map rv64_fw_bound)
                     (mhartid rv64_fw_bound) (get_cidx_code 983043)))
    as Hin by by_computation.
  exact (fw_counter_counts rv64_fw_bound 32 983043 7 0 3 Hb Hty Hlt Hin).
Defined.

Lemma fw_counter_stopped_keeps_count_witness :
  exists s1 s2,
    sbi_pmu_start_ctr 32 7 rv64_fw_bound = Done 0 s1
    /\ sbi_pmu_stop_ctr 32 false s1 = Done 0 s2
    /\ incr_times 3 (get_cidx_code 983043) s2
       = Done (replicate 3 (if get_cidx_code 983043 >=? SBI_PMU_FW_MAX
                            then SBI_EINVAL else 0)) s2
    /\ sbi_pmu_read_ctr 32 0 s2 = Done (0, 7 mod 2 ^ XLEN) s2.
Proof.
  assert (bound_to rv64_fw_bound 32 983043) as Hb
    by (unfold bound_to; by_computation).
  assert (get_cidx_type 983043 = SBI_PMU_EVENT_TYPE_FW) as Hty
    by by_computation.
  assert (is_Some (index2 (fw_event_map rv64_fw_bound)
                     (mhartid rv64_fw_bound) (get_cidx_code 983043)))
    as Hin by by_computation.
  exact (fw_counter_stopped_keeps_count rv64_fw_bound 32 983043 7 0 3
           Hb Hty Hin).
Defined.

Lemma hw_start_succeeds_witness :
  exists s',
    sbi_pmu_start_ctr 0 100 rv64_cycle_bound = Done 0 s'
    /\ running s' 0 = true
    /\ sbi_pmu_read_hw_ctr 0 s' = Done (0, 100 mod 2 ^ XLEN) s'.
Proof.
  assert (XLEN <> 32) as Hx by by_computation.
  assert (bound_to rv64_cycle_bound 0 0) as Hb
    by (unfold bound_to; by_computation).
  assert (get_cidx_type 0 <> SBI_PMU_EVENT_TYPE_FW) as Hty by by_computation.
  assert (0 <= 0 < XLEN) as Hc by by_computation.
  assert (0 <= num_hw_ctrs rv64_cycle_bound) as Hn by by_computation.
  assert (running rv64_cycle_bound 0 = false) as Hrun by by_computation.
  pose proof (hw_start_succeeds rv64_cycle_bound 0 0 100
                rv64_csr_numbers_ok Hx Hb Hty Hc Hn Hrun)
    as (s' & Hstart & Hr & Hread & _).
  exists s'. split; [exact Hstart |]. split; [exact Hr | exact Hread].
Defined.

Lemma hw_stop_succeeds_witness :
  exists s',
    sbi_pmu_stop_ctr 0 false rv64_cycle_started = Done 0 s'
    /\ running s' 0 = false
    /\ available s' 0 = true
    /\ bound_to s' 0 0.
Proof.
  assert (SBI_EALREADY_STOPPED < 0) as Hneg by by_computation.
  assert (bound_to rv64_cycle_started 0 0) as Hb
    by (unfold bound_to; by_computation).
  assert (get_cidx_type 0 <> SBI_PMU_EVENT_TYPE_FW) as Hty by by_computation.
  assert (0 <= 0 < XLEN) as Hc by by_computation.
  assert (running rv64_cycle_started 0 = true) as Hrun by by_computation.
  pose proof (hw_stop_succeeds rv64_cycle_started 0 0
                rv64_csr_numbers_ok Hneg Hb Hty Hc Hrun)
    as (s' & Hstop & Hr & Ha & Hb' & _).
  exists s'. split; [exact Hstop |]. split; [exact Hr |].
  split; [exact Ha | exact Hb'].
Defined.

Lemma hw_restart_witness :
  exists s1 s2 s3,
    sbi_pmu_start_ctr 0 100 rv64_cycle_bound = Done 0 s1
    /\ sbi_pmu_stop_ctr 0 false s1 = Done 0 s2
    /\ sbi_pmu_start_ctr 0 200 s2 = Done 0 s3
    /\ running s3 0 = true
    /\ sbi_pmu_read_hw_ctr 0 s3 = Done (0, 200 mod 2 ^ XLEN) s3.
Proof.
  assert (XLEN <> 32) as Hx by by_computation.
  assert (bound_to rv64_cycle_bound 0 0) as Hb
    by (unfold bound_to; by_computation).
  assert (get_cidx_type 0 <> SBI_PMU_EVENT_TYPE_FW) as Hty by by_computation.
  assert (0 <= 0 < XLEN) as Hc by by_computation.
  assert (0 <= num_hw_ctrs rv64_cycle_bound) as Hn by by_computation.
  assert (running rv64_cycle_bound 0 = false) as Hrun by by_computation.
  exact (hw_restart rv64_cycle_bound 0 0 100 200
           rv64_csr_numbers_ok Hx Hb Hty Hc Hn Hrun).
Defined.

Lemma exit_unbinds_every_counter_witness :
  exists s',
    sbi_pmu_exit rv64_fw_started = Done tt s'
    /\ sbi_pmu_read_ctr 32 0 s' = Done (SBI_EINVAL, 0) s'
    /\ sbi_pmu_start_ctr 32 1 s' = Done SBI_EINVAL s'
    /\ sbi_pmu_stop_ctr 32 false s' = Done SBI_EINVAL s'.
Proof.
  assert (SBI_EINVAL < 0) as Hneg by by_computation.
  assert (total_ctrs rv64_fw_started
          <= SBI_PMU_HW_CTR_MAX + SBI_PMU_FW_CTR_MAX) as Htot
    by by_computation.
  assert (SBI_PMU_FW_CTR_MAX <= SBI_PMU_FW_EVENT_MAX) as Hfw
    by by_computation.
  assert (0 <= 32 < total_ctrs rv64_fw_started) as Hc by by_computation.
  pose proof (exit_unbinds_every_counter rv64_fw_started Hneg
                rv64_fw_started_tables_ok Htot Hfw)
    as (s' & Hexit & Hall & _).
  exists s'. split; [exact Hexit |]. exact (Hall 32 0 1 false Hc).
Defined.

Lemma init_cold_boot_witness :
  exists s',
    sbi_pmu_init rv64_platform_pmu_init true (boot_state 0 idle_csrs)
    = Done 0 s'
    /\ num_hw_ctrs s' = sbi_hart_mhpm_count + 2
    /\ total_ctrs s' = sbi_hart_mhpm_count + 2 + SBI_PMU_FW_CTR_MAX
    /\ sbi_pmu_num_ctr s' = Done (total_ctrs s') s'.
Proof.
  assert (rv64_platform_pmu_init (boot_state 0 idle_csrs)
          = Done 0 (state_after rv64_platform_pmu_init
                      (boot_state 0 idle_csrs))) as Hp by by_computation.
  assert (hart_tables_ok (state_after rv64_platform_pmu_init
                            (boot_state 0 idle_csrs))) as Hok.
  { unfold hart_tables_ok. vm_compute. do 2 eexists.
    repeat split; reflexivity. }
  assert (0 <= sbi_hart_mhpm_count) as H0 by by_computation.
  assert (sbi_hart_mhpm_count + 2 <= SBI_PMU_HW_CTR_MAX) as H1
    by by_computation.
  assert (0 <= SBI_PMU_FW_CTR_MAX <= SBI_PMU_FW_EVENT_MAX) as H2
    by by_computation.
  assert (SBI_PMU_HW_CTR_MAX + SBI_PMU_FW_CTR_MAX < 2 ^ 32) as H3
    by by_computation.
  pose proof (proj2 (init_cold_boot rv64_platform_pmu_init
                       (boot_state 0 idle_csrs) _ 0 Hp Hok H0 H1 H2 H3)
                eq_refl)
    as (s' & Hinit & Hn & Ht & Hnum & _).
  exists s'. split; [exact Hinit |]. split; [exact Hn |].
  split; [exact Ht | exact Hnum].
Defined.

Lemma registry_records_accepted_calls_witness :
  exists rs s,
    register_all [RegisterRange 0 0 1; RegisterRange 0 0 2; RegisterRaw 7 8]
      (boot_state 0 no_csrs) = Done rs s
    /\ length rs = 3%nat
    /\ registry s
       = accepted [RegisterRange 0 0 1; RegisterRange 0 0 2; RegisterRaw 7 8]
           rs.
Proof.
  pose proof (registry_records_accepted_calls
                [RegisterRange 0 0 1; RegisterRange 0 0 2; RegisterRaw 7 8]
                0 no_csrs rv64_errors_negative)
    as (rs & s & Hrun & Hlen & Hreg & _).
  exists rs, s. split; [exact Hrun |]. split; [exact Hlen | exact Hreg].
Defined.

Lemma fw_match_returns_free_firmware_counter_witness :
  exists r s',
    sbi_pmu_get_ctr_match 0 (2 ^ 40 - 1) 983043 0 0 rv64_booted = Done r s'
    /\ (r = SBI_ENOTSUPP
        \/ num_hw_ctrs rv64_booted < r < total_ctrs rv64_booted
           /\ index2 (active_events s') (mhartid rv64_booted) r
              = Some (u32 983043)).
Proof.
  assert (SBI_ENOTSUPP < 0) as Hneg by by_computation.
  assert (get_cidx_type 983043 = SBI_PMU_EVENT_TYPE_FW) as Hty
    by by_computation.
  assert (SBI_PMU_EVENT_TYPE_FW < SBI_PMU_EVENT_TYPE_MAX) as Hmax
    by by_computation.
  assert (0 <= 0 < total_ctrs rv64_booted) as Hbase by by_computation.
  assert (0 <= num_hw_ctrs rv64_booted) as Hn by by_computation.
  assert (total_ctrs rv64_booted <= XLEN) as Hx by by_computation.
  assert (total_ctrs rv64_booted
          <= SBI_PMU_HW_CTR_MAX + SBI_PMU_FW_CTR_MAX) as Htot
    by by_computation.
  pose proof (fw_match_returns_free_firmware_counter rv64_booted 0
                (2 ^ 40 - 1) 983043 0 0 Hneg Hty Hmax Hbase Hn Hx Htot
                rv64_booted_tables_ok)
    as (r & s' & Hrun & Hcase).
  exists r, s'. split; [exact Hrun |].
  destruct Hcase as [[Hr _] | (Hrange & _ & _ & _ & Hbound & _)].
  - left. exact Hr.
  - right. split; [exact Hrange | exact Hbound].
Defined.

Lemma fw_match_twice_distinct_witness :
  exists r1 s1 r2 s2,
    sbi_pmu_get_ctr_match 0 (2 ^ 40 - 1) 983043 0 0 rv64_booted
    = Done r1 s1
    /\ sbi_pmu_get_ctr_match 0 (2 ^ 40 - 1) 983044 0 0 s1 = Done r2 s2
    /\ (0 <= r1 -> 0 <= r2 -> r1 <> r2).
Proof.
  assert (SBI_ENOTSUPP < 0) as Hneg by by_computation.
  assert (get_cidx_type 983043 = SBI_PMU_EVENT_TYPE_FW) as Hty
    by by_computation.
  assert (get_cidx_type 983044 = SBI_PMU_EVENT_TYPE_FW) as Hty2
    by by_computation.
  assert (SBI_PMU_EVENT_TYPE_FW < SBI_PMU_EVENT_TYPE_MAX) as Hmax
    by by_computation.
  assert (u32 983043 <> SBI_PMU_EVENT_IDX_INVALID) as Hinv
    by by_computation.
  assert (0 <= 0 < total_ctrs rv64_booted) as Hbase by by_computation.
  assert (0 <= num_hw_ctrs rv64_booted) as Hn by by_computation.
  assert (total_ctrs rv64_booted <= XLEN) as Hx by by_computation.
  assert (total_ctrs rv64_booted
          <= SBI_PMU_HW_CTR_MAX + SBI_PMU_FW_CTR_MAX) as Htot
    by by_computation.
  exact (fw_match_twice_distinct rv64_booted 0 (2 ^ 40 - 1) 983043 0 0
           0 (2 ^ 40 - 1) 983044 0 0 Hneg Hty Hty2 Hmax Hinv Hbase Hbase
           Hn Hx Htot rv64_booted_tables_ok).
Defined.

Lemma fw_match_invalid_event_binds_nothing_witness :
  exists r s',
    sbi_pmu_get_ctr_match 0 (2 ^ 40 - 1) 4294967295 0 0 rv64_booted
    = Done r s'
    /\ (r = SBI_ENOTSUPP
        \/ 0 <= r
           /\ index2 (active_events s') (mhartid s') r
              = Some SBI_PMU_EVENT_IDX_INVALID
           /\ forall ival,
                sbi_pmu_start_ctr r ival s' = Done SBI_EINVAL s').
Proof.
  assert (u32 4294967295 = SBI_PMU_EVENT_IDX_INVALID) as Hinv
    by by_computation.
  assert (get_cidx_type 4294967295 = SBI_PMU_EVENT_TYPE_FW) as Hty
    by by_computation.
  assert (SBI_PMU_EVENT_TYPE_FW < SBI_PMU_EVENT_TYPE_MAX) as Hmax
    by by_computation.
  assert (0 <= 0 < total_ctrs rv64_booted) as Hbase by by_computation.
  assert (0 <= num_hw_ctrs rv64_booted) as Hn by by_computation.
  assert (total_ctrs rv64_booted <= XLEN) as Hx by by_computation.
  assert (total_ctrs rv64_booted
          <= SBI_PMU_HW_CTR_MAX + SBI_PMU_FW_CTR_MAX) as Htot
    by by_computation.
  exact (fw_match_invalid_event_binds_nothing rv64_booted 0 (2 ^ 40 - 1)
           4294967295 0 0 rv64_errors_negative Hinv Hty Hmax Hbase Hn Hx
           Htot rv64_booted_tables_ok).
Defined.

Lemma fw_stop_reset_then_match_reuses_witness :
  exists s1 s2,
    sbi_pmu_stop_ctr 32 true rv64_fw_started = Done 0 s1
    /\ sbi_pmu_get_ctr_match 0 (2 ^ 40 - 1) 983044 0 0 s1 = Done 32 s2
    /\ index2 (active_events s2) (mhartid rv64_fw_started) 32
       = Some (u32 983044).
Proof.
  assert (SBI_ENOTSUPP < 0) as Hneg by by_computation.
  assert (bound_to rv64_fw_started 32 983043) as Hb
    by (unfold bound_to; by_computation).
  assert (get_cidx_type 983043 = SBI_PMU_EVENT_TYPE_FW) as Hty
    by by_computation.
  assert (is_Some (index2 (fw_event_map rv64_fw_started)
                     (mhartid rv64_fw_started) (get_cidx_code 983043)))
    as Hin by by_computation.
  assert (get_cidx_type 983044 = SBI_PMU_EVENT_TYPE_FW) as Hty2
    by by_computation.
  assert (SBI_PMU_EVENT_TYPE_FW < SBI_PMU_EVENT_TYPE_MAX) as Hmax
    by by_computation.
  assert (0 <= 0 < total_ctrs rv64_fw_started) as Hbase by by_computation.
  assert (0 <= num_hw_ctrs rv64_fw_started) as Hn by by_computation.
  assert (total_ctrs rv64_fw_started <= XLEN) as Hx by by_computation.
  assert (total_ctrs rv64_fw_started
          <= SBI_PMU_HW_CTR_MAX + SBI_PMU_FW_CTR_MAX) as Htot
    by by_computation.
  assert (Z.max 0 (num_hw_ctrs rv64_fw_started + 1) = 32) as Hfirst
    by by_computation.
  assert (Z.max 0 (num_hw_ctrs rv64_fw_started + 1) <= 32) as Hle
    by by_computation.
  assert (Z.testbit (ulong (Z.shiftl (2 ^ 40 - 1) 0)) 32 = true) as Hbit
    by by_computation.
  assert (forall j, Z.max 0 (num_hw_ctrs rv64_fw_started + 1) <= j < 32 ->
            fw_candidate rv64_fw_started (mhartid rv64_fw_started)
              (ulong (Z.shiftl (2 ^ 40 - 1) 0)) j = false) as Hnone
    by (rewrite Hfirst; intros j Hj; exfalso; clear - Hj; lia).
  exact (fw_stop_reset_then_match_reuses rv64_fw_started 32 983043 0
           (2 ^ 40 - 1) 983044 0 0 Hneg Hb Hty Hin Hty2 Hmax Hbase Hn Hx
           Htot rv64_fw_started_tables_ok Hle Hbit Hnone).
Defined.

Lemma rv64_no_wide_shift :
  ~ (XLEN <= 0 \/ SBI_PMU_HW_CTR_MAX = XLEN).
Proof.
  intros [H | H]; vm_compute in H; [by apply H | discriminate H].
Qed.

Lemma hw_match_sound_witness :
  exists r s',
    sbi_pmu_get_ctr_match 0 (2 ^ 32 - 1) 5 0 0 rv64_booted = Done r s'
    /\ (r = SBI_ENOTSUPP
        \/ hw_choice_ok rv64_booted 0 5 0 r
           /\ index2 (active_events s') (mhartid rv64_booted) r
              = Some (u32 5)).
Proof.
  assert (0 <= SBI_PMU_FW_CTR_MAX) as Hfw by by_computation.
  assert (SBI_PMU_HW_CTR_MAX <= XLEN) as Hmax by by_computation.
  assert (0 <= 0 < total_ctrs rv64_booted) as Hbase by by_computation.
  assert (get_cidx_type 5 < SBI_PMU_EVENT_TYPE_MAX) as Hty by by_computation.
  assert (get_cidx_type 5 <> SBI_PMU_EVENT_TYPE_FW) as Hhw by by_computation.
  pose proof (hw_match_sound rv64_booted 0 (2 ^ 32 - 1) 5 0 0
                rv64_errors_negative rv64_csr_numbers_ok
                rv64_booted_table_ok rv64_booted_tables_ok Hfw Hmax Hbase
                Hty Hhw) as H.
  cbv zeta in H. destruct H as [[_ Hwide] | (r & s' & Hrun & Hcase)].
  { exfalso. exact (rv64_no_wide_shift Hwide). }
  exists r, s'. split; [exact Hrun |].
  destruct Hcase as [[Hr _] | (Hgood & Hbound & _)].
  - left. exact Hr.
  - right. split; [exact Hgood | exact Hbound].
Defined.

Lemma hw_match_repeats_witness :
  exists r s1 s2,
    sbi_pmu_get_ctr_match 0 (2 ^ 32 - 1) 5 0 0 rv64_booted = Done r s1
    /\ sbi_pmu_get_ctr_match 0 (2 ^ 32 - 1) 5 0 0 s1 = Done r s2.
Proof.
  assert (0 <= SBI_PMU_FW_CTR_MAX) as Hfw by by_computation.
  assert (SBI_PMU_HW_CTR_MAX <= XLEN) as Hmax by by_computation.
  assert (0 <= 0) as Hbase by by_computation.
  assert (get_cidx_type 5 <> SBI_PMU_EVENT_TYPE_FW) as Hhw by by_computation.
  pose proof (hw_match_repeats rv64_booted 0 (2 ^ 32 - 1) 5 0 0
                rv64_errors_negative rv64_csr_numbers_ok
                rv64_booted_table_ok rv64_booted_tables_ok Hfw Hmax Hbase
                Hhw) as [[_ Hwide] | (r & s1 & s2 & Hrun1 & Hrun2 & _)].
  { exfalso. exact (rv64_no_wide_shift Hwide). }
  exists r, s1, s2. split; [exact Hrun1 | exact Hrun2].
Defined.

Lemma ecall_result_never_positive_witness :
  exists r out s',
    sbi_ecall_pmu_handler 32 SBI_EXT_PMU_COUNTER_STOP
      (mk_trap_regs 5 0 0 0 0) 9 rv64_booted = Done (r, out) s'
    /\ r <= 0.
Proof.
  assert (sbi_ecall_pmu_handler 32 SBI_EXT_PMU_COUNTER_STOP
            (mk_trap_regs 5 0 0 0 0) 9 rv64_booted
          = Done (SBI_EINVAL, 9) rv64_booted) as Hrun by by_computation.
  exists SBI_EINVAL, 9, rv64_booted. split; [exact Hrun |].
  exact (ecall_result_never_positive 32 SBI_EXT_PMU_COUNTER_STOP
           (mk_trap_regs 5 0 0 0 0) 9 rv64_booted SBI_EINVAL 9 rv64_booted
           rv64_errors_negative Hrun).
Defined.

Lemma ecall_fw_counter_session_witness :
  exists r c s1,
    sbi_ecall_pmu_handler 32 SBI_EXT_PMU_COUNTER_CFG_MATCH
      (mk_trap_regs 0 (2 ^ 40 - 1) 983043 0 0) 9 rv64_booted
    = Done (r, c) s1
    /\ (r = SBI_ENOTSUPP
        \/ r = 0
           /\ exists s2,
                sbi_ecall_pmu_handler 32 SBI_EXT_PMU_COUNTER_START
                  (mk_trap_regs c 7 0 0 0) 9 s1 = Done (0, 9) s2
                /\ sbi_ecall_pmu_handler 32 SBI_EXT_PMU_COUNTER_FW_READ
                     (mk_trap_regs c 0 0 0 0) 9 s2
                   = Done (0, 7 mod 2 ^ XLEN) s2).
Proof.
  assert (ecall_ids_distinct) as Hd.
  { unfold ecall_ids_distinct. cbn.
    repeat (apply NoDup_cons_2;
            [rewrite ?not_elem_of_cons; repeat split;
             first [discriminate | apply not_elem_of_nil] |]).
    apply NoDup_nil_2. }
  assert (SBI_ENOTSUPP < 0) as Hneg by by_computation.
  assert (XLEN <> 32) as Hx by by_computation.
  assert (XLEN <= 2 ^ 32) as Hx32 by by_computation.
  assert (get_cidx_type 983043 = SBI_PMU_EVENT_TYPE_FW) as Hty
    by by_computation.
  assert (SBI_PMU_EVENT_TYPE_FW < SBI_PMU_EVENT_TYPE_MAX) as Hmax
    by by_computation.
  assert (0 <= 983043 < 2 ^ 32) as Hev by by_computation.
  assert (983043 <> SBI_PMU_EVENT_IDX_INVALID) as Hinv by by_computation.
  assert (0 <= get_cidx_code 983043 < SBI_PMU_FW_EVENT_MAX) as Hcode
    by by_computation.
  assert (0 <= 0 < total_ctrs rv64_booted) as Hbase by by_computation.
  assert (0 <= num_hw_ctrs rv64_booted) as Hn by by_computation.
  assert (total_ctrs rv64_booted <= XLEN) as Htx by by_computation.
  assert (total_ctrs rv64_booted
          <= SBI_PMU_HW_CTR_MAX + SBI_PMU_FW_CTR_MAX) as Htot
    by by_computation.
  pose proof (ecall_fw_counter_session rv64_booted 32
                (mk_trap_regs 0 (2 ^ 40 - 1) 983043 0 0) 9 Hd Hneg Hx Hx32
                Hty Hmax Hev Hinv Hcode Hbase Hn Htx Htot
                rv64_booted_tables_ok)
    as (r & c & s1 & Hrun & Hcase).
  exists r, c, s1. split; [exact Hrun |].
  destruct Hcase as [[Hr _] | (Hr & _ & Hnext)].
  - left. exact Hr.
  - right. split; [exact Hr |].
    pose proof (Hnext (mk_trap_regs c 7 0 0 0) 9 eq_refl)
      as (s2 & Hstart & Hread).
    exists s2. split; [exact Hstart |].
    exact (Hread (mk_trap_regs c 0 0 0 0) 9 eq_refl).
Defined.

End SampleRv64.

Section SampleRv32.

#[local] Existing Instance rv32.

Lemma hw_start_narrow_value_witness :
  exists s',
    sbi_pmu_start_ctr 0 (3 * 2 ^ 32 + 70000) rv32_cycle_bound = Done 0 s'
    /\ running s' 0 = true
    /\ sbi_pmu_read_hw_ctr 0 s'
       = Done (0, Z.lor (Z.shiftl (((3 * 2 ^ 32 + 70000) / 2 ^ 32)
                                   mod 2 ^ 32) 32)
                        ((3 * 2 ^ 32 + 70000) mod 2 ^ 16)) s'.
Proof.
  assert (csr_numbers_ok) as Hcsr by (unfold csr_numbers_ok; by_computation).
  assert (XLEN = 32) as Hx by by_computation.
  assert (bound_to rv32_cycle_bound 0 0) as Hb
    by (unfold bound_to; by_computation).
  assert (get_cidx_type 0 <> SBI_PMU_EVENT_TYPE_FW) as Hty by by_computation.
  assert (0 <= 0 < XLEN) as Hc by by_computation.
  assert (0 <= num_hw_ctrs rv32_cycle_bound) as Hn by by_computation.
  assert (running rv32_cycle_bound 0 = false) as Hrun by by_computation.
  exact (hw_start_narrow_value rv32_cycle_bound 0 0 (3 * 2 ^ 32 + 70000)
           Hcsr Hx Hb Hty Hc Hn Hrun).
Defined.

Lemma ecall_start_fw_on_32_bits_witness :
  exists s',
    sbi_ecall_pmu_handler (I := sbi_ecall_ids) 32 3 (mk_trap_regs 9 1 7 0 0)
      0 rv32_fw_bound
    = Done (0, 0) s'
    /\ sbi_pmu_read_ctr 9 0 s' = Done (0, 7) s'.
Proof.
  assert (ecall_ids_distinct (I := sbi_ecall_ids)) as Hd.
  { unfold ecall_ids_distinct. cbn.
    repeat (apply NoDup_cons_2;
            [rewrite ?not_elem_of_cons; repeat split;
             first [discriminate | apply not_elem_of_nil] |]).
    apply NoDup_nil_2. }
  assert (XLEN = 32) as Hx by by_computation.
  assert (0 <= 9 < 2 ^ 32) as Hc by by_computation.
  assert (0 <= 7 < 2 ^ 32) as Hlo by by_computation.
  assert (bound_to rv32_fw_bound 9 983043) as Hb
    by (unfold bound_to; by_computation).
  assert (get_cidx_type 983043 = SBI_PMU_EVENT_TYPE_FW) as Hty
    by by_computation.
  assert (is_Some (index2 (fw_event_map rv32_fw_bound)
                     (mhartid rv32_fw_bound) (get_cidx_code 983043)))
    as Hin by by_computation.
  pose proof (ecall_start_fw_on_32_bits (I := sbi_ecall_ids) rv32_fw_bound
                32 (mk_trap_regs 9 1 7 0 0) 0 983043 Hd Hx Hc Hlo Hb Hty
                Hin) as (s' & Hstart & Hread).
  exists s'. split; [exact Hstart | exact (Hread 0)].
Defined.

Lemma Done_inj {A : Type} (a b : A) (s t : pmu_state) :
  Done a s = Done b t -> a = b /\ s = t.
Proof. by intros [= -> ->]. Qed.

Lemma hw_match_then_start_witness :
  exists s1,
    sbi_pmu_get_ctr_match 0 (2 ^ 32 - 1) 5 0 0 rv32_wide_booted = Done 10 s1
    /\ sbi_pmu_start_ctr 10 9 s1 = Done SBI_EINVAL s1.
Proof.
  assert (errors_negative) as Herr by (unfold errors_negative; by_computation).
  assert (csr_numbers_ok) as Hcsr by (unfold csr_numbers_ok; by_computation).
  assert (table_ok rv32_wide_booted) as Ht.
  { unfold table_ok. vm_compute. repeat split; try lia; discriminate. }
  assert (hart_tables_ok rv32_wide_booted) as Hok.
  { unfold hart_tables_ok. vm_compute. do 2 eexists.
    repeat split; reflexivity. }
  assert (0 <= SBI_PMU_FW_CTR_MAX) as Hfw by by_computation.
  assert (SBI_PMU_HW_CTR_MAX <= XLEN) as Hmax by by_computation.
  assert (0 <= 0 < total_ctrs rv32_wide_booted) as Hbase by by_computation.
  assert (0 <= 5 < 2 ^ 32) as Hev by by_computation.
  assert (5 <> SBI_PMU_EVENT_IDX_INVALID) as Hinv by by_computation.
  assert (get_cidx_type 5 < SBI_PMU_EVENT_TYPE_MAX) as Hty by by_computation.
  assert (get_cidx_type 5 <> SBI_PMU_EVENT_TYPE_FW) as Hhw by by_computation.
  assert (num_hw_ctrs rv32_wide_booted < total_ctrs rv32_wide_booted)
    as Htot by by_computation.
  assert (num_hw_ctrs rv32_wide_booted < 10) as Hgt by by_computation.
  assert (10 <> SBI_ENOTSUPP) as Hne by by_computation.
  assert (sbi_pmu_get_ctr_match 0 (2 ^ 32 - 1) 5 0 0 rv32_wide_booted
          = Done 10 (state_after
                       (sbi_pmu_get_ctr_match 0 (2 ^ 32 - 1) 5 0 0)
                       rv32_wide_booted)) as Hrun by by_computation.
  pose proof (hw_match_then_start rv32_wide_booted 0 (2 ^ 32 - 1) 5 0 0 9
                Herr Hcsr Ht Hok Hfw Hmax Hbase Hev Hinv Hty Hhw Htot)
    as [[Hu _] | (r & s1 & Hrun' & Hcase)].
  { exfalso. rewrite Hrun in Hu. discriminate Hu. }
  assert (r = 10) as Hr10.
  { rewrite Hrun in Hrun'. exact (eq_sym (proj1 (Done_inj _ _ _ _ Hrun'))). }
  subst r. exists s1. split; [exact Hrun' |].
  destruct Hcase as [Hr | (_ & _ & Hrefused)].
  - exfalso. exact (Hne Hr).
  - exact (Hrefused Hgt).
Defined.

(** The second case of X18 occurs: on the 32-bit sample hart, whose
    num_hw_ctrs is 8, with a mapping registered for the counter 10, the match
    for an event of that mapping returns 10, and start refuses the
    counter. *)
Lemma hw_match_beyond_num_hw_ctrs :
  exists s1,
    sbi_pmu_get_ctr_match 0 (2 ^ 32 - 1) 5 0 0 rv32_wide_booted = Done 10 s1
    /\ num_hw_ctrs rv32_wide_booted = 8
    /\ sbi_pmu_start_ctr 10 0 s1 = Done SBI_EINVAL s1.
Proof.
  eexists. split; [vm_compute; reflexivity |].
  split; vm_compute; reflexivity.
Qed.

End SampleRv32.
